(** * regolith: date tools and record filters

    A shallow embedding of [regolith/dates.py] and of the filtering part of
    [regolith/tools.py], with the properties of their specification.

    Python values are embedded as the inductive [val]; a function that can
    raise returns a [result], whose [Raise] carries the exception.  Strings
    are ASCII strings; Python integers are [Z]; Python floats are binary64
    numbers ([PrimFloat.float]). *)

From Stdlib Require Import ZArith Bool List Ascii String Lia Floats.
From Stdlib Require Uint63.
From Stdlib Require Import Permutation Sorted.
Import ListNotations.

Set Warnings "-inexact-float,-register-all".

Open Scope string_scope.
Open Scope Z_scope.

(** ** The fragment of Python's data model used by the tools *)

Module Py.

(** Values found in documents: scalars, [datetime.date] objects, lists and
    dicts with string keys (insertion-ordered, as Python's). *)
Inductive val : Type :=
| VNone
| VBool (b : bool)
| VInt (z : Z)
| VStr (s : string)
| VDate (y m d : Z)
| VList (l : list val)
| VDict (d : list (string * val)).

Definition dict := list (string * val).

(** Exceptions.  [SystemExit] carries the value formatted into its message. *)
Inductive exn : Type :=
| KeyError
| TypeError
| ValueError
| IndexError
| AttributeError
| OverflowError
| UnboundLocalError
| SystemExit (v : val).

Inductive result (A : Type) : Type :=
| OK (a : A)
| Raise (e : exn).
Arguments OK {A} a.
Arguments Raise {A} e.

Definition bind {A B} (r : result A) (k : A -> result B) : result B :=
  match r with
  | OK a => k a
  | Raise e => Raise e
  end.

Declare Scope py_scope.
Delimit Scope py_scope with py.
Notation "x <- c1 ;; c2" := (bind c1 (fun x => c2))
  (at level 61, c1 at next level, right associativity) : py_scope.
Notation "' pat <- c1 ;; c2" := (bind c1 (fun x => match x with pat => c2 end))
  (at level 61, pat pattern, c1 at next level, right associativity) : py_scope.
Open Scope py_scope.

(** [for x in l: ...] with a body that can raise, collecting results. *)
Fixpoint mapM {A B} (f : A -> result B) (l : list A) : result (list B) :=
  match l with
  | [] => OK []
  | x :: r => y <- f x ;; ys <- mapM f r ;; OK (y :: ys)
  end.

(** A comprehension with a condition that can raise. *)
Fixpoint filterM {A} (f : A -> result bool) (l : list A) : result (list A) :=
  match l with
  | [] => OK []
  | x :: r => b <- f x ;; ys <- filterM f r ;; OK (if b then x :: ys else ys)
  end.

(** *** Dicts *)

(** [d.get(k)], as an option. *)
Fixpoint get (d : dict) (k : string) : option val :=
  match d with
  | [] => None
  | (k', v) :: r => if String.eqb k k' then Some v else get r k
  end.

(** [d.get(k, default)]. *)
Definition get_default (d : dict) (k : string) (default : val) : val :=
  match get d k with
  | Some v => v
  | None => default
  end.

(** [d[k]]. *)
Definition item (d : dict) (k : string) : result val :=
  match get d k with
  | Some v => OK v
  | None => Raise KeyError
  end.

(** [d[k] = v]: an existing key keeps its place, a new one goes last. *)
Fixpoint set (d : dict) (k : string) (v : val) : dict :=
  match d with
  | [] => [(k, v)]
  | (k', v') :: r => if String.eqb k k' then (k', v) :: r else (k', v') :: set r k v
  end.

(** [k in d]. *)
Definition has_key (d : dict) (k : string) : bool :=
  match get d k with
  | Some _ => true
  | None => false
  end.

(** *** Truth, equality, hashing *)

(** [bool(v)]. *)
Definition truthy (v : val) : bool :=
  match v with
  | VNone => false
  | VBool b => b
  | VInt z => negb (z =? 0)
  | VStr s => negb (String.eqb s "")
  | VDate _ _ _ => true
  | VList l => match l with [] => false | _ => true end
  | VDict d => match d with [] => false | _ => true end
  end.

(** [a == b].  Booleans are the integers 0 and 1; lists compare element by
    element; dicts compare as maps, whatever the order of their keys. *)
Fixpoint py_eq (a b : val) {struct a} : bool :=
  match a, b with
  | VNone, VNone => true
  | VBool x, VBool y => Bool.eqb x y
  | VBool x, VInt y => (if x then 1 else 0) =? y
  | VInt x, VBool y => x =? (if y then 1 else 0)
  | VInt x, VInt y => x =? y
  | VStr x, VStr y => String.eqb x y
  | VDate y1 m1 d1, VDate y2 m2 d2 => (y1 =? y2) && (m1 =? m2) && (d1 =? d2)
  | VList l1, VList l2 =>
      (fix eq_list (l1 l2 : list val) {struct l1} : bool :=
         match l1, l2 with
         | [], [] => true
         | x :: r1, y :: r2 => py_eq x y && eq_list r1 r2
         | _, _ => false
         end) l1 l2
  | VDict d1, VDict d2 =>
      (Nat.eqb (List.length d1) (List.length d2)) &&
      (fix sub (d : dict) {struct d} : bool :=
         match d with
         | [] => true
         | (k, v) :: r =>
             match get d2 k with
             | Some v' => py_eq v v'
             | None => false
             end && sub r
         end) d1
  | _, _ => false
  end.

(** Values accepted as set members and dict keys. *)
Definition hashable (v : val) : bool :=
  match v with
  | VList _ | VDict _ => false
  | _ => true
  end.

(** [x in l] for a list [l]. *)
Definition in_list (x : val) (l : list val) : bool :=
  existsb (fun y => py_eq y x) l.

(** *** Characters and strings *)

Definition is_digit (c : ascii) : bool :=
  let n := N_of_ascii c in (48 <=? n)%N && (n <=? 57)%N.

Definition is_upper (c : ascii) : bool :=
  let n := N_of_ascii c in (65 <=? n)%N && (n <=? 90)%N.

Definition is_lower (c : ascii) : bool :=
  let n := N_of_ascii c in (97 <=? n)%N && (n <=? 122)%N.

Definition is_alpha (c : ascii) : bool := is_upper c || is_lower c.

(** Whitespace, as [str.strip] and [int] see it. *)
Definition is_space (c : ascii) : bool :=
  let n := N_of_ascii c in
  ((9 <=? n)%N && (n <=? 13)%N) || ((28 <=? n)%N && (n <=? 32)%N).

Definition lower_ascii (c : ascii) : ascii :=
  if is_upper c then ascii_of_N (N_of_ascii c + 32) else c.

(** [s.lower()]. *)
Fixpoint lower (s : string) : string :=
  match s with
  | EmptyString => EmptyString
  | String c r => String (lower_ascii c) (lower r)
  end.

Definition digit_val (c : ascii) : Z := Z.of_N (N_of_ascii c) - 48.

Fixpoint all_space (s : string) : bool :=
  match s with
  | EmptyString => true
  | String c r => is_space c && all_space r
  end.

(** The digits of an integer literal: decimal digits, single underscores
    between digits, then whitespace only.  [after_digit] tells that the
    previous character was a digit. *)
Fixpoint int_digits (s : string) (acc : Z) (after_digit : bool) : option Z :=
  match s with
  | EmptyString => if after_digit then Some acc else None
  | String c r =>
      if is_digit c then int_digits r (10 * acc + digit_val c) true
      else if Ascii.eqb c "_" then
        if after_digit then int_digits r acc false else None
      else if is_space c then
        if after_digit && all_space r then Some acc else None
      else None
  end.

Fixpoint lstrip (s : string) : string :=
  match s with
  | EmptyString => EmptyString
  | String c r => if is_space c then lstrip r else s
  end.

(** [int(s)] for a string: surrounding whitespace, an optional sign, the
    digits.  [None] stands for [ValueError]. *)
Definition int_of_string (s : string) : option Z :=
  match lstrip s with
  | String "-" r => option_map Z.opp (int_digits r 0 false)
  | String "+" r => int_digits r 0 false
  | r => int_digits r 0 false
  end.

(** [int(v)]. *)
Definition py_int (v : val) : result Z :=
  match v with
  | VInt z => OK z
  | VBool b => OK (if b then 1 else 0)
  | VStr s =>
      match int_of_string s with
      | Some z => OK z
      | None => Raise ValueError
      end
  | _ => Raise TypeError
  end.

(** [str(z)] for an integer. *)
Fixpoint pos_digits (fuel : nat) (z : Z) (acc : string) : string :=
  match fuel with
  | O => acc
  | S f =>
      let acc' := String (ascii_of_N (Z.to_N (48 + z mod 10))) acc in
      if z <? 10 then acc' else pos_digits f (z / 10) acc'
  end.

Definition str_of_int (z : Z) : string :=
  if z <? 0 then String "-" (pos_digits (S (Z.to_nat (Z.log2 (- z)))) (- z) "")
  else pos_digits (S (Z.to_nat (Z.log2 z))) z "".

(** ["{}".format(v)] for a scalar; a list, dict or date has no such
    rendering here ([None]). *)
Definition py_str (v : val) : option string :=
  match v with
  | VNone => Some "None"
  | VBool true => Some "True"
  | VBool false => Some "False"
  | VInt z => Some (str_of_int z)
  | VStr s => Some s
  | _ => None
  end.

(** [iter(v)]: the elements of a list, the characters of a string, the
    keys of a dict. *)
Fixpoint chars (s : string) : list val :=
  match s with
  | EmptyString => []
  | String c r => VStr (String c EmptyString) :: chars r
  end.

Definition py_iter (v : val) : result (list val) :=
  match v with
  | VList l => OK l
  | VStr s => OK (chars s)
  | VDict d => OK (map (fun kv => VStr (fst kv)) d)
  | _ => Raise TypeError
  end.

End Py.
Import Py.

(** ** regolith/dates.py *)

Module Dates.

Definition MONTHS : list (string * Z) :=
  [ ("jan", 1); ("jan.", 1); ("january", 1);
    ("feb", 2); ("feb.", 2); ("february", 2);
    ("mar", 3); ("mar.", 3); ("march", 3);
    ("apr", 4); ("apr.", 4); ("april", 4);
    ("may", 5); ("may.", 5);
    ("jun", 6); ("jun.", 6); ("june", 6);
    ("jul", 7); ("jul.", 7); ("july", 7);
    ("aug", 8); ("aug.", 8); ("august", 8);
    ("sep", 9); ("sep.", 9); ("sept", 9); ("sept.", 9); ("september", 9);
    ("oct", 10); ("oct.", 10); ("october", 10);
    ("nov", 11); ("nov.", 11); ("november", 11);
    ("dec", 12); ("dec.", 12); ("december", 12);
    ("", 1) ].

(** [MONTHS[k]], [None] standing for [KeyError]. *)
Fixpoint months_get (t : list (string * Z)) (k : string) : option Z :=
  match t with
  | [] => None
  | (k', n) :: r => if String.eqb k k' then Some n else months_get r k
  end.

(** [month_to_int(m)]: [int(m)], and on [ValueError] (which only a string
    raises) the table at [m.lower()]. *)
Definition month_to_int (m : val) : result Z :=
  match py_int m with
  | Raise ValueError =>
      match m with
      | VStr s =>
          match months_get MONTHS (lower s) with
          | Some n => OK n
          | None => Raise KeyError
          end
      | _ => Raise AttributeError
      end
  | r => r
  end.

(** The float nearest to an integer (ties to even), as Python converts an
    [int] operand of a float operation; [OverflowError] beyond the range. *)
Definition int_to_float (z : Z) : result float :=
  let f := SF2Prim (binary_normalize prec emax z 0 false) in
  if PrimFloat.is_infinity f then Raise OverflowError else OK f.

(** [date_to_float(y, m, d)]: [y + (m / 100.0) + (d / 10000.0)]. *)
Definition date_to_float (y m d : val) : result float :=
  y <- py_int y ;;
  m <- month_to_int m ;;
  d <- py_int d ;;
  fm <- int_to_float m ;;
  fy <- int_to_float y ;;
  fd <- int_to_float d ;;
  OK (fy + (fm / 100.0) + (fd / 10000.0))%float.

End Dates.
Import Dates.

(** ** The calendar: [calendar.monthrange], [datetime.date], [strptime] *)

Module Calendar.

Definition isleap (y : Z) : bool :=
  (y mod 4 =? 0) && (negb (y mod 100 =? 0) || (y mod 400 =? 0)).

Definition mdays (m : Z) : Z :=
  match m with
  | 1 => 31 | 2 => 28 | 3 => 31 | 4 => 30 | 5 => 31 | 6 => 30
  | 7 => 31 | 8 => 31 | 9 => 30 | 10 => 31 | 11 => 30 | 12 => 31
  | _ => 0
  end.

Definition days_in_month (y m : Z) : Z :=
  mdays m + (if (m =? 2) && isleap y then 1 else 0).

(** An integer argument of a calendar function. *)
Definition as_int (v : val) : result Z :=
  match v with
  | VInt z => OK z
  | VBool b => OK (if b then 1 else 0)
  | _ => Raise TypeError
  end.

(** [calendar.monthrange(year, month)[1]]: the month is checked first. *)
Definition monthrange (year : val) (month : Z) : result Z :=
  if (1 <=? month) && (month <=? 12) then
    y <- as_int year ;; OK (days_in_month y month)
  else Raise ValueError.

(** The range check of [datetime.date(y, m, d)]. *)
Definition date_ok (y m d : Z) : bool :=
  (1 <=? y) && (y <=? 9999) && (1 <=? m) && (m <=? 12) &&
  (1 <=? d) && (d <=? days_in_month y m).

(** [datetime.date(y, m, d)]. *)
Definition py_date (y m d : val) : result val :=
  y <- as_int y ;; m <- as_int m ;; d <- as_int d ;;
  if date_ok y m d then OK (VDate y m d) else Raise ValueError.

(** Dates compare by year, then month, then day. *)
Definition date_compare (a b : Z * Z * Z) : comparison :=
  let '(y1, m1, d1) := a in
  let '(y2, m2, d2) := b in
  match y1 ?= y2 with
  | Eq => match m1 ?= m2 with Eq => d1 ?= d2 | c => c end
  | c => c
  end.

Definition date_ltb (a b : Z * Z * Z) : bool :=
  match date_compare a b with Lt => true | _ => false end.

Definition date_leb (a b : Z * Z * Z) : bool :=
  match date_compare a b with Gt => false | _ => true end.

(** [s.split(sep)]. *)
Fixpoint split_on (sep : ascii) (s : string) : list string :=
  match s with
  | EmptyString => [EmptyString]
  | String c r =>
      if Ascii.eqb c sep then EmptyString :: split_on sep r
      else match split_on sep r with
           | h :: t => String c h :: t
           | [] => [String c EmptyString]
           end
  end.

Definition in_range (lo hi c : ascii) : bool :=
  (N_of_ascii lo <=? N_of_ascii c)%N && (N_of_ascii c <=? N_of_ascii hi)%N.

(** The directive [%d]: [3[0-1]|[1-2]\d|0[1-9]|[1-9]| [1-9]]. *)
Definition parse_day (s : string) : option Z :=
  match s with
  | String a (String b EmptyString) =>
      if Ascii.eqb a "3" && in_range "0" "1" b then Some (30 + digit_val b)
      else if in_range "1" "2" a && is_digit b then Some (10 * digit_val a + digit_val b)
      else if (Ascii.eqb a "0" || Ascii.eqb a " ") && in_range "1" "9" b then Some (digit_val b)
      else None
  | String a EmptyString => if in_range "1" "9" a then Some (digit_val a) else None
  | _ => None
  end.

(** The directive [%m]: [1[0-2]|0[1-9]|[1-9]]. *)
Definition parse_month (s : string) : option Z :=
  match s with
  | String a (String b EmptyString) =>
      if Ascii.eqb a "1" && in_range "0" "2" b then Some (10 + digit_val b)
      else if Ascii.eqb a "0" && in_range "1" "9" b then Some (digit_val b)
      else None
  | String a EmptyString => if in_range "1" "9" a then Some (digit_val a) else None
  | _ => None
  end.

(** The directive [%Y]: exactly four digits. *)
Definition parse_year (s : string) : option Z :=
  match s with
  | String a (String b (String c (String d EmptyString))) =>
      if is_digit a && is_digit b && is_digit c && is_digit d
      then Some (1000 * digit_val a + 100 * digit_val b + 10 * digit_val c + digit_val d)
      else None
  | _ => None
  end.

(** [datetime.strptime(s, "%d/%m/%Y")]: the three fields are what lies
    between the two slashes (no directive matches a slash, and the whole
    string must be consumed); then the date is range-checked. *)
Definition strptime_dmy (s : string) : result (Z * Z * Z) :=
  match split_on "/" s with
  | [ds; ms; ys] =>
      match parse_day ds, parse_month ms, parse_year ys with
      | Some d, Some m, Some y =>
          if date_ok y m d then OK (y, m, d) else Raise ValueError
      | _, _, _ => Raise ValueError
      end
  | _ => Raise ValueError
  end.

End Calendar.
Import Calendar.

(** ** regolith/tools.py: date predicates *)

Section DateRange.

(** [time.mktime] of the time tuple of a date (at midnight): the number of
    seconds since the epoch in the local time zone, which the predicates only
    compare. *)
Variable mktime : Z * Z * Z -> Z.

(** [time.mktime(datetime.strptime("{}/{}/{}".format(d, m, y),
    "%d/%m/%Y").timetuple())], with [m] already an integer.  A value with no
    scalar rendering cannot match the format. *)
Definition timestamp (d : val) (m : Z) (y : val) : result Z :=
  match py_str d, py_str y with
  | Some ds, Some ys =>
      t <- strptime_dmy (ds ++ "/" ++ str_of_int m ++ "/" ++ ys) ;;
      OK (mktime t)
  | _, _ => Raise ValueError
  end.

(** [is_since(y, sy, m, d, sm, sd)]. *)
Definition is_since (y sy m d sm sd : val) : result bool :=
  smi <- month_to_int sm ;;
  mi <- month_to_int m ;;
  since <- timestamp sd smi sy ;;
  date <- timestamp d mi y ;;
  OK (since <=? date).

(** [if not d: d = monthrange(y, month_to_int(m))[1]]. *)
Definition default_last_day (d y m : val) : result val :=
  if truthy d then OK d
  else mi <- month_to_int m ;; n <- monthrange y mi ;; OK (VInt n).

(** [is_before(y, by, m, d, bm, bd)]. *)
Definition is_before (y by_ m d bm bd : val) : result bool :=
  d <- default_last_day d y m ;;
  bd <- default_last_day bd by_ bm ;;
  bmi <- month_to_int bm ;;
  mi <- month_to_int m ;;
  before <- timestamp bd bmi by_ ;;
  date <- timestamp d mi y ;;
  OK (before >=? date).

(** [is_between(y, sy, by, m, d, sm, sd, bm, bd)]; [and] evaluates its
    second operand only when the first is true. *)
Definition is_between (y sy by_ m d sm sd bm bd : val) : result bool :=
  bd <- default_last_day bd by_ bm ;;
  a <- is_since y sy m d sm sd ;;
  if a then is_before y by_ m d bm bd else OK false.

End DateRange.

(** ** Vocabulary of the properties *)

(** The full English name of month [k]. *)
Definition month_name (k : Z) : string :=
  match k with
  | 1 => "january" | 2 => "february" | 3 => "march" | 4 => "april"
  | 5 => "may" | 6 => "june" | 7 => "july" | 8 => "august"
  | 9 => "september" | 10 => "october" | 11 => "november" | 12 => "december"
  | _ => ""
  end.

Definition abbreviation (k : Z) : string := substring 0 3 (month_name k).

(** The representations of month [k]: the integer, its decimal string, and
    the full name, the three-letter abbreviation and the abbreviation with a
    period, in any letter case. *)
Inductive represents (k : Z) : val -> Prop :=
| rep_int : represents k (VInt k)
| rep_numeric : represents k (VStr (str_of_int k))
| rep_name s : lower s = month_name k -> represents k (VStr s)
| rep_abbr s : lower s = abbreviation k -> represents k (VStr s)
| rep_abbr_dot s : lower s = abbreviation k ++ "." -> represents k (VStr s).

(** The integers [lo], [lo + 1], ..., [lo + n - 1]. *)
Fixpoint Zrange_from (lo : Z) (n : nat) : list Z :=
  match n with
  | O => []
  | S n' => lo :: Zrange_from (lo + 1) n'
  end.

Definition Zrange (lo n : Z) : list Z := Zrange_from lo (Z.to_nat n).

Fixpoint no_char (c : ascii) (s : string) : bool :=
  match s with
  | EmptyString => true
  | String c' r => negb (Ascii.eqb c' c) && no_char c r
  end.

(** A decimal rendering that a [strptime] directive reads back. *)
Definition field_ok (parse : string -> option Z) (z : Z) : bool :=
  no_char "/" (str_of_int z) &&
  match parse (str_of_int z) with
  | Some v => v =? z
  | None => false
  end.

(** Seconds since the epoch of a date at midnight, in UTC (the days are
    counted with the civil-calendar formula). *)
Definition utc_mktime (t : Z * Z * Z) : Z :=
  let '(y, m, d) := t in
  let y' := if m <=? 2 then y - 1 else y in
  let era := y' / 400 in
  let yoe := y' - era * 400 in
  let mp := (m + 9) mod 12 in
  let doy := (153 * mp + 2) / 5 + d - 1 in
  let doe := yoe * 365 + yoe / 4 - yoe / 100 + doy in
  86400 * (era * 146097 + doe - 719468).

(** ** regolith/tools.py: [fuzzy_retrieval] *)

(** The list [returns] built for one document: for each source in turn,
    [doc.get(k, [])], a list extending [returns] with its elements and any
    other value with itself. *)
Definition gather (doc : dict) (sources : list string) : list val :=
  flat_map (fun k => match get_default doc k (VList []) with
                     | VList l => l
                     | v => [v]
                     end) sources.

(** [[reti.lower() for reti in returns if isinstance(reti, str)]]. *)
Fixpoint lowered (returns : list val) : list string :=
  match returns with
  | [] => []
  | VStr s :: r => lower s :: lowered r
  | _ :: r => lowered r
  end.

(** The test made on one document.  [frozenset(returns)] hashes every
    gathered value, and [value in ...] hashes [value]. *)
Definition doc_matches (doc : dict) (sources : list string) (value : val)
    (case_sensitive : bool) : result bool :=
  let returns := gather doc sources in
  if case_sensitive then
    if forallb hashable returns then
      if hashable value then OK (in_list value returns) else Raise TypeError
    else Raise TypeError
  else
    match value with
    | VStr s => OK (existsb (String.eqb (lower s)) (lowered returns))
    | _ => OK false
    end.

(** [fuzzy_retrieval(documents, sources, value, case_sensitive)]; falling
    off the loop returns [None]. *)
Fixpoint fuzzy_retrieval (documents : list dict) (sources : list string)
    (value : val) (case_sensitive : bool) : result val :=
  match documents with
  | [] => OK VNone
  | doc :: rest =>
      b <- doc_matches doc sources value case_sensitive ;;
      if b then OK (VDict doc)
      else fuzzy_retrieval rest sources value case_sensitive
  end.

(** The gathered values of [doc] contain the target: some gathered value
    equals it, or, without case, some gathered string equals it once both
    are lowercased. *)
Definition contains (case_sensitive : bool) (doc : dict)
    (sources : list string) (value : val) : Prop :=
  if case_sensitive then
    exists g, In g (gather doc sources) /\ py_eq g value = true
  else
    exists s t, value = VStr s /\ In (VStr t) (gather doc sources) /\
                lower t = lower s.

(** What a case-sensitive lookup needs to hash. *)
Definition all_hashable (documents : list dict) (sources : list string)
    (value : val) : Prop :=
  hashable value = true /\
  Forall (fun doc => forallb hashable (gather doc sources) = true) documents.

(** The shape of a result: the first document that contains the target, or
    [None] when no document does. *)
Definition first_match (case_sensitive : bool) (documents : list dict)
    (sources : list string) (value : val) (r : val) : Prop :=
  (exists pre doc post,
      documents = (pre ++ doc :: post)%list /\ r = VDict doc /\
      contains case_sensitive doc sources value /\
      Forall (fun d => ~ contains case_sensitive d sources value) pre) \/
  (r = VNone /\
   Forall (fun d => ~ contains case_sensitive d sources value) documents).

(** ** regolith/tools.py: [merge_collections] *)

(** A dict keyed by hashable values, in insertion order: [d.get(k)],
    [d[k]] and [d[k] = v], the keys compared with [==]. *)
Fixpoint vget {A} (d : list (val * A)) (k : val) : option A :=
  match d with
  | [] => None
  | (k', v) :: r => if py_eq k' k then Some v else vget r k
  end.

Definition vitem {A} (d : list (val * A)) (k : val) : result A :=
  match vget d k with
  | Some v => OK v
  | None => Raise KeyError
  end.

Fixpoint vset {A} (d : list (val * A)) (k : val) (v : A) : list (val * A) :=
  match d with
  | [] => [(k, v)]
  | (k', v') :: r => if py_eq k' k then (k', v) :: r else (k', v') :: vset r k v
  end.

(** Modelled from the spec: [ChainDB] of [regolith/chained_db.py], whose
    source is missing.  A merged document is the composite of an inferior
    and a superior document; [ChainDB(inferior, superior)] builds it. *)
Record ChainDB : Type := { inferior : dict; superior : dict }.

(** [for k in coll: d[k.get("_id")] = k], from the dict [acc]. *)
Fixpoint index_by_id (coll : list dict) (acc : list (val * dict))
    : result (list (val * dict)) :=
  match coll with
  | [] => OK acc
  | k :: r =>
      let id := get_default k "_id" VNone in
      if hashable id then index_by_id r (vset acc id k) else Raise TypeError
  end.

(** [for kk, v in bdict.items(): if v.get(target_id, "") == k:
    b_for_a[k] = kk] *)
Fixpoint link_all (bitems : list (val * dict)) (target_id : string) (k : val)
    (b_for_a : list (val * val)) : list (val * val) :=
  match bitems with
  | [] => b_for_a
  | (kk, v) :: r =>
      link_all r target_id k
        (if py_eq (get_default v target_id (VStr "")) k
         then vset b_for_a k kk else b_for_a)
  end.

(** [for k in adict: ...] *)
Fixpoint link_keys (akeys : list val) (bdict : list (val * dict))
    (target_id : string) (b_for_a : list (val * val)) : list (val * val) :=
  match akeys with
  | [] => b_for_a
  | k :: r => link_keys r bdict target_id (link_all bdict target_id k b_for_a)
  end.

(** [for k, v in b_for_a.items(): chained[k] = ChainDB(adict[k], bdict[v])] *)
Fixpoint chain_all (adict bdict : list (val * dict)) (items : list (val * val))
    (chained : list (val * ChainDB)) : result (list (val * ChainDB)) :=
  match items with
  | [] => OK chained
  | (k, v) :: r =>
      x <- vitem adict k ;;
      y <- vitem bdict v ;;
      chain_all adict bdict r (vset chained k {| inferior := x; superior := y |})
  end.

(** [merge_collections(a, b, target_id)]. *)
Definition merge_collections (a b : list dict) (target_id : string)
    : result (list ChainDB) :=
  adict <- index_by_id a [] ;;
  bdict <- index_by_id b [] ;;
  let b_for_a := link_keys (map fst adict) bdict target_id [] in
  chained <- chain_all adict bdict b_for_a [] ;;
  OK (map snd chained).

(** The identity of a document and its foreign key, as the function reads
    them. *)
Definition doc_id (d : dict) : val := get_default d "_id" VNone.

Definition foreign_key (target_id : string) (d : dict) : val :=
  get_default d target_id (VStr "").

(** The keys of an insertion-ordered dict are pairwise different. *)
Inductive distinct_keys {A} : list (val * A) -> Prop :=
| distinct_nil : distinct_keys []
| distinct_cons k v d :
    Forall (fun kv => py_eq (fst kv) k = false) d ->
    distinct_keys d -> distinct_keys ((k, v) :: d).

(** What [index_by_id] builds from the collection [coll]: distinct hashable
    keys, each the identity of the document of [coll] filed under it. *)
Definition indexed (coll : list dict) (idx : list (val * dict)) : Prop :=
  distinct_keys idx /\
  Forall (fun kv => hashable (fst kv) = true) idx /\
  Forall (fun kv => In (snd kv) coll /\ hashable (doc_id (snd kv)) = true /\
                    py_eq (fst kv) (doc_id (snd kv)) = true) idx.

(** An entry [(k, kk)] of [b_for_a]: [k] is a key of [adict], and [kk] files
    in [bdict] a document whose foreign key is [k]. *)
Definition linked (akeys : list val) (bdict : list (val * dict))
    (target_id : string) (kv : val * val) : Prop :=
  In (fst kv) akeys /\
  exists v, In (snd kv, v) bdict /\
            py_eq (foreign_key target_id v) (fst kv) = true.

(** A merged document of the join of [a] and [b]. *)
Definition joined (a b : list dict) (target_id : string) (c : ChainDB) : Prop :=
  In (inferior c) a /\ In (superior c) b /\
  py_eq (foreign_key target_id (superior c)) (doc_id (inferior c)) = true.

(** ** regolith/tools.py: [filter_publications] *)

(** [set(v)]: the elements of an iterable, all hashable. *)
Definition to_set (v : val) : result (list val) :=
  l <- py_iter v ;;
  if forallb hashable l then OK l else Raise TypeError.

(** [v in authors], for a set of strings [authors]. *)
Definition str_in (authors : list string) (v : val) : bool :=
  match v with
  | VStr s => existsb (String.eqb s) authors
  | _ => false
  end.

(** [len((set(pub.get("author", [])) | set(pub.get("editor", []))) & authors)
    != 0]. *)
Definition relevant (authors : list string) (pub : dict) : result bool :=
  a <- to_set (get_default pub "author" (VList [])) ;;
  e <- to_set (get_default pub "editor" (VList [])) ;;
  OK (existsb (str_in authors) (a ++ e)).

(** One turn of the bolding loop: ["\\textbf{" + a + "}"] for a target
    author, [a] otherwise. *)
Definition bold_name (authors : list string) (a : val) : val :=
  match a with
  | VStr s => if existsb (String.eqb s) authors
              then VStr ("\textbf{" ++ s ++ "}") else a
  | _ => a
  end.

(** [pub = deepcopy(pub)] followed by the bolding loop over
    [pub["author"]]. *)
Definition bold_pub (authors : list string) (pub : dict) : result dict :=
  a <- item pub "author" ;;
  l <- py_iter a ;;
  OK (set pub "author" (VList (map (bold_name authors) l))).

(** The date window: [bibdate > since], and [bibdate < before] when
    [before] is given; no test at all without [since]. *)
Definition in_window (pub : dict) (since before : option (Z * Z * Z))
    : result bool :=
  match since with
  | Some s =>
      y <- py_int (get_default pub "year" VNone) ;;
      m <- month_to_int (get_default pub "month" (VInt 12)) ;;
      d <- py_int (get_default pub "day" (VInt 28)) ;;
      if date_ok y m d then
        if date_ltb s (y, m, d) then
          match before with
          | Some b => OK (date_ltb (y, m, d) b)
          | None => OK true
          end
        else OK false
      else Raise ValueError
  | None => OK true
  end.

(** The loop of [filter_publications] over the citations. *)
Fixpoint select_publications (citations : list dict) (authors : list string)
    (bold : bool) (since before : option (Z * Z * Z)) : result (list dict) :=
  match citations with
  | [] => OK []
  | pub :: rest =>
      r <- relevant authors pub ;;
      if r then
        pub' <- (if bold then bold_pub authors pub else OK pub) ;;
        keep <- in_window pub' since before ;;
        pubs <- select_publications rest authors bold since before ;;
        OK (if keep then pub' :: pubs else pubs)
      else select_publications rest authors bold since before
  end.

Section Sorting.

(** Sorting with a key: a key type with its [<], and the key of an
    element, which can raise. *)
Context {K : Type} (key_lt : K -> K -> bool).
Context {A : Type} (sort_key : A -> result K).

(** [list.sort] is stable: an element goes in front of the first one that
    is not smaller than it. *)
Fixpoint insert_sorted (x : K * A) (l : list (K * A)) : list (K * A) :=
  match l with
  | [] => [x]
  | y :: r => if key_lt (fst y) (fst x) then y :: insert_sorted x r
              else x :: y :: r
  end.

Fixpoint stable_sort (l : list (K * A)) : list (K * A) :=
  match l with
  | [] => []
  | x :: r => insert_sorted x (stable_sort r)
  end.

(** The keys are computed first, one call per element. *)
Definition decorate (l : list A) : result (list (K * A)) :=
  mapM (fun d => k <- sort_key d ;; OK (k, d)) l.

(** [sorted(l, key=sort_key, reverse=reverse)] and [l.sort(...)]: with
    [reverse] the list is reversed, sorted and reversed again, which keeps
    equal elements in their original order. *)
Definition py_sorted (l : list A) (reverse : bool) : result (list A) :=
  keyed <- decorate l ;;
  OK (map snd (if reverse then rev (stable_sort (rev keyed))
               else stable_sort keyed)).

(** The order in which the sort leaves two keyed elements, and two
    elements. *)
Definition key_le (x y : K * A) : Prop := key_lt (fst y) (fst x) = false.

Definition ascending (p q : A) : Prop :=
  exists kp kq, sort_key p = OK kp /\ sort_key q = OK kq /\
                key_lt kq kp = false.

End Sorting.

Section Publications.

(** Modelled from the spec: [doc_date_key] of [regolith/sorters.py], whose
    source is missing, is a sort-key provider: given a document it returns a
    comparable key.  It is a parameter here: a key type with its [<], and the
    key of a document. *)
Context {K : Type} (key_lt : K -> K -> bool) (doc_date_key : dict -> result K).

(** [filter_publications(citations, authors, reverse, bold, since, before)]. *)
Definition filter_publications (citations : list dict) (authors : list string)
    (reverse bold : bool) (since before : option (Z * Z * Z))
    : result (list dict) :=
  pubs <- select_publications citations authors bold since before ;;
  py_sorted key_lt doc_date_key pubs reverse.

End Publications.

(** The elements of an iterable field, none when it is not iterable. *)
Definition elements (v : val) : list val :=
  match py_iter v with
  | OK l => l
  | Raise _ => []
  end.

Definition participants (pub : dict) : list val :=
  (elements (get_default pub "author" (VList [])) ++
   elements (get_default pub "editor" (VList [])))%list.

(** The author-or-editor set of [pub] meets the target set. *)
Definition intersects (authors : list string) (pub : dict) : Prop :=
  exists s, In s authors /\ In (VStr s) (participants pub).

Definition intersectsb (authors : list string) (pub : dict) : bool :=
  existsb (str_in authors) (participants pub).

(** The copy of [pub] returned when bolding is requested. *)
Definition bolded (authors : list string) (pub : dict) : dict :=
  set pub "author"
      (VList (map (bold_name authors) (elements (get_default pub "author" (VList []))))).

(** A publication the default call can process: an [author] list and an
    (optional) [editor] list of hashable values. *)
Definition publication_ok (pub : dict) : Prop :=
  (exists l, get pub "author" = Some (VList l) /\ forallb hashable l = true) /\
  (exists e, to_set (get_default pub "editor" (VList [])) = OK e).

(** Modelled from the spec: an instance of the date-based sort key, which
    grows with the year and then the month of a document. *)
Definition year_month_key (d : dict) : result Z :=
  y <- py_int (get_default d "year" (VInt 1970)) ;;
  m <- month_to_int (get_default d "month" (VStr "jan")) ;;
  OK (100 * y + m).

(** Two publications of one author, the older one first. *)
Definition pub_2018 : dict :=
  [("_id", VStr "paper18"); ("author", VList [VStr "A. Author"; VStr "B. Other"]);
   ("year", VInt 2018); ("month", VStr "May")].

Definition pub_2020 : dict :=
  [("_id", VStr "paper20"); ("author", VList [VStr "C. Third"; VStr "A. Author"]);
   ("year", VInt 2020); ("month", VStr "Jan")].

Definition pub_other : dict :=
  [("_id", VStr "paper19"); ("author", VList [VStr "B. Other"]);
   ("year", VInt 2019)].

(** A volume that the target author edited, with no [author] field. *)
Definition pub_edited : dict :=
  [("_id", VStr "volume17"); ("editor", VList [VStr "A. Author"]);
   ("year", VInt 2017)].

(** Two proposals and the grant awarded to the first. *)
Definition proposals : list dict :=
  [ [("_id", VStr "prop1"); ("title", VStr "Nanostructure"); ("amount", VInt 100)];
    [("_id", VStr "prop2"); ("title", VStr "Declined")] ].

Definition grants : list dict :=
  [ [("_id", VStr "grant1"); ("proposal_id", VStr "prop1"); ("amount", VInt 90)] ].

(** ** Vocabulary of the sort-key properties *)

(** The float of a small natural number, through the primitive conversion,
    and the sort key of a date given by three such numbers. *)
Definition float_of_small (z : Z) : float := PrimFloat.of_uint63 (Uint63.of_Z z).

Definition encode (t : Z * Z * Z) : float :=
  let '(y, m, d) := t in
  (float_of_small y + float_of_small m / 100 + float_of_small d / 10000)%float.

(** The triple that follows [(y, m, d)] among the triples with a month in
    1-12 and a day in 0-99, in lexicographic order; and its rank. *)
Definition next_triple (t : Z * Z * Z) : Z * Z * Z :=
  let '(y, m, d) := t in
  if d <? 99 then (y, m, d + 1)
  else if m <? 12 then (y, m + 1, 0)
  else (y + 1, 1, 0).

Definition rank (t : Z * Z * Z) : Z :=
  let '(y, m, d) := t in 1200 * y + 100 * m + d.

Definition in_calendar (t : Z * Z * Z) : Prop :=
  let '(y, m, d) := t in 1 <= y <= 9999 /\ 1 <= m <= 12 /\ 0 <= d <= 99.

(** The month and day terms of a triple and of its successor, which do not
    depend on the year, and whether the successor is in the next year. *)
Definition step_terms (md : Z * Z) : float * float * float * float * bool :=
  let '(m, d) := md in
  let '(y', m', d') := next_triple (0, m, d) in
  ((float_of_small m / 100)%float, (float_of_small d / 10000)%float,
   (float_of_small m' / 100)%float, (float_of_small d' / 10000)%float, y' =? 1).

Definition step_increases (fy fy1 : float)
    (e : float * float * float * float * bool) : bool :=
  let '(cm, ed, cm', ed', wrap) := e in
  ((fy + cm + ed) <? ((if wrap then fy1 else fy) + cm' + ed'))%float.

Definition year_increases (table : list (float * float * float * float * bool))
    (y : Z) : bool :=
  forallb (step_increases (float_of_small y) (float_of_small (y + 1))) table.

Definition step_table : list (float * float * float * float * bool) :=
  map step_terms (list_prod (Zrange 1 12) (Zrange 0 100)).

Definition finite_small (z : Z) : bool :=
  negb (PrimFloat.is_infinity (float_of_small z)).

(** ** regolith/tools.py: [filter_presentations] *)

(** [number_suffix(number)]; a [bool] is an [int]. *)
Definition number_suffix (number : val) : string :=
  let suffix n :=
    if (10 <? n) && (n <? 20) then "th"
    else match n mod 10 with
         | 1 => "st" | 2 => "nd" | 3 => "rd" | _ => "th"
         end in
  match number with
  | VInt n => suffix n
  | VBool b => suffix (if b then 1 else 0)
  | _ => ""
  end.

(** [c[k]] for a dict, a list or a string. *)
Definition py_getitem (c k : val) : result val :=
  let index {A} (l : list A) (i : Z) : option A :=
    let n := Z.of_nat (List.length l) in
    let j := if i <? 0 then i + n else i in
    if (0 <=? j) && (j <? n) then nth_error l (Z.to_nat j) else None in
  let as_index (k : val) : option Z :=
    match k with
    | VInt i => Some i
    | VBool b => Some (if b then 1 else 0)
    | _ => None
    end in
  match c with
  | VDict d =>
      match k with
      | VStr s => item d s
      | _ => if hashable k then Raise KeyError else Raise TypeError
      end
  | VList l =>
      match as_index k with
      | Some i => match index l i with Some v => OK v | None => Raise IndexError end
      | None => Raise TypeError
      end
  | VStr s =>
      match as_index k with
      | Some i => match index (chars s) i with Some v => OK v | None => Raise IndexError end
      | None => Raise TypeError
      end
  | _ => Raise TypeError
  end.

(** [sep.join(l)]: every item must be a string. *)
Fixpoint join (sep : string) (l : list val) : result string :=
  match l with
  | [] => OK ""
  | VStr s :: r =>
      match r with
      | [] => OK s
      | _ => rest <- join sep r ;; OK (s ++ sep ++ rest)
      end
  | _ :: _ => Raise TypeError
  end.

(** The group member whose presentations are listed. *)
Definition member : val := VStr "sbillinge".

(** [fuzzy_retrieval(coll, ["aka", "name", "_id"], value,
    case_sensitive=False)]. *)
Definition resolve (coll : list dict) (value : val) : result val :=
  fuzzy_retrieval coll ["aka"; "name"; "_id"] value false.

(** [pauthors = pres["authors"]], a single string standing for the list of
    that string. *)
Definition pres_authors (pres : dict) : result (list val) :=
  pauthors <- item pres "authors" ;;
  match pauthors with
  | VStr _ => OK [pauthors]
  | _ => py_iter pauthors
  end.

(** [[author["_id"] for author in authors if author is not None]]. *)
Fixpoint author_ids (authors : list val) : result (list val) :=
  match authors with
  | [] => OK []
  | VNone :: r => author_ids r
  | a :: r => i <- py_getitem a (VStr "_id") ;; ids <- author_ids r ;; OK (i :: ids)
  end.

(** The test of the first loop: [member in authorids]. *)
Definition by_member (people : list dict) (pres : dict) : result bool :=
  pauthors <- pres_authors pres ;;
  authors <- mapM (resolve people) pauthors ;;
  authorids <- author_ids authors ;;
  OK (in_list member authorids).

(** The first loop: the relevance stage. *)
Definition firstclean (people presentations : list dict) : result (list dict) :=
  filterM (by_member people) presentations.

(** [pres[field] in allowed or "all" in allowed]. *)
Definition allowed_or_all (field : string) (allowed : list val) (pres : dict)
    : result bool :=
  v <- item pres field ;;
  OK (in_list v allowed || in_list (VStr "all") allowed).

(** [date(pres["begin_year"], month_to_int(pres["begin_month"]),
    int(pres["begin_day"]))]. *)
Definition presdate (pres : dict) : result (Z * Z * Z) :=
  y <- item pres "begin_year" ;;
  m <- item pres "begin_month" ;;
  m <- month_to_int m ;;
  d <- item pres "begin_day" ;;
  d <- py_int d ;;
  y <- as_int y ;;
  if date_ok y m d then OK (y, m, d) else Raise ValueError.

(** The second to fifth loops: status, type, and the two date bounds. *)
Definition select_presentations (first : list dict) (types : list val)
    (since before : option (Z * Z * Z)) (statuses : list val)
    : result (list dict) :=
  secondclean <- filterM (allowed_or_all "status" statuses) first ;;
  thirdclean <- filterM (allowed_or_all "type" types) secondclean ;;
  fourthclean <-
    match since with
    | Some s => filterM (fun pres => d <- presdate pres ;; OK (date_ltb s d)) thirdclean
    | None => OK thirdclean
    end ;;
  match before with
  | Some b => filterM (fun pres => d <- presdate pres ;; OK (date_ltb d b)) fourthclean
  | None => OK fourthclean
  end.

(** The displayed name of an author: the name of the person found, or the
    author as written. *)
Definition show_author (people : list dict) (author : val) : result val :=
  person <- resolve people author ;;
  match person with
  | VNone => OK author
  | _ => py_getitem person (VStr "name")
  end.

(** The first part of the last loop: the author list, the date and the
    ordinal suffixes. *)
Definition annotate_fields (people : list dict) (pres : dict) : result dict :=
  pauthors <- pres_authors pres ;;
  names <- mapM (show_author people) pauthors ;;
  authorlist <- join ", " names ;;
  let pres := set pres "authors" (VStr authorlist) in
  m <- item pres "begin_month" ;;
  m <- py_int m ;;
  let pres := set pres "begin_month" (VInt m) in
  y <- item pres "begin_year" ;;
  d <- item pres "begin_day" ;;
  date <- py_date y (VInt m) d ;;
  let pres := set pres "date" date in
  let pres := set pres "begin_day_suffix"
                  (VStr (number_suffix (get_default pres "begin_day" VNone))) in
  let pres := set pres "end_day_suffix"
                  (VStr (number_suffix (get_default pres "end_day" VNone))) in
  OK pres.

(** A printed warning: the department and the [_id] of the institution. *)
Inductive warning : Type :=
| DepartmentNotFound (department institution_id : val).

(** [institution["departments"][department]]. *)
Definition lookup_department (institution department : val) : result val :=
  departments <- py_getitem institution (VStr "departments") ;;
  py_getitem departments department.

(** The institution and department part of the last loop.  A lookup that
    finds nothing exits; so does, through the bare [except], any exception.
    A failed department lookup prints a warning and leaves a placeholder. *)
Definition dereference (institutions : list dict) (pres : dict)
    : result (dict * list warning) :=
  match get pres "institution" with
  | None => OK (pres, [])
  | Some reference =>
      match resolve institutions reference with
      | Raise _ => Raise (SystemExit reference)
      | OK VNone => Raise (SystemExit VNone)
      | OK inst =>
          let pres := set pres "institution" inst in
          match get pres "department" with
          | None => OK (pres, [])
          | Some department =>
              match lookup_department inst department with
              | OK found => OK (set pres "department" found, [])
              | Raise _ =>
                  id <- py_getitem inst (VStr "_id") ;;
                  OK (set pres "department" (VDict [("name", department)]),
                      [DepartmentNotFound department id])
              end
          end
      end
  end.

(** One turn of the last loop. *)
Definition annotate (people institutions : list dict) (pres : dict)
    : result (dict * list warning) :=
  pres <- annotate_fields people pres ;;
  dereference institutions pres.

(** The last loop, with what it prints. *)
Fixpoint annotate_all (people institutions : list dict) (l : list dict)
    : result (list dict * list warning) :=
  match l with
  | [] => OK ([], [])
  | pres :: r =>
      '(pres', w) <- annotate people institutions pres ;;
      '(rest, ws) <- annotate_all people institutions r ;;
      OK (pres' :: rest, (w ++ ws)%list)
  end.

(** [k.get("date", None)], a date for every annotated presentation. *)
Definition date_key (pres : dict) : result (Z * Z * Z) :=
  match get pres "date" with
  | Some (VDate y m d) => OK (y, m, d)
  | _ => Raise TypeError
  end.

(** [filter_presentations(people, presentations, institutions, types, since,
    before, statuses)]; the deep copy of the presentations is the list
    itself. *)
Definition filter_presentations (people presentations institutions : list dict)
    (types : list val) (since before : option (Z * Z * Z)) (statuses : list val)
    : result (list dict * list warning) :=
  first <- firstclean people presentations ;;
  presclean <- select_presentations first types since before statuses ;;
  '(presclean, printed) <- annotate_all people institutions presclean ;;
  sorted <- py_sorted date_ltb date_key presclean true ;;
  OK (sorted, printed).

(** Fuzzy-resolving one of the authors of [pres] against [people] yields a
    document whose [_id] is ["sbillinge"]. *)
Definition resolves_to_member (people : list dict) (pres : dict) : Prop :=
  exists pauthors author person,
    pres_authors pres = OK pauthors /\ In author pauthors /\
    fuzzy_retrieval people ["aka"; "name"; "_id"] author false = OK (VDict person) /\
    get person "_id" = Some (VStr "sbillinge").

(** A talk of the group member, given by an alias, and a talk of somebody
    else. *)
Definition group : list dict :=
  [ [("_id", VStr "sbillinge"); ("name", VStr "Simon Billinge");
     ("aka", VList [VStr "Billinge"; VStr "S. Billinge"])];
    [("_id", VStr "jdoe"); ("name", VStr "Jane Doe"); ("aka", VList [VStr "J. Doe"])] ].

Definition talk_member : dict :=
  [("_id", VStr "talk1"); ("authors", VList [VStr "s. billinge"; VStr "J. Doe"]);
   ("status", VStr "accepted"); ("type", VStr "invited");
   ("begin_year", VInt 2018); ("begin_month", VInt 5); ("begin_day", VInt 22);
   ("institution", VStr "columbiau"); ("department", VStr "astronomy")].

Definition talk_other : dict :=
  [("_id", VStr "talk2"); ("authors", VStr "jdoe");
   ("status", VStr "accepted"); ("type", VStr "poster");
   ("begin_year", VInt 2019); ("begin_month", VInt 3); ("begin_day", VInt 1)].

Definition universities : list dict :=
  [ [("_id", VStr "columbiau"); ("name", VStr "Columbia University");
     ("aka", VList [VStr "Columbia"]);
     ("departments", VDict [("apam", VDict [("name", VStr "Applied Physics")])])] ].

(** A talk at an institution that the collection does not know. *)
Definition talk_elsewhere : dict :=
  [("_id", VStr "talk3"); ("authors", VList [VStr "sbillinge"]);
   ("status", VStr "accepted"); ("type", VStr "plenary");
   ("begin_year", VInt 2017); ("begin_month", VInt 9); ("begin_day", VInt 3);
   ("institution", VStr "nowhereu")].

(** ** regolith/tools.py: the filters that work in place *)

(** The caller's documents are objects: [filter_service], [filter_patents]
    and [filter_licenses] receive a list of references and assign to the
    documents behind them.  The store maps an address (a position) to the
    document there; a collection is a list of addresses; the values nested
    in a document belong to it. *)
Definition addr := nat.
Definition store := list dict.

Definition load (h : store) (a : addr) : dict := nth a h [].

Fixpoint store_set (h : store) (a : addr) (d : dict) : store :=
  match h, a with
  | [], _ => []
  | _ :: r, O => d :: r
  | x :: r, S a' => x :: store_set r a' d
  end.

Definition SHORT_MONTH_NAMES : val :=
  VList [VNone; VStr "Jan"; VStr "Feb"; VStr "Mar"; VStr "Apr"; VStr "May";
         VStr "Jun"; VStr "Jul"; VStr "Aug"; VStr "Sept"; VStr "Oct";
         VStr "Nov"; VStr "Dec"].

(** [v.get(k, default)] for a nested value, which must be a dict. *)
Definition val_get (v : val) (k : string) (default : val) : result val :=
  match v with
  | VDict d => OK (get_default d k default)
  | _ => Raise AttributeError
  end.

(** The month rewriting shared by the filters:
    [if not i.get('month'): i['month'] =
       SHORT_MONTH_NAMES[month_to_int(i.get("begin_month", 0))]
     else: i['month'] = SHORT_MONTH_NAMES[month_to_int(i['month'])]]. *)
Definition rewrite_month (i : dict) : result dict :=
  let month := get_default i "month" VNone in
  let source := if truthy month then month else get_default i "begin_month" (VInt 0) in
  n <- month_to_int source ;;
  name <- py_getitem SHORT_MONTH_NAMES (VInt n) ;;
  OK (set i "month" name).

(** [end_date >= begin_period], with
    [end_date = date(end_year, i.get("end_month", 12), i.get("end_day", 28))]
    and [end_year] the first of the true fields among [years], else the
    current year. *)
Definition ends_since (i : dict) (years : list string) (today_year : Z)
    (begin_period : Z * Z * Z) : result bool :=
  let end_year :=
    match filter (fun k => truthy (get_default i k VNone)) years with
    | k :: _ => get_default i k VNone
    | [] => VInt today_year
    end in
  end_date <- py_date end_year (get_default i "end_month" (VInt 12))
                      (get_default i "end_day" (VInt 28)) ;;
  match end_date with
  | VDate y m d => OK (date_leb begin_period (y, m, d))
  | _ => Raise TypeError
  end.

(** One turn of the inner loop of [filter_service]: the item as it is
    appended to [myservice], or nothing. *)
Definition service_item (today_year : Z) (begin_period : Z * Z * Z) (type : val)
    (i : val) : result (option val) :=
  t <- val_get i "type" VNone ;;
  if py_eq t type then
    match i with
    | VDict d =>
        keep <- ends_since d ["year"; "end_year"] today_year begin_period ;;
        if keep then d' <- rewrite_month d ;; OK (Some (VDict d'))
        else OK None
    | _ => Raise AttributeError
    end
  else OK None.

Fixpoint keep_some {A} (l : list (option A)) : list A :=
  match l with
  | [] => []
  | Some x :: r => x :: keep_some r
  | None :: r => keep_some r
  end.

(** [filter_service(ppl, begin_period, type)]: [people = copy(ppl)] is a new
    list of the same documents. *)
Fixpoint filter_service_loop (h : store) (people : list addr)
    (begin_period : Z * Z * Z) (type : val) (today_year : Z)
    : result (store * list addr) :=
  match people with
  | [] => OK (h, [])
  | p :: rest =>
      let doc := load h p in
      svc <- py_iter (get_default doc "service" (VList [])) ;;
      kept <- mapM (service_item today_year begin_period type) svc ;;
      let myservice := keep_some kept in
      let h := store_set h p (set doc "service" (VList myservice)) in
      '(h, service) <- filter_service_loop h rest begin_period type today_year ;;
      OK (h, match myservice with [] => service | _ => p :: service end)
  end.

Definition filter_service (h : store) (ppl : list addr)
    (begin_period : Z * Z * Z) (type : val) (today_year : Z)
    : result (store * list addr) :=
  let people := ppl in
  filter_service_loop h people begin_period type today_year.

(** [x in s] for a string [s]: [x] must be a string, found in [s]. *)
Fixpoint is_substring (x s : string) : bool :=
  String.prefix x s ||
  match s with
  | EmptyString => false
  | String _ r => is_substring x r
  end.

Definition in_string (x : val) (s : string) : result bool :=
  match x with
  | VStr x => OK (is_substring x s)
  | _ => Raise TypeError
  end.

(** [i.get("status") in allowed_statuses and i.get("type") in kind]. *)
Definition status_and_kind (i : dict) (kind : string) : result bool :=
  if in_list (get_default i "status" VNone) [VStr "active"; VStr "pending"]
  then in_string (get_default i "type" VNone) kind
  else OK false.

(** [person in inventors], both resolved against the people. *)
Definition by_inventor (people : list dict) (target : val) (i : dict)
    : result bool :=
  invs <- item i "inventors" ;;
  invs <- py_iter invs ;;
  inventors <- mapM (resolve people) invs ;;
  person <- resolve people target ;;
  OK (in_list person inventors).

(** [date(event["year"], event["month"], day)], the day read from the event
    ([event.get("day", 28)]) or fixed. *)
Definition event_date (day : option Z) (event : val) : result (Z * Z * Z) :=
  y <- py_getitem event (VStr "year") ;;
  m <- py_getitem event (VStr "month") ;;
  d <- match day with
       | Some d => OK (VInt d)
       | None => val_get event "day" (VInt 28)
       end ;;
  date <- py_date y m d ;;
  match date with
  | VDate y m d => OK (y, m, d)
  | _ => Raise TypeError
  end.

(** With a [since] date: the events after it, sorted by date. *)
Definition events_after (i : dict) (since : Z * Z * Z) : result (list val) :=
  events <- item i "events" ;;
  events <- py_iter events ;;
  events <- filterM (fun event => d <- event_date None event ;;
                                   OK (date_ltb since d)) events ;;
  py_sorted date_ltb (event_date None) events false.

(** Without: all the events, sorted by month. *)
Definition events_by_month (i : dict) : result (list val) :=
  events <- item i "events" ;;
  events <- py_iter events ;;
  py_sorted date_ltb (event_date (Some 28)) events false.

(** One turn of the loop of [filter_patents], on the patent [i]: the patent as
    the turn leaves it when it appends it to the result. *)
Definition patent_turn (people : list dict) (target : val)
    (since : option (Z * Z * Z)) (today_year : Z) (i : dict)
    : result (option dict) :=
  ok <- status_and_kind i "patent" ;;
  mine <- (if ok then by_inventor people target i else OK false) ;;
  if mine then
    match since with
    | Some s =>
        recent <- ends_since i ["end_year"] today_year s ;;
        if recent then
          i <- rewrite_month i ;;
          events <- events_after i s ;;
          OK (Some (set i "events" (VList events)))
        else OK None
    | None =>
        _ <- ends_since i ["end_year"] today_year (1, 1, 1) ;;
        events <- events_by_month i ;;
        OK (Some (set i "events" (VList events)))
    end
  else OK None.

(** [filter_patents(patentscoll, people, target, since, before)]. *)
Fixpoint filter_patents (h : store) (patentscoll : list addr) (people : list dict)
    (target : val) (since before : option (Z * Z * Z)) (today_year : Z)
    : result (store * list addr) :=
  match patentscoll with
  | [] => OK (h, [])
  | a :: rest =>
      kept <- patent_turn people target since today_year (load h a) ;;
      let h := match kept with Some i => store_set h a i | None => h end in
      '(h, patents) <- filter_patents h rest people target since before today_year ;;
      OK (h, match kept with Some _ => a :: patents | None => patents end)
  end.

(** [sum(amounts)], from 0. *)
Fixpoint py_sum (amounts : list val) (acc : Z) : result Z :=
  match amounts with
  | [] => OK acc
  | VInt n :: r => py_sum r (acc + n)
  | VBool b :: r => py_sum r (acc + (if b then 1 else 0))
  | _ :: _ => Raise TypeError
  end.

(** [sum([event.get("amount") for event in events])]. *)
Definition sum_amounts (events : list val) : result Z :=
  amounts <- mapM (fun event => val_get event "amount" VNone) events ;;
  py_sum amounts 0.

(** One turn of the loop of [filter_licenses], on the license [i]: the
    license as the turn leaves it when it appends it to the result, and the
    local variable [events], which lives across the turns and is unbound
    until a turn assigns it. *)
Definition license_turn (people : list dict) (target : val)
    (since : option (Z * Z * Z)) (today_year : Z) (i : dict)
    (events_var : option (list val))
    : result (option dict * option (list val)) :=
  ok <- status_and_kind i "license" ;;
  mine <- (if ok then by_inventor people target i else OK false) ;;
  if mine then
    match since with
    | Some s =>
        recent <- ends_since i ["end_year"] today_year s ;;
        if recent then
          i <- rewrite_month i ;;
          all <- item i "events" ;;
          all <- py_iter all ;;
          total <- sum_amounts all ;;
          let i := set i "total_amount" (VInt total) in
          events <- events_after i s ;;
          OK (Some (set i "events" (VList events)), Some events)
        else OK (None, events_var)
    | None =>
        _ <- ends_since i ["end_year"] today_year (1, 1, 1) ;;
        match events_var with
        | None => Raise UnboundLocalError
        | Some previous =>
            total <- sum_amounts previous ;;
            let i := set i "total_amount" (VInt total) in
            events <- events_by_month i ;;
            OK (Some (set i "events" (VList events)), Some events)
        end
    end
  else OK (None, events_var).

(** [filter_licenses(patentscoll, people, target, since, before)]. *)
Fixpoint filter_licenses_loop (h : store) (patentscoll : list addr)
    (people : list dict) (target : val) (since before : option (Z * Z * Z))
    (today_year : Z) (events_var : option (list val))
    : result (store * list addr) :=
  match patentscoll with
  | [] => OK (h, [])
  | a :: rest =>
      '(kept, events_var) <-
        license_turn people target since today_year (load h a) events_var ;;
      let h := match kept with Some i => store_set h a i | None => h end in
      '(h, licenses) <-
        filter_licenses_loop h rest people target since before today_year events_var ;;
      OK (h, match kept with Some _ => a :: licenses | None => licenses end)
  end.

Definition filter_licenses (h : store) (patentscoll : list addr)
    (people : list dict) (target : val) (since before : option (Z * Z * Z))
    (today_year : Z) : result (store * list addr) :=
  filter_licenses_loop h patentscoll people target since before today_year None.

(** A person with three service records, and a patent and a license with an
    event before and an event after 2015. *)
Definition search_2019 : dict :=
  [("name", VStr "Faculty search"); ("type", VStr "department");
   ("year", VInt 2019); ("month", VStr "March")].

Definition committee_2001 : dict :=
  [("name", VStr "Safety committee"); ("type", VStr "department");
   ("year", VInt 2001)].

Definition reviewer_2019 : dict :=
  [("name", VStr "Reviewer"); ("type", VStr "profession"); ("year", VInt 2019)].

Definition servant : dict :=
  [("_id", VStr "sbillinge");
   ("service", VList [VDict search_2019; VDict committee_2001; VDict reviewer_2019])].

Definition filed_2010 : val :=
  VDict [("year", VInt 2010); ("month", VInt 1); ("amount", VInt 100)].

Definition paid_2019 : val :=
  VDict [("year", VInt 2019); ("month", VInt 4); ("amount", VInt 50)].

Definition patent_doc : dict :=
  [("_id", VStr "pat1"); ("status", VStr "active"); ("type", VStr "patent");
   ("inventors", VList [VStr "Billinge"]); ("begin_month", VInt 6);
   ("events", VList [paid_2019; filed_2010])].

Definition license_doc : dict :=
  [("_id", VStr "lic1"); ("status", VStr "active"); ("type", VStr "license");
   ("inventors", VList [VStr "Billinge"]); ("begin_month", VInt 6);
   ("events", VList [filed_2010; paid_2019])].

(** The sum of the amounts of all the events of a license. *)
Definition all_events_total (i : dict) (total : Z) : Prop :=
  exists events all,
    get i "events" = Some events /\ py_iter events = OK all /\
    sum_amounts all = OK total.

(** ** Renderings: [repr] and [str] *)

Definition backslash : ascii := "092"%char.
Definition single_quote : ascii := "039"%char.
Definition double_quote : ascii := "034"%char.

Definition hex_digit (n : N) : ascii :=
  ascii_of_N (if (n <? 10)%N then 48 + n else 87 + n).

(** [str.isprintable] on one character. *)
Definition printable (c : ascii) : bool :=
  let n := N_of_ascii c in
  negb ((n <? 32)%N || ((127 <=? n)%N && (n <=? 160)%N) || (n =? 173)%N).

(** One character of [repr(s)], for the quote in use. *)
Definition repr_char (quote c : ascii) : string :=
  let n := N_of_ascii c in
  if Ascii.eqb c quote || Ascii.eqb c backslash then String backslash (String c "")
  else if (n =? 9)%N then String backslash "t"
  else if (n =? 10)%N then String backslash "n"
  else if (n =? 13)%N then String backslash "r"
  else if printable c then String c ""
  else String backslash
         (String "x" (String (hex_digit (n / 16)) (String (hex_digit (n mod 16)) ""))).

Fixpoint repr_chars (quote : ascii) (s : string) : string :=
  match s with
  | EmptyString => EmptyString
  | String c r => repr_char quote c ++ repr_chars quote r
  end.

(** [repr(s)] for a string: double quotes only when the string holds a
    single quote and no double quote. *)
Definition repr_str (s : string) : string :=
  let quote :=
    if negb (no_char single_quote s) && no_char double_quote s
    then double_quote else single_quote in
  String quote (repr_chars quote s ++ String quote "").

(** [repr(v)]. *)
Fixpoint py_repr (v : val) : string :=
  match v with
  | VNone => "None"
  | VBool true => "True"
  | VBool false => "False"
  | VInt z => str_of_int z
  | VStr s => repr_str s
  | VDate y m d =>
      "datetime.date(" ++ str_of_int y ++ ", " ++ str_of_int m ++ ", "
        ++ str_of_int d ++ ")"
  | VList l =>
      "[" ++ (fix items (l : list val) : string :=
                match l with
                | [] => ""
                | x :: r =>
                    match r with
                    | [] => py_repr x
                    | _ :: _ => py_repr x ++ ", " ++ items r
                    end
                end) l ++ "]"
  | VDict d =>
      "{" ++ (fix items (d : list (string * val)) : string :=
                match d with
                | [] => ""
                | (k, x) :: r =>
                    match r with
                    | [] => repr_str k ++ ": " ++ py_repr x
                    | _ :: _ => repr_str k ++ ": " ++ py_repr x ++ ", " ++ items r
                    end
                end) d ++ "}"
  end.

Fixpoint zeros (n : nat) : string :=
  match n with
  | O => EmptyString
  | S n' => String "0" (zeros n')
  end.

(** ["%0<width>d"] for a natural number. *)
Definition zero_padded (width : nat) (z : Z) : string :=
  let s := str_of_int z in zeros (width - String.length s) ++ s.

(** [str(v)], which is also ["{}".format(v)]: a string is itself, a date is
    in ISO format, anything else is its [repr]. *)
Definition py_format (v : val) : string :=
  match v with
  | VStr s => s
  | VDate y m d => zero_padded 4 y ++ "-" ++ zero_padded 2 m ++ "-" ++ zero_padded 2 d
  | _ => py_repr v
  end.

(** ** regolith/dates.py: [begin_end_date] *)

(** The alternatives of the directive [%m] ([1[0-2]|0[1-9]|[1-9]]) at the
    head of a string, in the order in which the regular expression tries
    them, each with what follows it. *)
Definition month_heads (s : string) : list (Z * string) :=
  match s with
  | String a r =>
      (match r with
       | String b r' =>
           (if Ascii.eqb a "1" && in_range "0" "2" b
            then [(10 + digit_val b, r')] else []) ++
           (if Ascii.eqb a "0" && in_range "1" "9" b
            then [(digit_val b, r')] else [])
       | EmptyString => []
       end ++
       (if in_range "1" "9" a then [(digit_val a, r)] else []))%list
  | EmptyString => []
  end.

(** The same for [%d] ([3[0-1]|[1-2]\d|0[1-9]|[1-9]| [1-9]]). *)
Definition day_heads (s : string) : list (Z * string) :=
  match s with
  | String a r =>
      (match r with
       | String b r' =>
           (if Ascii.eqb a "3" && in_range "0" "1" b
            then [(30 + digit_val b, r')] else []) ++
           (if in_range "1" "2" a && is_digit b
            then [(10 * digit_val a + digit_val b, r')] else []) ++
           (if Ascii.eqb a "0" && in_range "1" "9" b
            then [(digit_val b, r')] else [])
       | EmptyString => []
       end ++
       (if in_range "1" "9" a then [(digit_val a, r)] else []) ++
       match r with
       | String b r' =>
           if Ascii.eqb a " " && in_range "1" "9" b
           then [(digit_val b, r')] else []
       | EmptyString => []
       end)%list
  | EmptyString => []
  end.

(** The match of [%m%d]: the first month alternative after which a day can
    be read, with the first day alternative there, and what follows. *)
Fixpoint first_month_day (months : list (Z * string)) : option (Z * Z * string) :=
  match months with
  | [] => None
  | (m, r) :: rest =>
      match day_heads r with
      | (d, r') :: _ => Some (m, d, r')
      | [] => first_month_day rest
      end
  end.

(** [datetime.strptime(s, "%Y%m%d")]: four digits, then the match of
    [%m%d], which must end the string; then the date is range-checked. *)
Definition strptime_ymd (s : string) : result (Z * Z * Z) :=
  match s with
  | String a (String b (String c (String d rest))) =>
      if is_digit a && is_digit b && is_digit c && is_digit d then
        match first_month_day (month_heads rest) with
        | Some (m, dd, EmptyString) =>
            let y := 1000 * digit_val a + 100 * digit_val b
                     + 10 * digit_val c + digit_val d in
            if date_ok y m dd then OK (y, m, dd) else Raise ValueError
        | _ => Raise ValueError
        end
      else Raise ValueError
  | _ => Raise ValueError
  end.

(** [begin_end_date(doc)]. *)
Definition begin_end_date (doc : dict) : result (val * val) :=
  let by_ := py_format (get_default doc "begin_year" VNone) in
  bm <- month_to_int (get_default doc "begin_month" VNone) ;;
  let bm := str_of_int bm in
  let bd := py_format (get_default doc "begin_day" (VInt 1)) in
  let ey := get_default doc "end_year" VNone in
  em <- month_to_int (get_default doc "end_month" VNone) ;;
  month_last_day <- monthrange ey em ;;
  let ed := py_format (get_default doc "end_day" (VInt month_last_day)) in
  '(y, m, d) <- strptime_ymd (by_ ++ bm ++ bd) ;;
  let startdate := VDate y m d in
  '(y, m, d) <- strptime_ymd (py_format ey ++ str_of_int em ++ ed) ;;
  let enddate := VDate y m d in
  OK (startdate, enddate).

(** What [%m%d] reads in the decimal renderings of a month and a day written
    one after the other: a day from 11 to 19 or from 21 to 29 of January is
    read as a day of November or December. *)
Definition month_day_read (m d : Z) : Z * Z :=
  if (m =? 1) && (11 <=? d) && (d <=? 19) then (11, d - 10)
  else if (m =? 1) && (21 <=? d) && (d <=? 29) then (12, d - 20)
  else (m, d).

(** The month and day that are read back as written. *)
Definition read_as_written (m d : Z) : Prop :=
  m <> 1 \/ d <= 10 \/ d = 20 \/ 30 <= d.

(** A document of the tests: October 2019 to November 2025, without days. *)
Definition appointment : dict :=
  [("begin_month", VStr "Oct"); ("begin_year", VInt 2019);
   ("end_month", VStr "Nov"); ("end_year", VInt 2025)].

(** A stay from 12 January to 31 January 2019. *)
Definition january_stay : dict :=
  [("begin_year", VInt 2019); ("begin_month", VInt 1); ("begin_day", VInt 12);
   ("end_year", VInt 2019); ("end_month", VStr "Jan"); ("end_day", VInt 31)].

(** ** regolith/tools.py: [document_by_value] *)

(** [if isinstance(address, str): address = (address,)], then the iteration
    over the address. *)
Definition address_path (address : val) : result (list val) :=
  match address with
  | VStr _ => OK [address]
  | _ => py_iter address
  end.

(** [for add in address: doc = doc[add]]. *)
Fixpoint walk (doc : val) (path : list val) : result val :=
  match path with
  | [] => OK doc
  | add :: r => doc <- py_getitem doc add ;; walk doc r
  end.

(** The value of a document at an address. *)
Definition addressed (address : val) (doc : dict) : result val :=
  path <- address_path address ;; walk (VDict doc) path.

(** [document_by_value(documents, address, value)]; falling off the loop
    returns [None]. *)
Fixpoint document_by_value (documents : list dict) (address value : val)
    : result val :=
  match documents with
  | [] => OK VNone
  | g_doc :: rest =>
      doc <- addressed address g_doc ;;
      if py_eq doc value then OK (VDict g_doc)
      else document_by_value rest address value
  end.

(** The document has a value at the address, which differs from [value]. *)
Definition differs_at (address value : val) (doc : dict) : Prop :=
  exists w, addressed address doc = OK w /\ py_eq w value = false.

(** ** regolith/tools.py: [get_dates] *)

Definition dateitems : list string :=
  ["begin_day"; "begin_month"; "begin_year"; "end_day"; "end_month";
   "end_year"; "day"; "month"; "year"].

(** [get_dates(thing)]: the dict returned, and the dicts printed. *)
Definition get_dates (thing : dict) : dict * list dict :=
  let dates := map (fun item => get_default thing item VNone) dateitems in
  let dateout :=
    fold_left (fun out '(item, date) =>
                 if truthy date then set out item date else out)
              (combine dateitems dates) [] in
  (dateout, [dateout]).

(** The check that [%m%d] reads [month_day_read m d] in the renderings of
    [m] and [d], and nothing after. *)
Definition reads_pair (md : Z * Z) : bool :=
  let '(m, d) := md in
  match first_month_day (month_heads (str_of_int m ++ str_of_int d)) with
  | Some (m', d', EmptyString) =>
      let '(m2, d2) := month_day_read m d in (m' =? m2) && (d' =? d2)
  | _ => false
  end.

(** The entries of a dict picked by [get_dates] for a list of keys. *)
Definition picked (keys : list string) (thing : dict) : dict :=
  flat_map (fun k => if truthy (get_default thing k VNone)
                     then [(k, get_default thing k VNone)] else []) keys.
(** ** regolith/tools.py: [gets] and [filter_projects] *)

(** [gets(seq, key, default)]: a generator, which yields [x.get(key,
    default)] for each [x] when it is asked for it; each element of the list
    is what asking for the next value does. *)
Definition gets (seq : list val) (key : string) (default : val)
    : list (result val) :=
  map (fun x => val_get x key default) seq.

(** [set(g)] for a generator [g]: each value is hashed as it is yielded. *)
Fixpoint set_of (g : list (result val)) : result (list val) :=
  match g with
  | [] => OK []
  | r :: rest =>
      v <- r ;;
      if hashable v then vs <- set_of rest ;; OK (v :: vs) else Raise TypeError
  end.

(** [x["name"] in authors], for a set of strings [authors]. *)
Definition on_team (authors : list string) (x : val) : result bool :=
  n <- py_getitem x (VStr "name") ;;
  if hashable n then OK (str_in authors n) else Raise TypeError.

(** One turn of the loop of [filter_projects]: the copy of the project that
    is appended, or nothing. *)
Definition project_turn (authors : list string) (proj : dict)
    : result (option dict) :=
  team <- item proj "team" ;;
  team <- py_iter team ;;
  team_names <- set_of (gets team "name" VNone) ;;
  if existsb (str_in authors) team_names then
    mine <- filterM (on_team authors) team ;;
    OK (Some (set proj "team" (VList mine)))
  else OK None.

Section Projects.

(** Modelled from the spec: [id_key] of [regolith/sorters.py], whose source
    is missing, is a sort-key provider: given a document it returns a
    comparable key.  It is a parameter here: a key type with its [<], and the
    key of a document. *)
Context {K : Type} (key_lt : K -> K -> bool) (id_key : dict -> result K).

(** [filter_projects(projects, authors, reverse)]. *)
Definition filter_projects (projects : list dict) (authors : list string)
    (reverse : bool) : result (list dict) :=
  projs <- mapM (project_turn authors) projects ;;
  py_sorted key_lt id_key (keep_some projs) reverse.

End Projects.

(** The member [x] of a team bears a name of the set [authors]. *)
Definition named_in (authors : list string) (x : val) : Prop :=
  exists d s, x = VDict d /\ get d "name" = Some (VStr s) /\ In s authors.

(** The same test on a member, as a decision: [x] is a document whose name
    is a string of the set [authors]. *)
Definition bears_name (authors : list string) (x : val) : bool :=
  match x with
  | VDict d =>
      match get d "name" with
      | Some (VStr s) => existsb (String.eqb s) authors
      | _ => false
      end
  | _ => false
  end.

(** Modelled from the spec: an instance of the identity-based sort key, the
    [_id] of a document, a string, under the order of strings. *)
Definition id_string (d : dict) : result string :=
  match get d "_id" with
  | Some (VStr s) => OK s
  | _ => Raise TypeError
  end.

(** A project with a team of two. *)
Definition project_pdf : dict :=
  [("_id", VStr "pdfgui"); ("name", VStr "PDFgui");
   ("team", VList [VDict [("name", VStr "A. Author"); ("position", VStr "PI")];
                   VDict [("name", VStr "B. Other"); ("position", VStr "developer")]])].

(** ** regolith/tools.py: [month_and_year] *)

(** [month_and_year(m, y)]. *)
Definition month_and_year (m y : val) : result string :=
  match y with
  | VNone => OK "present"
  | _ =>
      match m with
      | VNone => OK (py_format y)
      | _ =>
          n <- month_to_int m ;;
          name <- py_getitem SHORT_MONTH_NAMES (VInt n) ;;
          OK (py_format name ++ " " ++ py_format y)
      end
  end.

(** The rendering of the entries of [SHORT_MONTH_NAMES], by index. *)
Definition short_month_name (k : Z) : string :=
  match k with
  | 0 => "None"
  | 1 => "Jan" | 2 => "Feb" | 3 => "Mar" | 4 => "Apr" | 5 => "May" | 6 => "Jun"
  | 7 => "Jul" | 8 => "Aug" | 9 => "Sept" | 10 => "Oct" | 11 => "Nov"
  | 12 => "Dec"
  | _ => ""
  end.

(** ** regolith/tools.py: [dereference_institution] *)

(** [dereference_institution(input_record, institutions)]: the record as
    the call leaves it. *)
Definition dereference_institution (input_record : dict)
    (institutions : list dict) : result dict :=
  let inst :=
    let a := get_default input_record "institution" VNone in
    if truthy a then a else get_default input_record "organization" VNone in
  db_inst <- fuzzy_retrieval institutions ["name"; "_id"; "aka"] inst true ;;
  if truthy db_inst then
    name <- py_getitem db_inst (VStr "name") ;;
    let input_record := set input_record "institution" name in
    name <- py_getitem db_inst (VStr "name") ;;
    let input_record := set input_record "organization" name in
    country <- val_get db_inst "country" VNone ;;
    state_country <-
      (if py_eq country (VStr "USA") then val_get db_inst "state" VNone
       else val_get db_inst "country" VNone) ;;
    city <- py_getitem db_inst (VStr "city") ;;
    let input_record :=
      set input_record "location"
          (VStr (py_format city ++ ", " ++ py_format state_country)) in
    if has_key input_record "department" then
      departments <- py_getitem db_inst (VStr "departments") ;;
      department <- item input_record "department" ;;
      found <-
        match departments with
        | VDict ds => fuzzy_retrieval [ds] ["name"; "aka"] department true
        | _ => Raise AttributeError
        end ;;
      OK (set input_record "department" found)
    else OK input_record
  else OK input_record.

(** An appointment at an institution given by an alias. *)
Definition appointment_record : dict :=
  [("institution", VStr "Columbia"); ("department", VStr "apam");
   ("position", VStr "professor")].

Definition columbia : dict :=
  [("_id", VStr "columbiau"); ("name", VStr "Columbia University");
   ("aka", VList [VStr "Columbia"]); ("city", VStr "New York");
   ("state", VStr "NY"); ("country", VStr "USA");
   ("departments", VDict [("apam", VDict [("name", VStr "Applied Physics")])])].
(** ** regolith/tools.py: [filter_employment_for_advisees] *)

(** One turn of the inner loop, on the employment record [i] of the person
    [p]: the record and the person as the turn leaves them, and whether the
    person is appended to the result. *)
Definition advisee_turn (today begin_period : Z * Z * Z) (status : val)
    (p : dict) (i : val) : result (val * dict * bool) :=
  s <- val_get i "status" VNone ;;
  if py_eq s status then
    match i with
    | VDict d =>
        '(d, end_date) <-
          (if truthy (get_default d "end_year" VNone) then
             date <- py_date (get_default d "end_year" VNone)
                             (get_default d "end_month" (VInt 12))
                             (get_default d "end_day" (VInt 28)) ;;
             match date with
             | VDate y m dd => OK (d, (y, m, dd))
             | _ => Raise TypeError
             end
           else OK (set d "end_year" (VInt (fst (fst today))), today)) ;;
        if date_leb begin_period end_date then
          let p := set p "role" (get_default d "position" VNone) in
          let p := set p "status" status in
          let p := set p "end_year" (get_default d "end_year" (VStr "n/a")) in
          OK (VDict d, p, true)
        else OK (VDict d, p, false)
    | _ => Raise AttributeError
    end
  else OK (i, p, false).

(** The inner loop: the person and the records as the loop leaves them, and
    the number of times the person is appended. *)
Fixpoint advisee_items (today begin_period : Z * Z * Z) (status : val)
    (p : dict) (items : list val) : result (dict * list val * nat) :=
  match items with
  | [] => OK (p, [], 0%nat)
  | i :: rest =>
      '(i, p, appended) <- advisee_turn today begin_period status p i ;;
      '(p, rest, n) <- advisee_items today begin_period status p rest ;;
      OK (p, i :: rest, if appended then S n else n)
  end.

(** The turn of the outer loop on one person.  The records are those of the
    list under [employment], which the turn changes in place; an iterable
    that is not a list holds no record on which [get] can be called. *)
Definition advisee_person (today begin_period : Z * Z * Z) (status : val)
    (p : dict) : result (dict * nat) :=
  match get p "employment" with
  | Some (VList items) =>
      '(p, items, n) <- advisee_items today begin_period status p items ;;
      OK (set p "employment" (VList items), n)
  | Some v =>
      items <- py_iter v ;;
      _ <- mapM (fun i => val_get i "status" VNone) items ;;
      OK (p, 0%nat)
  | None => OK (p, 0%nat)
  end.

(** [filter_employment_for_advisees(people, begin_period, status)], on the
    day [today]. *)
Fixpoint filter_employment_for_advisees (h : store) (people : list addr)
    (begin_period : Z * Z * Z) (status : val) (today : Z * Z * Z)
    : result (store * list addr) :=
  match people with
  | [] => OK (h, [])
  | p :: rest =>
      '(doc, n) <- advisee_person today begin_period status (load h p) ;;
      let h := store_set h p doc in
      '(h, advisees) <-
        filter_employment_for_advisees h rest begin_period status today ;;
      OK (h, (repeat p n ++ advisees)%list)
  end.

(** A person with a finished and a current position as a postdoc. *)
Definition postdoc : dict :=
  [("_id", VStr "jdoe");
   ("employment",
    VList [VDict [("status", VStr "postdoc"); ("position", VStr "Postdoc I");
                  ("end_year", VInt 2018)];
           VDict [("status", VStr "postdoc"); ("position", VStr "Postdoc II")]])].

(** ** regolith/tools.py: [filter_facilities] and [filter_activities] *)

(** The loop shared by [filter_service], [filter_facilities] and
    [filter_activities], on the records under [field]: the store and the
    result, and the list kept for each person in turn. *)
Fixpoint filter_records_loop (field : string) (h : store) (people : list addr)
    (begin_period : Z * Z * Z) (type : val) (today_year : Z)
    : result (store * list addr * list (list val)) :=
  match people with
  | [] => OK (h, [], [])
  | p :: rest =>
      let doc := load h p in
      svc <- py_iter (get_default doc field (VList [])) ;;
      kept <- mapM (service_item today_year begin_period type) svc ;;
      let mine := keep_some kept in
      let h := store_set h p (set doc field (VList mine)) in
      '(h, found, lists) <-
        filter_records_loop field h rest begin_period type today_year ;;
      OK (h, match mine with [] => found | _ => p :: found end, mine :: lists)
  end.

(** [filter_facilities(people, begin_period, type, verbose)]: the store, the
    result, and the lists printed when [verbose] is set. *)
Definition filter_facilities (h : store) (people : list addr)
    (begin_period : Z * Z * Z) (type : val) (verbose : bool) (today_year : Z)
    : result (store * list addr * list (list val)) :=
  '(h, facilities, lists) <-
    filter_records_loop "facilities" h people begin_period type today_year ;;
  OK (h, facilities, if verbose then lists else []).

(** [filter_activities(people, begin_period, type)]. *)
Definition filter_activities (h : store) (people : list addr)
    (begin_period : Z * Z * Z) (type : val) (today_year : Z)
    : result (store * list addr) :=
  '(h, activities, _) <-
    filter_records_loop "activities" h people begin_period type today_year ;;
  OK (h, activities).

(** A record that the loop keeps: a dict of the type asked for, whose
    [month] is an entry of [SHORT_MONTH_NAMES]. *)
Definition kept_record (type : val) (i : val) : Prop :=
  exists d month,
    i = VDict d /\ py_eq (get_default d "type" VNone) type = true /\
    get d "month" = Some month /\
    In month [VNone; VStr "Jan"; VStr "Feb"; VStr "Mar"; VStr "Apr"; VStr "May";
              VStr "Jun"; VStr "Jul"; VStr "Aug"; VStr "Sept"; VStr "Oct";
              VStr "Nov"; VStr "Dec"].

(** The people after the loop: a person of the result holds under [field] a
    list of kept records that is not empty, and a person left out holds the
    empty list there. *)
Definition records_filtered (field : string) (type : val) (h' : store)
    (people found : list addr) : Prop :=
  forall p, In p people ->
    exists mine,
      get (load h' p) field = Some (VList mine) /\
      Forall (kept_record type) mine /\
      (In p found <-> mine <> []).

(** A user of two facilities. *)
Definition facility_user : dict :=
  [("_id", VStr "sbillinge");
   ("facilities",
    VList [VDict [("name", VStr "NSLS-II"); ("type", VStr "research");
                  ("year", VInt 2019); ("begin_month", VStr "june")];
           VDict [("name", VStr "Teaching lab"); ("type", VStr "teaching");
                  ("year", VInt 2019)]])].

Definition bystander : dict := [("_id", VStr "jdoe")].

(** What every turn that appends a person has written on it: the status
    asked for, and the end year of the record, an integer. *)
Definition marked_advisee (status : val) (p : dict) : Prop :=
  get p "status" = Some status /\
  exists v z, get p "end_year" = Some v /\ as_int v = OK z.

(** ** Vocabulary of the properties of the windows *)

(** The events of a patent after a date, in the order of their dates. *)
Definition events_since (since : Z * Z * Z) (all kept : list val) : Prop :=
  (forall e, In e kept <->
             In e all /\ exists d, event_date None e = OK d /\ date_ltb since d = true) /\
  StronglySorted (ascending date_ltb (event_date None)) kept.

(** The date of a publication as the window reads it, strictly inside the
    window. *)
Definition published_within (since : Z * Z * Z) (before : option (Z * Z * Z))
    (pub : dict) : Prop :=
  exists y m d,
    py_int (get_default pub "year" VNone) = OK y /\
    month_to_int (get_default pub "month" (VInt 12)) = OK m /\
    py_int (get_default pub "day" (VInt 28)) = OK d /\
    date_ltb since (y, m, d) = true /\
    forall b, before = Some b -> date_ltb (y, m, d) b = true.

(** A presentation of the result: its status and its type are among those
    asked for (or all are), its [begin_month] is an integer, and its [date]
    is the date of its begin fields, strictly inside the window. *)
Definition presentation_selected (types statuses : list val)
    (since before : option (Z * Z * Z)) (r : dict) : Prop :=
  (exists s, get r "status" = Some s /\
             in_list s statuses || in_list (VStr "all") statuses = true) /\
  (exists t, get r "type" = Some t /\
             in_list t types || in_list (VStr "all") types = true) /\
  exists y m d,
    get r "begin_month" = Some (VInt m) /\ get r "date" = Some (VDate y m d) /\
    as_int (get_default r "begin_year" VNone) = OK y /\
    as_int (get_default r "begin_day" VNone) = OK d /\
    (forall s, since = Some s -> date_ltb s (y, m, d) = true) /\
    (forall b, before = Some b -> date_ltb (y, m, d) b = true).

(** ** Vocabulary of the order of dates *)

(** A clock that grows with the date: on the dates of the calendar,
    [mktime] is increasing. *)
Definition increasing (mktime : Z * Z * Z -> Z) : Prop :=
  forall y1 m1 d1 y2 m2 d2,
    date_ok y1 m1 d1 = true -> date_ok y2 m2 d2 = true ->
    (mktime (y1, m1, d1) <=? mktime (y2, m2, d2))
    = date_leb (y1, m1, d1) (y2, m2, d2).

(** The days before the first of March of a year, and before the first of a
    month in a year that starts in March. *)
Definition days_before_march (y : Z) : Z := 365 * y + y / 4 - y / 100 + y / 400.

Definition days_before_month (m : Z) : Z :=
  match m with
  | 3 => 0 | 4 => 31 | 5 => 61 | 6 => 92 | 7 => 122 | 8 => 153 | 9 => 184
  | 10 => 214 | 11 => 245 | 12 => 275 | 1 => 306 | 2 => 337
  | _ => 0
  end.

(** The day number of a date, counted from the first of March of the year
    0. *)
Definition day_number (t : Z * Z * Z) : Z :=
  let '(y, m, d) := t in
  days_before_march (if m <=? 2 then y - 1 else y) + days_before_month m + d - 1.

(** ** Vocabulary of the completeness of [merge_collections] *)

(** The documents of a collection have pairwise different [_id]s. *)
Inductive distinct_ids : list dict -> Prop :=
| distinct_ids_nil : distinct_ids []
| distinct_ids_cons x l :
    Forall (fun y => py_eq (doc_id x) (doc_id y) = false) l ->
    distinct_ids l -> distinct_ids (x :: l).

(** The dict [d] has an entry under a key equal to [k]. *)
Definition present {A} (d : list (val * A)) (k : val) : Prop :=
  exists k' v, In (k', v) d /\ py_eq k' k = true.

(** An entry of [chained]: a hashable key, equal to the [_id] of the
    inferior document filed under it. *)
Definition filed (kc : val * ChainDB) : Prop :=
  hashable (fst kc) = true /\
  hashable (doc_id (inferior (snd kc))) = true /\
  py_eq (fst kc) (doc_id (inferior (snd kc))) = true.

(** * Properties *)

(** ** [month_to_int] *)

Lemma int_of_string_alpha c r :
  is_alpha c = true -> int_of_string (String c r) = None.
Proof.
  destruct c as [[] [] [] [] [] [] [] []]; intros H;
    try discriminate H; reflexivity.
Qed.

Lemma lower_ascii_alpha c :
  is_lower (lower_ascii c) = true -> is_alpha c = true.
Proof.
  destruct c as [[] [] [] [] [] [] [] []]; intros H;
    try discriminate H; reflexivity.
Qed.

(** A string whose lowercase form starts with a letter is not a numeral. *)
Lemma int_of_string_name s c r :
  lower s = String c r -> is_lower c = true -> int_of_string s = None.
Proof.
  destruct s as [|c0 r0]; simpl; [discriminate|].
  intros E L. injection E as Ec _. subst c.
  apply int_of_string_alpha, lower_ascii_alpha, L.
Qed.

Lemma month_to_int_name s c r n :
  lower s = String c r -> is_lower c = true ->
  months_get MONTHS (String c r) = Some n ->
  month_to_int (VStr s) = OK n.
Proof.
  intros E L G. unfold month_to_int, py_int.
  rewrite (int_of_string_name s c r E L), E, G. reflexivity.
Qed.

(** C7: every representation of month [k] (integer, decimal string, full
    name, three-letter abbreviation with or without a period, in any letter
    case) is mapped by [month_to_int] to [k], and [month_to_int("")] is 1. *)
Theorem month_to_int_representations (k : Z) (v : val) :
  1 <= k <= 12 -> represents k v ->
  month_to_int v = OK k /\ month_to_int (VStr "") = OK 1.
Proof.
  intros Hk Hrep. split; [|reflexivity].
  assert (Hc : k = 1 \/ k = 2 \/ k = 3 \/ k = 4 \/ k = 5 \/ k = 6 \/ k = 7 \/
               k = 8 \/ k = 9 \/ k = 10 \/ k = 11 \/ k = 12) by lia.
  repeat (destruct Hc as [Hc|Hc]); subst k;
    (destruct Hrep as [| |s E|s E|s E];
     [ reflexivity | reflexivity
     | eapply month_to_int_name; [exact E|reflexivity|reflexivity] ..]).
Qed.

Lemma month_to_int_representations_witness :
  month_to_int (VStr "Feb.") = OK 2 /\ month_to_int (VStr "") = OK 1.
Proof.
  apply (month_to_int_representations 2 (VStr "Feb.")).
  - lia.
  - apply rep_abbr_dot. reflexivity.
Defined.

(** ** The date predicates *)

Lemma Zrange_In lo n z : lo <= z < lo + n -> In z (Zrange lo n).
Proof.
  unfold Zrange. intros H.
  assert (E : lo <= z < lo + Z.of_nat (Z.to_nat n)) by lia.
  clear H. revert lo E. generalize (Z.to_nat n) as k.
  induction k as [|k IH]; intros lo E; [lia|]. simpl.
  destruct (Z.eq_dec lo z) as [->|N]; [now left|].
  right. apply IH; lia.
Qed.

Lemma Zrange_forallb (P : Z -> bool) lo n :
  forallb P (Zrange lo n) = true ->
  forall z, lo <= z < lo + n -> P z = true.
Proof.
  intros H z Hz. rewrite forallb_forall in H. apply H. now apply Zrange_In.
Qed.

Lemma split_on_single sep a :
  no_char sep a = true -> split_on sep a = [a].
Proof.
  induction a as [|c a IH]; simpl; [reflexivity|].
  intros H. apply andb_prop in H as [Hc Ha].
  apply negb_true_iff in Hc. rewrite Hc, (IH Ha). reflexivity.
Qed.

Lemma split_on_app sep a b :
  no_char sep a = true ->
  split_on sep (a ++ String sep b) = a :: split_on sep b.
Proof.
  induction a as [|c a IH]; simpl.
  - intros _. rewrite Ascii.eqb_refl. reflexivity.
  - intros H. apply andb_prop in H as [Hc Ha].
    apply negb_true_iff in Hc. rewrite Hc, (IH Ha). reflexivity.
Qed.

Lemma field_ok_spec parse z :
  field_ok parse z = true ->
  no_char "/" (str_of_int z) = true /\ parse (str_of_int z) = Some z.
Proof.
  unfold field_ok. intros H. apply andb_prop in H as [H1 H2]. split; [exact H1|].
  destruct (parse (str_of_int z)) as [v|]; [|discriminate].
  apply Z.eqb_eq in H2. now subst.
Qed.

Lemma day_field d : 1 <= d <= 31 -> field_ok parse_day d = true.
Proof.
  intros H. apply (Zrange_forallb (field_ok parse_day) 1 31); [|lia].
  vm_compute. reflexivity.
Qed.

Lemma month_field m : 1 <= m <= 12 -> field_ok parse_month m = true.
Proof.
  intros H. apply (Zrange_forallb (field_ok parse_month) 1 12); [|lia].
  vm_compute. reflexivity.
Qed.

Lemma digit_char z :
  let c := ascii_of_N (Z.to_N (48 + z mod 10)) in
  is_digit c = true /\ digit_val c = z mod 10 /\ Ascii.eqb c "/" = false.
Proof.
  pose proof (Z.mod_pos_bound z 10 ltac:(lia)) as B.
  set (r := z mod 10) in *.
  assert (Hr : r = 0 \/ r = 1 \/ r = 2 \/ r = 3 \/ r = 4 \/ r = 5 \/ r = 6 \/
               r = 7 \/ r = 8 \/ r = 9) by lia.
  repeat (destruct Hr as [Hr|Hr]); rewrite Hr; repeat split; reflexivity.
Qed.

(** The rendering of a four-digit year: its four decimal digits. *)
Lemma str_of_int_year y :
  1000 <= y <= 9999 ->
  let digit z := ascii_of_N (Z.to_N (48 + z mod 10)) in
  str_of_int y
  = String (digit (y / 10 / 10 / 10))
      (String (digit (y / 10 / 10)) (String (digit (y / 10)) (String (digit y) ""))).
Proof.
  intros H digit. unfold str_of_int.
  replace (y <? 0) with false by (symmetry; apply Z.ltb_ge; lia).
  pose proof (Z.log2_le_mono 1000 y ltac:(lia)) as L.
  change (Z.log2 1000) with 9 in L.
  destruct (Z.to_nat (Z.log2 y)) as [|[|[|n]]] eqn:E; try lia.
  cbn [pos_digits].
  replace (y <? 10) with false
    by (symmetry; apply Z.ltb_ge; lia).
  replace (y / 10 <? 10) with false
    by (symmetry; apply Z.ltb_ge; Z.div_mod_to_equations; lia).
  replace (y / 10 / 10 <? 10) with false
    by (symmetry; apply Z.ltb_ge; Z.div_mod_to_equations; lia).
  replace (y / 10 / 10 / 10 <? 10) with true
    by (symmetry; apply Z.ltb_lt; Z.div_mod_to_equations; lia).
  reflexivity.
Qed.

Lemma year_field y : 1000 <= y <= 9999 -> field_ok parse_year y = true.
Proof.
  intros H. unfold field_ok. rewrite (str_of_int_year y H).
  destruct (digit_char y) as (D0 & V0 & S0).
  destruct (digit_char (y / 10)) as (D1 & V1 & S1).
  destruct (digit_char (y / 10 / 10)) as (D2 & V2 & S2).
  destruct (digit_char (y / 10 / 10 / 10)) as (D3 & V3 & S3).
  cbn [no_char parse_year]. rewrite S0, S1, S2, S3, D0, D1, D2, D3, V0, V1, V2, V3.
  cbn [negb andb]. apply Z.eqb_eq. Z.div_mod_to_equations. lia.
Qed.

Lemma days_in_month_bounds y m :
  1 <= m <= 12 -> 28 <= days_in_month y m <= 31.
Proof.
  intros H. unfold days_in_month.
  assert (Hc : m = 1 \/ m = 2 \/ m = 3 \/ m = 4 \/ m = 5 \/ m = 6 \/ m = 7 \/
               m = 8 \/ m = 9 \/ m = 10 \/ m = 11 \/ m = 12) by lia.
  repeat (destruct Hc as [Hc|Hc]); subst m; simpl;
    try lia; destruct (isleap y); lia.
Qed.

Lemma date_ok_bounds y m d :
  date_ok y m d = true ->
  1 <= y <= 9999 /\ 1 <= m <= 12 /\ 1 <= d <= days_in_month y m.
Proof. unfold date_ok. intros H. repeat (apply andb_prop in H as [H ?]). lia. Qed.

(** A date with a four-digit year survives the rendering with [format] and
    the parsing with [strptime]. *)
Lemma strptime_dmy_format y m d :
  1000 <= y -> date_ok y m d = true ->
  strptime_dmy (str_of_int d ++ "/" ++ str_of_int m ++ "/" ++ str_of_int y)
  = OK (y, m, d).
Proof.
  intros Hy Hok. destruct (date_ok_bounds _ _ _ Hok) as (Hy' & Hm & Hd).
  pose proof (days_in_month_bounds y m Hm) as Hdim.
  destruct (field_ok_spec _ _ (day_field d ltac:(lia))) as [Nd Pd].
  destruct (field_ok_spec _ _ (month_field m Hm)) as [Nm Pm].
  destruct (field_ok_spec _ _ (year_field y ltac:(lia))) as [Ny Py].
  unfold strptime_dmy. simpl append.
  rewrite (split_on_app "/" _ _ Nd), (split_on_app "/" _ _ Nm), (split_on_single "/" _ Ny).
  rewrite Pd, Pm, Py, Hok. reflexivity.
Qed.

Section DateRangeFacts.

Variable mktime : Z * Z * Z -> Z.

Lemma timestamp_date y m d :
  1000 <= y -> date_ok y m d = true ->
  timestamp mktime (VInt d) m (VInt y) = OK (mktime (y, m, d)).
Proof.
  intros Hy Hok. unfold timestamp, py_str.
  rewrite (strptime_dmy_format y m d Hy Hok). reflexivity.
Qed.

Lemma default_last_day_idem d y m v :
  default_last_day d y m = OK v -> default_last_day v y m = OK v.
Proof.
  unfold default_last_day. destruct (truthy d) eqn:T.
  - intros E. injection E as <-. now rewrite T.
  - destruct (month_to_int m) as [mi|]; simpl; [|discriminate].
    unfold monthrange.
    destruct ((1 <=? mi) && (mi <=? 12)) eqn:R; simpl; [|discriminate].
    destruct (as_int y) as [yi|]; simpl; [|discriminate].
    intros E. injection E as <-.
    apply andb_prop in R as [R1 R2].
    pose proof (days_in_month_bounds yi mi ltac:(lia)) as B.
    simpl. destruct (days_in_month yi mi =? 0) eqn:Z0; [lia|reflexivity].
Qed.

(** [is_before] gives the same answer when the caller has already replaced a
    missing before-day by the last day of the month. *)
Lemma is_before_resolved y by_ m d bm bd bd' :
  default_last_day bd by_ bm = OK bd' ->
  is_before mktime y by_ m d bm bd' = is_before mktime y by_ m d bm bd.
Proof.
  intros E. unfold is_before.
  rewrite E, (default_last_day_idem _ _ _ _ E). reflexivity.
Qed.

Lemma is_between_iff y sy by_ m d sm sd bm bd :
  is_between mktime y sy by_ m d sm sd bm bd = OK true <->
  is_since mktime y sy m d sm sd = OK true /\
  is_before mktime y by_ m d bm bd = OK true.
Proof.
  unfold is_between.
  destruct (default_last_day bd by_ bm) as [bd'|e] eqn:E; simpl.
  - rewrite <- (is_before_resolved y by_ m d bm bd bd' E).
    destruct (is_since mktime y sy m d sm sd) as [[|]|e']; simpl.
    + tauto.
    + split; [discriminate|intros [H _]; discriminate H].
    + split; [discriminate|intros [H _]; discriminate H].
  - split; [discriminate|]. intros [_ H]. unfold is_before in H.
    rewrite E in H. destruct (default_last_day d y m); discriminate H.
Qed.

Lemma is_since_same y k d m :
  month_to_int m = OK k -> 1000 <= y -> date_ok y k d = true ->
  is_since mktime (VInt y) (VInt y) m (VInt d) m (VInt d) = OK true.
Proof.
  intros Hm Hy Hok. unfold is_since. rewrite Hm. simpl.
  rewrite (timestamp_date y k d Hy Hok). simpl. now rewrite Z.leb_refl.
Qed.

Lemma is_before_same y k d m :
  month_to_int m = OK k -> 1000 <= y -> date_ok y k d = true ->
  is_before mktime (VInt y) (VInt y) m (VInt d) m (VInt d) = OK true.
Proof.
  intros Hm Hy Hok. unfold is_before, default_last_day.
  destruct (date_ok_bounds _ _ _ Hok) as (_ & _ & Hd).
  assert (T : truthy (VInt d) = true).
  { simpl. destruct (d =? 0) eqn:Z0; [lia|reflexivity]. }
  rewrite T, Hm. simpl.
  rewrite (timestamp_date y k d Hy Hok). simpl.
  unfold Z.geb. now rewrite Z.compare_refl.
Qed.

Lemma is_before_same_month y k m :
  month_to_int m = OK k -> 1000 <= y <= 9999 -> 1 <= k <= 12 ->
  is_before mktime (VInt y) (VInt y) m VNone m VNone = OK true.
Proof.
  intros Hm Hy Hk. unfold is_before, default_last_day. simpl truthy. cbv iota.
  rewrite Hm. simpl. unfold monthrange.
  replace ((1 <=? k) && (k <=? 12)) with true
    by (symmetry; apply andb_true_intro; split; lia).
  simpl. pose proof (days_in_month_bounds y k Hk) as B.
  rewrite timestamp_date; [simpl; unfold Z.geb; now rewrite Z.compare_refl|lia|].
  unfold date_ok. repeat (apply andb_true_intro; split); lia.
Qed.

End DateRangeFacts.

(** Within the years 1000 to 9999 the date predicates do what their
    docstrings say.  [is_between] returns [True] exactly when [is_since] and
    [is_before] both do on the same arguments; and for a date [y]/[k]/[d]
    with a four-digit year the three predicates include their bounds: a
    target equal to the since date satisfies [is_since], a target equal to
    the before date satisfies [is_before] (also when both days default to the
    last day of the month), and a target equal to one bound satisfies
    [is_between] as soon as it satisfies the predicate of the other bound. *)
Theorem is_between_inclusive (mktime : Z * Z * Z -> Z) :
  (forall y sy by_ m d sm sd bm bd,
      is_between mktime y sy by_ m d sm sd bm bd = OK true <->
      is_since mktime y sy m d sm sd = OK true /\
      is_before mktime y by_ m d bm bd = OK true) /\
  (forall y k d m,
      month_to_int m = OK k -> 1000 <= y -> date_ok y k d = true ->
      let Y := VInt y in
      let D := VInt d in
      is_since mktime Y Y m D m D = OK true /\
      is_before mktime Y Y m D m D = OK true /\
      is_before mktime Y Y m VNone m VNone = OK true /\
      is_between mktime Y Y Y m D m D m D = OK true /\
      (forall by_ bm bd,
          is_before mktime Y by_ m D bm bd = OK true ->
          is_between mktime Y Y by_ m D m D bm bd = OK true) /\
      (forall sy sm sd,
          is_since mktime Y sy m D sm sd = OK true ->
          is_between mktime Y sy Y m D sm sd m D = OK true)).
Proof.
  split; [apply is_between_iff|].
  intros y k d m Hm Hy Hok Y D. subst Y D.
  destruct (date_ok_bounds _ _ _ Hok) as (Hy' & Hk & _).
  pose proof (is_since_same mktime y k d m Hm Hy Hok) as S.
  pose proof (is_before_same mktime y k d m Hm Hy Hok) as B.
  repeat split.
  - exact S.
  - exact B.
  - apply (is_before_same_month mktime y k m Hm); lia.
  - apply is_between_iff. now split.
  - intros by_ bm bd H. apply is_between_iff. now split.
  - intros sy sm sd H. apply is_between_iff. now split.
Qed.

Lemma is_between_inclusive_witness :
  is_since utc_mktime (VInt 2020) (VInt 2020) (VStr "Feb") (VInt 29) (VStr "Feb") (VInt 29) = OK true.
Proof.
  apply (proj2 (is_between_inclusive utc_mktime) 2020 2 29 (VStr "Feb")).
  - reflexivity.
  - lia.
  - reflexivity.
Defined.

(** A year before 1000 is rendered by [format] with fewer than four digits,
    which [%Y] does not read. *)
Lemma str_of_int_short_year y :
  1 <= y < 1000 ->
  no_char "/" (str_of_int y) = true /\ parse_year (str_of_int y) = None.
Proof.
  intros H. unfold str_of_int.
  replace (y <? 0) with false by (symmetry; apply Z.ltb_ge; lia).
  destruct (digit_char y) as (_ & _ & S0).
  destruct (digit_char (y / 10)) as (_ & _ & S1).
  destruct (digit_char (y / 10 / 10)) as (_ & _ & S2).
  cbn zeta in S0, S1, S2.
  remember (Z.to_nat (Z.log2 y)) as fuel eqn:Ef.
  destruct (Z_lt_le_dec y 10) as [L1|L1].
  - cbn [pos_digits].
    replace (y <? 10) with true by (symmetry; apply Z.ltb_lt; lia).
    cbn [no_char parse_year]. now rewrite S0.
  - pose proof (Z.log2_le_mono 10 y ltac:(lia)) as B.
    change (Z.log2 10) with 3 in B.
    destruct fuel as [|fuel]; [lia|].
    cbn [pos_digits].
    replace (y <? 10) with false by (symmetry; apply Z.ltb_ge; lia).
    destruct (Z_lt_le_dec y 100) as [L2|L2].
    + replace (y / 10 <? 10) with true
        by (symmetry; apply Z.ltb_lt; Z.div_mod_to_equations; lia).
      cbn [no_char parse_year]. now rewrite S0, S1.
    + pose proof (Z.log2_le_mono 100 y ltac:(lia)) as B'.
      change (Z.log2 100) with 6 in B'.
      destruct fuel as [|fuel]; [lia|].
      cbn [pos_digits].
      replace (y / 10 <? 10) with false
        by (symmetry; apply Z.ltb_ge; Z.div_mod_to_equations; lia).
      replace (y / 10 / 10 <? 10) with true
        by (symmetry; apply Z.ltb_lt; Z.div_mod_to_equations; lia).
      cbn [no_char parse_year]. now rewrite S0, S1, S2.
Qed.

(** The string that the predicates build for a date before the year 1000 is
    refused by [strptime]. *)
Lemma timestamp_short_year (mktime : Z * Z * Z -> Z) y m d :
  y < 1000 -> date_ok y m d = true ->
  timestamp mktime (VInt d) m (VInt y) = Raise ValueError.
Proof.
  intros Hy Hok. destruct (date_ok_bounds _ _ _ Hok) as (Hy' & Hm & Hd).
  pose proof (days_in_month_bounds y m Hm) as Hdim.
  destruct (field_ok_spec _ _ (day_field d ltac:(lia))) as [Nd Pd].
  destruct (field_ok_spec _ _ (month_field m Hm)) as [Nm Pm].
  destruct (str_of_int_short_year y ltac:(lia)) as [Ny Py].
  unfold timestamp, py_str, strptime_dmy. simpl append.
  rewrite (split_on_app "/" _ _ Nd), (split_on_app "/" _ _ Nm), (split_on_single "/" _ Ny).
  rewrite Pd, Pm, Py. reflexivity.
Qed.

(** C5: the docstrings of [is_since], [is_before] and [is_between] say
    that a target date equal to the bound gives [True].  For every date
    [y]/[k]/[d] of a year before 1000 the calls raise [ValueError] instead,
    whatever [time.mktime] is: the year is rendered without leading zeros
    and [strptime] refuses it.  So [is_since(999, 999)] raises. *)
Theorem date_predicates_year_below_1000 (mktime : Z * Z * Z -> Z)
    (y k d : Z) (m : val) :
  month_to_int m = OK k -> y < 1000 -> date_ok y k d = true ->
  let Y := VInt y in
  let D := VInt d in
  is_since mktime Y Y m D m D = Raise ValueError /\
  is_before mktime Y Y m D m D = Raise ValueError /\
  is_before mktime Y Y m VNone m VNone = Raise ValueError /\
  is_between mktime Y Y Y m D m D m D = Raise ValueError.
Proof.
  intros Hm Hy Hok Y D. subst Y D.
  destruct (date_ok_bounds _ _ _ Hok) as (Hy' & Hk & Hd).
  pose proof (days_in_month_bounds y k Hk) as Hdim.
  pose proof (timestamp_short_year mktime y k d Hy Hok) as T.
  assert (Td : truthy (VInt d) = true).
  { simpl. destruct (d =? 0) eqn:Z0; [lia|reflexivity]. }
  assert (S : is_since mktime (VInt y) (VInt y) m (VInt d) m (VInt d)
              = Raise ValueError).
  { unfold is_since. rewrite Hm. cbn [bind]. now rewrite T. }
  split; [exact S|]. split; [|split].
  - unfold is_before, default_last_day. rewrite Td, Hm. cbn [bind].
    now rewrite T.
  - unfold is_before, default_last_day. simpl truthy. cbv iota.
    rewrite Hm. cbn [bind]. unfold monthrange.
    replace ((1 <=? k) && (k <=? 12)) with true
      by (symmetry; apply andb_true_intro; split; lia).
    cbn [as_int bind].
    rewrite (timestamp_short_year mktime y k (days_in_month y k) Hy); [reflexivity|].
    unfold date_ok. repeat (apply andb_true_intro; split); lia.
  - unfold is_between, default_last_day. rewrite Td. cbn [bind].
    now rewrite S.
Qed.

Lemma date_predicates_year_below_1000_witness :
  is_since utc_mktime (VInt 999) (VInt 999) (VInt 1) (VInt 1) (VInt 1) (VInt 1)
  = Raise ValueError /\
  is_before utc_mktime (VInt 999) (VInt 999) (VInt 1) (VInt 1) (VInt 1) (VInt 1)
  = Raise ValueError /\
  is_before utc_mktime (VInt 999) (VInt 999) (VInt 1) VNone (VInt 1) VNone
  = Raise ValueError /\
  is_between utc_mktime (VInt 999) (VInt 999) (VInt 999)
    (VInt 1) (VInt 1) (VInt 1) (VInt 1) (VInt 1) (VInt 1)
  = Raise ValueError.
Proof.
  apply (date_predicates_year_below_1000 utc_mktime 999 1 1 (VInt 1)).
  - reflexivity.
  - lia.
  - reflexivity.
Defined.

(** ** [date_to_float] *)

Lemma SFltb_trans x y z :
  SFltb x y = true -> SFltb y z = true -> SFltb x z = true.
Proof.
  unfold SFltb, SFcompare.
  destruct x as [[]|[]| |[] m1 e1], y as [[]|[]| |[] m2 e2], z as [[]|[]| |[] m3 e3];
    try discriminate; try reflexivity;
    destruct (Z.compare_spec e1 e2), (Z.compare_spec e2 e3), (Z.compare_spec e1 e3);
    try discriminate; try reflexivity; try lia; subst;
    change (Pos.compare_cont Eq) with Pos.compare;
    destruct (Pos.compare_spec m1 m2), (Pos.compare_spec m2 m3), (Pos.compare_spec m1 m3);
    simpl; try discriminate; try reflexivity; try lia.
Qed.

Lemma float_ltb_trans (a b c : float) :
  (a <? b)%float = true -> (b <? c)%float = true -> (a <? c)%float = true.
Proof. rewrite !FloatAxioms.ltb_spec. apply SFltb_trans. Qed.

Lemma int_to_float_small z :
  0 <= z <= 10000 -> int_to_float z = OK (float_of_small z).
Proof.
  intros H. unfold int_to_float, float_of_small.
  assert (E : binary_normalize prec emax z 0 false
              = Prim2SF (PrimFloat.of_uint63 (Uint63.of_Z z))).
  { rewrite FloatAxioms.of_uint63_spec. f_equal.
    rewrite Uint63.of_Z_spec. symmetry. apply Z.mod_small.
    change Uint63.wB with 9223372036854775808. lia. }
  rewrite E, FloatAxioms.SF2Prim_Prim2SF.
  assert (C : finite_small z = true).
  { apply (Zrange_forallb finite_small 0 10001); [|lia].
    vm_cast_no_check (eq_refl true). }
  unfold finite_small, float_of_small in C. apply negb_true_iff in C.
  now rewrite C.
Qed.

(** On calendar triples the conversion is the sort key [encode]. *)
Lemma date_to_float_encode y m k d :
  month_to_int m = OK k -> in_calendar (y, k, d) ->
  date_to_float (VInt y) m (VInt d) = OK (encode (y, k, d)).
Proof.
  intros Hm (Hy & Hk & Hd). unfold date_to_float. simpl py_int. cbn [bind].
  rewrite Hm. cbn [bind].
  rewrite !int_to_float_small by lia. reflexivity.
Qed.

Lemma year_increases_all y :
  1 <= y <= 9999 -> year_increases step_table y = true.
Proof.
  intros H. apply (Zrange_forallb (year_increases step_table) 1 9999); [|lia].
  vm_cast_no_check (eq_refl true).
Qed.

Lemma next_triple_year y m d :
  next_triple (y, m, d)
  = let '(y', m', d') := next_triple (0, m, d) in (y + y', m', d').
Proof.
  unfold next_triple. destruct (d <? 99); [|destruct (m <? 12)];
    f_equal; f_equal; lia.
Qed.

Lemma encode_next t :
  in_calendar t -> (encode t <? encode (next_triple t))%float = true.
Proof.
  destruct t as [[y m] d]. intros (Hy & Hm & Hd).
  pose proof (year_increases_all y Hy) as H.
  unfold year_increases in H. rewrite forallb_forall in H.
  specialize (H (step_terms (m, d))).
  assert (Hin : In (step_terms (m, d)) step_table).
  { unfold step_table. apply in_map, in_prod.
    - apply Zrange_In. lia.
    - apply Zrange_In. lia. }
  specialize (H Hin). rewrite next_triple_year.
  unfold step_terms, step_increases in H.
  destruct (next_triple (0, m, d)) as [[y' m'] d'] eqn:E.
  assert (Hy' : y' = 0 \/ y' = 1).
  { unfold next_triple in E. destruct (d <? 99); [|destruct (m <? 12)];
      injection E as <- _ _; auto. }
  unfold encode. destruct Hy' as [-> | ->]; simpl (_ =? _) in H; cbv iota in H.
  - now rewrite Z.add_0_r.
  - exact H.
Qed.

Lemma rank_next t :
  in_calendar t ->
  rank (next_triple t) = rank t + 1 /\
  (let '(_, m, d) := next_triple t in 1 <= m <= 12 /\ 0 <= d <= 99).
Proof.
  destruct t as [[y m] d]. intros (Hy & Hm & Hd). unfold next_triple, rank.
  destruct (d <? 99) eqn:E1; [|destruct (m <? 12) eqn:E2]; lia.
Qed.

Lemma rank_inj y1 m1 d1 y2 m2 d2 :
  1 <= m1 <= 12 -> 0 <= d1 <= 99 -> 1 <= m2 <= 12 -> 0 <= d2 <= 99 ->
  rank (y1, m1, d1) = rank (y2, m2, d2) -> (y1, m1, d1) = (y2, m2, d2).
Proof.
  unfold rank. intros. assert (y1 = y2) by lia. assert (m1 = m2) by lia.
  assert (d1 = d2) by lia. now subst.
Qed.

Lemma encode_rank n : forall t t',
  in_calendar t -> in_calendar t' -> rank t' = rank t + 1 + Z.of_nat n ->
  (encode t <? encode t')%float = true.
Proof.
  induction n as [|n IH]; intros t t' Ht Ht' Hr.
  - destruct (rank_next t Ht) as [Hn Hc].
    replace t' with (next_triple t); [now apply encode_next|].
    destruct (next_triple t) as [[y m] d], t' as [[y' m'] d'].
    destruct Ht' as (_ & ? & ?). apply rank_inj; lia.
  - destruct (rank_next t Ht) as [Hn Hc].
    apply (float_ltb_trans _ (encode (next_triple t))); [now apply encode_next|].
    apply IH; [|exact Ht'|lia].
    destruct (next_triple t) as [[y m] d], t' as [[y' m'] d'].
    destruct Ht' as (? & ? & ?). unfold rank in *. unfold in_calendar.
    destruct t as [[y0 m0] d0]. destruct Ht as (? & ? & ?). lia.
Qed.

Lemma date_ltb_rank t t' :
  in_calendar t -> in_calendar t' -> date_ltb t t' = true -> rank t < rank t'.
Proof.
  destruct t as [[y m] d], t' as [[y' m'] d'].
  intros (? & ? & ?) (? & ? & ?). unfold date_ltb, date_compare, rank.
  destruct (Z.compare_spec y y'); try discriminate; try lia.
  destruct (Z.compare_spec m m'); try discriminate; try lia.
  destruct (Z.compare_spec d d'); try discriminate; lia.
Qed.

Lemma encode_increasing t t' :
  in_calendar t -> in_calendar t' -> date_ltb t t' = true ->
  (encode t <? encode t')%float = true.
Proof.
  intros Ht Ht' H. pose proof (date_ltb_rank t t' Ht Ht' H) as R.
  apply (encode_rank (Z.to_nat (rank t' - rank t - 1))); auto. lia.
Qed.

(** C6 (as amended): [date_to_float(y, m, d)] is the float
    [y + m/100 + d/10000], with [m] canonicalized by [month_to_int]; for
    years 1 to 9999, months 1 to 12 and days 0 to 99 it is strictly
    increasing in the lexicographic order of (year, month, day); and
    [date_to_float(2019, 1, 15) == 2019.0115],
    [date_to_float(2019, "May", 0) == 2019.05],
    [date_to_float(2019, "February", 2) == 2019.0202]. *)
Theorem date_to_float_increasing :
  (forall y m d k fy fm fd,
      month_to_int m = OK k ->
      int_to_float y = OK fy -> int_to_float k = OK fm -> int_to_float d = OK fd ->
      date_to_float (VInt y) m (VInt d) = OK (fy + fm / 100 + fd / 10000)%float) /\
  (forall y1 m1 k1 d1 y2 m2 k2 d2,
      month_to_int m1 = OK k1 -> month_to_int m2 = OK k2 ->
      in_calendar (y1, k1, d1) -> in_calendar (y2, k2, d2) ->
      date_ltb (y1, k1, d1) (y2, k2, d2) = true ->
      exists f1 f2,
        date_to_float (VInt y1) m1 (VInt d1) = OK f1 /\
        date_to_float (VInt y2) m2 (VInt d2) = OK f2 /\
        (f1 <? f2)%float = true) /\
  date_to_float (VInt 2019) (VInt 1) (VInt 15) = OK 2019.0115%float /\
  date_to_float (VInt 2019) (VStr "May") (VInt 0) = OK 2019.05%float /\
  date_to_float (VInt 2019) (VStr "February") (VInt 2) = OK 2019.0202%float.
Proof.
  split; [|split; [|repeat split; vm_compute; reflexivity]].
  - intros y m d k fy fm fd Hm Hy Hk Hd. unfold date_to_float. simpl py_int.
    cbn [bind]. rewrite Hm. cbn [bind]. rewrite Hk, Hd, Hy. reflexivity.
  - intros y1 m1 k1 d1 y2 m2 k2 d2 H1 H2 C1 C2 L.
    exists (encode (y1, k1, d1)), (encode (y2, k2, d2)).
    split; [now apply date_to_float_encode|].
    split; [now apply date_to_float_encode|].
    now apply encode_increasing.
Qed.

Lemma date_to_float_increasing_witness :
  exists f1 f2,
    date_to_float (VInt 2019) (VStr "Dec") (VInt 31) = OK f1 /\
    date_to_float (VInt 2020) (VStr "jan.") (VInt 0) = OK f2 /\
    (f1 <? f2)%float = true.
Proof.
  apply (proj1 (proj2 date_to_float_increasing) 2019 (VStr "Dec") 12 31
           2020 (VStr "jan.") 1 0).
  - reflexivity.
  - reflexivity.
  - unfold in_calendar. lia.
  - unfold in_calendar. lia.
  - reflexivity.
Defined.

(** C6, as stated, fails for large years: at year [2^53] the months 1 and 2
    give the same float. *)
Lemma date_to_float_large_year :
  date_ltb (2 ^ 53, 1, 0) (2 ^ 53, 2, 0) = true /\
  date_to_float (VInt (2 ^ 53)) (VInt 1) (VInt 0) = OK 9007199254740992%float /\
  date_to_float (VInt (2 ^ 53)) (VInt 2) (VInt 0) = OK 9007199254740992%float /\
  (9007199254740992 <? 9007199254740992)%float = false.
Proof. repeat split; vm_compute; reflexivity. Qed.

(** ** [fuzzy_retrieval] *)

Lemma lowered_In returns u :
  In u (lowered returns) <-> exists t, In (VStr t) returns /\ lower t = u.
Proof.
  induction returns as [|v r IH]; simpl.
  - split; [tauto|]. intros (t & [] & _).
  - destruct v; simpl; rewrite ?IH; split;
      try (intros (t & Ht & E); exists t; split; [now right|exact E]);
      try (intros (t & [Hv|Ht] & E); [discriminate Hv|exists t; now split]).
    + intros [E|(t & Ht & E)].
      * exists s. split; [now left|exact E].
      * exists t. split; [now right|exact E].
    + intros (t & [Hv|Ht] & E).
      * injection Hv as ->. now left.
      * right. exists t. now split.
Qed.

Lemma doc_matches_insensitive doc sources value :
  exists b, doc_matches doc sources value false = OK b /\
            (b = true <-> contains false doc sources value).
Proof.
  unfold doc_matches, contains.
  destruct value as [| | |s| | |];
    try (exists false; split; [reflexivity|];
         split; [discriminate|intros (s & t & E & _); discriminate E]).
  eexists; split; [reflexivity|].
  rewrite existsb_exists. split.
  - intros (u & Hu & E). apply String.eqb_eq in E. subst u.
    apply lowered_In in Hu as (t & Ht & E). now exists s, t.
  - intros (s' & t & E & Ht & El). injection E as <-.
    exists (lower s). split; [|apply String.eqb_refl].
    apply lowered_In. now exists t.
Qed.

Lemma doc_matches_sensitive doc sources value :
  hashable value = true ->
  forallb hashable (gather doc sources) = true ->
  exists b, doc_matches doc sources value true = OK b /\
            (b = true <-> contains true doc sources value).
Proof.
  intros Hv Hg. unfold doc_matches, contains. rewrite Hg, Hv.
  eexists; split; [reflexivity|].
  unfold in_list. rewrite existsb_exists. reflexivity.
Qed.

Lemma fuzzy_retrieval_step cs documents sources value :
  Forall (fun doc => exists b, doc_matches doc sources value cs = OK b /\
                               (b = true <-> contains cs doc sources value))
         documents ->
  exists r, fuzzy_retrieval documents sources value cs = OK r /\
            first_match cs documents sources value r.
Proof.
  induction 1 as [|doc rest (b & Eb & Hb) _ (r & Er & Hr)]; simpl.
  - exists VNone. split; [reflexivity|]. right. now split.
  - rewrite Eb. simpl. destruct b.
    + exists (VDict doc). split; [reflexivity|]. left.
      exists [], doc, rest. repeat split; [now apply Hb|constructor].
    + exists r. split; [exact Er|].
      assert (N : ~ contains cs doc sources value)
        by (intros C; apply Hb in C; discriminate C).
      destruct Hr as [(pre & d & post & E & Erd & C & F)|[Erd F]].
      * left. exists (doc :: pre), d, post. subst rest.
        repeat split; [exact Erd|exact C|now constructor].
      * right. split; [exact Erd|now constructor].
Qed.

Lemma fuzzy_retrieval_insensitive documents sources value :
  exists r, fuzzy_retrieval documents sources value false = OK r /\
            first_match false documents sources value r.
Proof.
  apply fuzzy_retrieval_step. apply Forall_forall. intros doc _.
  apply doc_matches_insensitive.
Qed.

(** C3 (as amended): when the lookup ignores case, or when it is
    case-sensitive and the target and every gathered value are hashable,
    [fuzzy_retrieval] returns the first document, in iteration order, whose
    gathered values contain the target, and [None] when no document does;
    when it ignores case, a target that is not a string is never found. *)
Theorem fuzzy_retrieval_first_match documents sources value case_sensitive :
  (case_sensitive = true -> all_hashable documents sources value) ->
  exists r,
    fuzzy_retrieval documents sources value case_sensitive = OK r /\
    first_match case_sensitive documents sources value r /\
    (case_sensitive = false -> (forall s, value <> VStr s) -> r = VNone).
Proof.
  intros H.
  destruct (fuzzy_retrieval_step case_sensitive documents sources value)
    as (r & Er & Hr).
  - destruct case_sensitive.
    + destruct (H eq_refl) as [Hv Hd].
      eapply Forall_impl; [|exact Hd].
      intros doc Hg. now apply doc_matches_sensitive.
    + apply Forall_forall. intros doc _. apply doc_matches_insensitive.
  - exists r. repeat split; [exact Er|exact Hr|].
    intros -> Hs. destruct Hr as [(pre & d & post & _ & _ & C & _)|[E _]].
    + destruct C as (s & t & E & _). now apply Hs in E.
    + exact E.
Qed.

Lemma fuzzy_retrieval_first_match_witness :
  let people := [ [("_id", VStr "jdoe"); ("name", VStr "Jane Doe");
                   ("aka", VList [VStr "JANE"; VStr "J. Doe"])] ] in
  exists r,
    fuzzy_retrieval people ["aka"; "name"; "_id"] (VStr "Jane") false = OK r /\
    first_match false people ["aka"; "name"; "_id"] (VStr "Jane") r /\
    (false = false -> (forall s, VStr "Jane" <> VStr s) -> r = VNone).
Proof.
  apply fuzzy_retrieval_first_match. intros H. discriminate H.
Defined.

(** C3, as stated, fails: a case-sensitive lookup raises [TypeError] on a
    document that holds a nested document under a candidate field, although
    no gathered value equals the target. *)
Lemma fuzzy_retrieval_unhashable :
  let ann := [("_id", VStr "ann"); ("name", VStr "Ann");
              ("education", VList [VDict [("degree", VStr "PhD")]])] in
  ~ contains true ann ["name"; "education"] (VStr "Bob") /\
  fuzzy_retrieval [ann] ["name"; "education"] (VStr "Bob") true
  = Raise TypeError.
Proof.
  split; [|reflexivity].
  intros (g & Hg & E). simpl in Hg.
  destruct Hg as [<-|[<-|[]]]; discriminate E.
Qed.

(** ** Equality of hashable values *)

Ltac eqb_prop :=
  repeat match goal with
    | H : (_ && _)%bool = true |- _ => apply andb_prop in H as [? ?]
    | H : (_ =? _) = true |- _ => apply Z.eqb_eq in H
    | H : String.eqb _ _ = true |- _ => apply String.eqb_eq in H
    | H : Bool.eqb _ _ = true |- _ => apply Bool.eqb_prop in H
    end.

Lemma py_eq_refl v : hashable v = true -> py_eq v v = true.
Proof.
  destruct v; simpl; intros H; try discriminate H; try reflexivity.
  - apply Bool.eqb_reflx.
  - apply Z.eqb_refl.
  - apply String.eqb_refl.
  - now rewrite !Z.eqb_refl.
Qed.

Lemma py_eq_sym a b :
  hashable a = true -> hashable b = true -> py_eq a b = py_eq b a.
Proof.
  destruct a, b; simpl; intros Ha Hb; try discriminate; try reflexivity.
  - destruct b, b0; reflexivity.
  - apply Z.eqb_sym.
  - apply Z.eqb_sym.
  - apply Z.eqb_sym.
  - apply String.eqb_sym.
  - now rewrite (Z.eqb_sym y), (Z.eqb_sym m), (Z.eqb_sym d).
Qed.

Lemma py_eq_trans a b c :
  hashable b = true -> hashable c = true ->
  py_eq a b = true -> py_eq b c = true -> py_eq a c = true.
Proof.
  destruct a, b, c; simpl; intros Hb Hc H1 H2;
    try discriminate; try reflexivity; eqb_prop; subst;
    rewrite ?Z.eqb_refl, ?String.eqb_refl; try reflexivity;
    repeat match goal with b : bool |- _ => destruct b end;
    try reflexivity; try discriminate; try lia.
Qed.

(** ** Dicts keyed by values *)

Section ValueDicts.

Context {A : Type}.
Implicit Types d : list (val * A).

Lemma vget_In d k v :
  vget d k = Some v -> exists k', In (k', v) d /\ py_eq k' k = true.
Proof.
  induction d as [|[k0 v0] d IH]; simpl; [discriminate|].
  destruct (py_eq k0 k) eqn:E.
  - intros H. injection H as <-. exists k0. split; [now left|exact E].
  - intros H. destruct (IH H) as (k' & Hin & Hk). exists k'. split; [now right|exact Hk].
Qed.

Lemma vget_None d k :
  vget d k = None <-> Forall (fun kv => py_eq (fst kv) k = false) d.
Proof.
  induction d as [|[k0 v0] d IH]; simpl.
  - split; [constructor|reflexivity].
  - destruct (py_eq k0 k) eqn:E.
    + split; [discriminate|]. intros H. inversion H; subst. simpl in *. congruence.
    + rewrite IH. split; [now constructor|]. intros H. now inversion H.
Qed.

Lemma vset_In d k0 v0 k v :
  In (k, v) (vset d k0 v0) ->
  In (k, v) d \/
  (v = v0 /\ (k = k0 \/ (py_eq k k0 = true /\ exists v', In (k, v') d))).
Proof.
  induction d as [|[k1 v1] d IH]; simpl.
  - intros [H|[]]. injection H as <- <-. right. split; [reflexivity|now left].
  - destruct (py_eq k1 k0) eqn:E; simpl.
    + intros [H|H].
      * injection H as <- <-. right. split; [reflexivity|]. right.
        split; [exact E|]. exists v1. now left.
      * left. now right.
    + intros [H|H]; [left; now left|].
      destruct (IH H) as [Hin|(-> & [->|(Hk & v' & Hin)])].
      * left. now right.
      * right. split; [reflexivity|now left].
      * right. split; [reflexivity|]. right. split; [exact Hk|]. exists v'. now right.
Qed.

Lemma vset_keys d k0 v0 k :
  In k (map fst (vset d k0 v0)) -> In k (map fst d) \/ k = k0.
Proof.
  intros H. apply in_map_iff in H as ([k' v] & <- & Hin). simpl.
  destruct (vset_In _ _ _ _ _ Hin) as [H|(_ & [->|(_ & v' & H)])].
  - left. apply in_map_iff. now exists (k', v).
  - now right.
  - left. apply in_map_iff. now exists (k', v').
Qed.

Lemma vset_distinct d k v :
  hashable k = true ->
  Forall (fun kv => hashable (fst kv) = true) d ->
  distinct_keys d -> distinct_keys (vset d k v).
Proof.
  intros Hk Hh Hd. induction Hd as [|k1 v1 d F Hd IH]; simpl.
  - constructor; constructor.
  - inversion Hh as [|? ? Hk1 Hh']; subst. simpl in Hk1.
    destruct (py_eq k1 k) eqn:E.
    + now constructor.
    + constructor; [|now apply IH].
      apply Forall_forall. intros [k2 v2] Hin. simpl.
      destruct (vset_In _ _ _ _ _ Hin) as [H|(_ & [->|(_ & v' & H)])].
      * rewrite Forall_forall in F. now apply (F (k2, v2)).
      * rewrite py_eq_sym by assumption. exact E.
      * rewrite Forall_forall in F. now apply (F (k2, v')).
Qed.

Lemma vset_hashable d k v :
  hashable k = true ->
  Forall (fun kv => hashable (fst kv) = true) d ->
  Forall (fun kv => hashable (fst kv) = true) (vset d k v).
Proof.
  intros Hk Hh. apply Forall_forall. intros [k' v'] Hin. simpl.
  rewrite Forall_forall in Hh.
  destruct (vset_In _ _ _ _ _ Hin) as [H|(_ & [->|(_ & v'' & H)])].
  - now apply (Hh (k', v')).
  - exact Hk.
  - now apply (Hh (k', v'')).
Qed.

(** In a dict with distinct hashable keys, an entry is what its key gets. *)
Lemma vget_entry d k v :
  Forall (fun kv => hashable (fst kv) = true) d ->
  distinct_keys d -> In (k, v) d -> vget d k = Some v.
Proof.
  intros Hh Hd. induction Hd as [|k1 v1 d F Hd IH]; simpl; [intros []|].
  inversion Hh as [|? ? Hk1 Hh']; subst. simpl in Hk1.
  intros [H|H].
  - injection H as -> ->. now rewrite py_eq_refl.
  - pose proof (proj1 (Forall_forall _ _) F _ H) as E.
    pose proof (proj1 (Forall_forall _ _) Hh' _ H) as Hk. simpl in E, Hk.
    rewrite py_eq_sym, E by assumption. now apply IH.
Qed.

End ValueDicts.

(** ** [merge_collections] *)

Lemma index_by_id_hashable coll acc idx :
  index_by_id coll acc = OK idx ->
  Forall (fun d => hashable (doc_id d) = true) coll.
Proof.
  revert acc. induction coll as [|d coll IH]; simpl; intros acc H; [constructor|].
  fold (doc_id d) in H. destruct (hashable (doc_id d)) eqn:E; [|discriminate].
  constructor; [exact E|]. eapply IH, H.
Qed.

Lemma index_by_id_indexed coll0 coll acc :
  Forall (fun d => hashable (doc_id d) = true) coll ->
  incl coll coll0 -> indexed coll0 acc ->
  exists idx, index_by_id coll acc = OK idx /\ indexed coll0 idx.
Proof.
  intros Hh. revert acc. induction Hh as [|d coll Hd Hh IH]; simpl; intros acc Hi Hacc.
  - now exists acc.
  - fold (doc_id d). rewrite Hd. apply IH.
    + intros x Hx. apply Hi. now right.
    + destruct Hacc as (D & K & P). split; [|split].
      * now apply vset_distinct.
      * now apply vset_hashable.
      * apply Forall_forall. intros [k x] Hin. simpl.
        rewrite Forall_forall in P.
        destruct (vset_In _ _ _ _ _ Hin) as [H|(-> & [->|(E & _)])].
        -- now apply (P (k, x)).
        -- split; [apply Hi; now left|]. split; [exact Hd|now apply py_eq_refl].
        -- split; [apply Hi; now left|]. split; [exact Hd|exact E].
Qed.

Section Linking.

Variables (akeys : list val) (bdict : list (val * dict)) (target_id : string).
Hypothesis akeys_hashable : Forall (fun k => hashable k = true) akeys.

Lemma link_all_linked bitems k acc :
  incl bitems bdict -> In k akeys ->
  Forall (linked akeys bdict target_id) acc ->
  Forall (linked akeys bdict target_id) (link_all bitems target_id k acc).
Proof.
  revert acc. induction bitems as [|[kk v] r IH]; simpl; intros acc Hi Hk Hacc;
    [exact Hacc|].
  apply IH; [intros x Hx; apply Hi; now right|exact Hk|].
  fold (foreign_key target_id v).
  destruct (py_eq (foreign_key target_id v) k) eqn:E; [|exact Hacc].
  apply Forall_forall. intros [k' kk'] Hin.
  rewrite Forall_forall in Hacc, akeys_hashable.
  destruct (vset_In _ _ _ _ _ Hin) as [H|(-> & [->|(Ek & w & H)])].
  - now apply Hacc.
  - split; [exact Hk|]. exists v. split; [apply Hi; now left|exact E].
  - destruct (Hacc _ H) as [Hk' _]. simpl in Hk'.
    split; [exact Hk'|]. exists v. split; [apply Hi; now left|]. simpl.
    apply (py_eq_trans _ k); auto.
    rewrite py_eq_sym; auto.
Qed.

Lemma link_keys_linked keys acc :
  incl keys akeys ->
  Forall (linked akeys bdict target_id) acc ->
  Forall (linked akeys bdict target_id) (link_keys keys bdict target_id acc).
Proof.
  revert acc. induction keys as [|k r IH]; simpl; intros acc Hi Hacc; [exact Hacc|].
  apply IH; [intros x Hx; apply Hi; now right|].
  apply link_all_linked; [apply incl_refl|apply Hi; now left|exact Hacc].
Qed.

End Linking.

Lemma chain_all_joined a b target_id adict bdict items chained :
  indexed a adict -> indexed b bdict ->
  Forall (linked (map fst adict) bdict target_id) items ->
  Forall (fun kc => joined a b target_id (snd kc)) chained ->
  exists res, chain_all adict bdict items chained = OK res /\
              Forall (fun kc => joined a b target_id (snd kc)) res.
Proof.
  intros (Da & Ka & Pa) (Db & Kb & Pb) Hitems. revert chained.
  induction Hitems as [|[k kk] r (Hk & w & Hw & E) _ IH]; simpl; intros chained Hc.
  - now exists chained.
  - simpl in Hk, Hw, E.
    apply in_map_iff in Hk as ([k0 x] & Ek & Hx). simpl in Ek. subst k0.
    unfold vitem.
    rewrite (vget_entry adict k x Ka Da Hx), (vget_entry bdict kk w Kb Db Hw). simpl.
    apply IH. apply Forall_forall. intros [k' c] Hin. simpl.
    rewrite Forall_forall in Hc, Pa, Pb, Ka.
    assert (G : joined a b target_id {| inferior := x; superior := w |}).
    { destruct (Pa _ Hx) as (Ia & Ha & Ea). destruct (Pb _ Hw) as (Ib & _ & _).
      simpl in *. repeat split; [exact Ia|exact Ib|]. simpl.
      apply (py_eq_trans _ k); auto. apply (Ka _ Hx). }
    destruct (vset_In _ _ _ _ _ Hin) as [H|(-> & _)]; [|exact G].
    now apply (Hc (k', c)).
Qed.

Lemma indexed_nil coll : indexed coll [].
Proof. repeat split; constructor. Qed.

Lemma merge_collections_joined a b target_id :
  Forall (fun d => hashable (doc_id d) = true) a ->
  Forall (fun d => hashable (doc_id d) = true) b ->
  exists merged, merge_collections a b target_id = OK merged /\
                 Forall (joined a b target_id) merged.
Proof.
  intros Ha Hb. unfold merge_collections.
  destruct (index_by_id_indexed a a [] Ha (incl_refl _) (indexed_nil _))
    as (adict & Ea & Ia).
  destruct (index_by_id_indexed b b [] Hb (incl_refl _) (indexed_nil _))
    as (bdict & Eb & Ib).
  rewrite Ea, Eb. simpl.
  assert (Hk : Forall (fun k => hashable k = true) (map fst adict)).
  { destruct Ia as (_ & K & _). now apply Forall_map. }
  destruct (chain_all_joined a b target_id adict bdict
              (link_keys (map fst adict) bdict target_id []) [] Ia Ib)
    as (res & Er & Hr).
  - apply link_keys_linked; [exact Hk|apply incl_refl|constructor].
  - constructor.
  - rewrite Er. simpl. exists (map snd res). split; [reflexivity|].
    now apply Forall_map.
Qed.

(** C4: [merge_collections] is an inner join.  Every document it returns
    merges a document of the inferior collection with a document of the
    superior collection whose foreign key equals its [_id]; hence an inferior
    document that no superior document refers to is the inferior layer of no
    result.  The function returns whenever the [_id]s can be dict keys. *)
Theorem merge_collections_inner_join a b target_id :
  (forall merged, merge_collections a b target_id = OK merged ->
     (forall c, In c merged -> joined a b target_id c) /\
     (forall x, In x a ->
        (forall y, In y b -> py_eq (foreign_key target_id y) (doc_id x) = false) ->
        forall c, In c merged -> inferior c <> x)) /\
  ((forall d, In d (a ++ b)%list -> hashable (doc_id d) = true) ->
   exists merged, merge_collections a b target_id = OK merged).
Proof.
  split.
  - intros merged E.
    assert (Ha : Forall (fun d => hashable (doc_id d) = true) a).
    { unfold merge_collections in E.
      destruct (index_by_id a []) as [adict|] eqn:Ea; [|discriminate].
      eapply index_by_id_hashable, Ea. }
    assert (Hb : Forall (fun d => hashable (doc_id d) = true) b).
    { unfold merge_collections in E.
      destruct (index_by_id a []) as [adict|]; [|discriminate]. simpl in E.
      destruct (index_by_id b []) as [bdict|] eqn:Eb; [|discriminate].
      eapply index_by_id_hashable, Eb. }
    destruct (merge_collections_joined a b target_id Ha Hb) as (m & Em & Hm).
    rewrite Em in E. injection E as ->. rewrite Forall_forall in Hm.
    split; [exact Hm|].
    intros x Hx Hno c Hc Ex. subst x. destruct (Hm c Hc) as (_ & Hs & E).
    rewrite (Hno _ Hs) in E. discriminate E.
  - intros H.
    destruct (merge_collections_joined a b target_id) as (m & Em & _).
    + apply Forall_forall. intros d Hd. apply H, in_or_app. now left.
    + apply Forall_forall. intros d Hd. apply H, in_or_app. now right.
    + now exists m.
Qed.

Example merge_collections_proposals :
  merge_collections proposals grants "proposal_id"
  = OK [ {| inferior := [("_id", VStr "prop1"); ("title", VStr "Nanostructure");
                         ("amount", VInt 100)];
            superior := [("_id", VStr "grant1"); ("proposal_id", VStr "prop1");
                         ("amount", VInt 90)] |} ].
Proof. reflexivity. Qed.

Lemma merge_collections_inner_join_witness :
  exists merged, merge_collections proposals grants "proposal_id" = OK merged.
Proof.
  apply (proj2 (merge_collections_inner_join proposals grants "proposal_id")).
  intros d Hd. simpl in Hd.
  destruct Hd as [<-|[<-|[<-|[]]]]; reflexivity.
Defined.

(** ** [filter_publications] *)

Lemma str_in_iff authors v :
  str_in authors v = true <-> exists s, v = VStr s /\ In s authors.
Proof.
  destruct v; simpl; try (split; [discriminate|intros (s0 & E & _); discriminate E]).
  rewrite existsb_exists. split.
  - intros (x & Hx & E). apply String.eqb_eq in E. subst x. now exists s.
  - intros (s0 & E & Hs). injection E as <-. exists s. split; [exact Hs|apply String.eqb_refl].
Qed.

Lemma intersectsb_iff authors pub :
  intersectsb authors pub = true <-> intersects authors pub.
Proof.
  unfold intersectsb, intersects. rewrite existsb_exists. split.
  - intros (v & Hv & E). apply str_in_iff in E as (s & -> & Hs). now exists s.
  - intros (s & Hs & Hv). exists (VStr s). split; [exact Hv|].
    apply str_in_iff. now exists s.
Qed.

Lemma to_set_elements v l : to_set v = OK l -> elements v = l.
Proof.
  unfold to_set, elements. destruct (py_iter v) as [l'|]; simpl; [|discriminate].
  destruct (forallb hashable l'); [|discriminate]. now intros [= ->].
Qed.

Lemma relevant_ok authors pub :
  publication_ok pub -> relevant authors pub = OK (intersectsb authors pub).
Proof.
  intros [(l & Ea & Hl) (e & Ee)]. unfold relevant, intersectsb, participants.
  rewrite (to_set_elements _ _ Ee), Ee.
  unfold get_default. rewrite Ea. unfold to_set, elements. simpl.
  rewrite Hl. reflexivity.
Qed.

Lemma bold_pub_ok authors pub :
  publication_ok pub -> bold_pub authors pub = OK (bolded authors pub).
Proof.
  intros [(l & Ea & _) _]. unfold bold_pub, bolded, item, get_default, elements.
  rewrite Ea. reflexivity.
Qed.

Lemma select_publications_default citations authors :
  Forall publication_ok citations ->
  select_publications citations authors true None None
  = OK (map (bolded authors) (filter (intersectsb authors) citations)).
Proof.
  induction 1 as [|pub rest Hp _ IH]; simpl; [reflexivity|].
  rewrite (relevant_ok authors pub Hp). simpl.
  destruct (intersectsb authors pub); [|exact IH].
  rewrite (bold_pub_ok authors pub Hp), IH. reflexivity.
Qed.

Lemma bold_name_target authors s :
  In s authors -> bold_name authors (VStr s) = VStr ("\textbf{" ++ s ++ "}").
Proof.
  intros H. unfold bold_name.
  replace (existsb (String.eqb s) authors) with true; [reflexivity|].
  symmetry. apply existsb_exists. exists s. split; [exact H|apply String.eqb_refl].
Qed.

Section SortingFacts.

Context {K : Type} (key_lt : K -> K -> bool) (doc_date_key : dict -> result K).

(** The order on keys is a strict weak order. *)
Hypothesis key_lt_asym : forall a b, key_lt a b = true -> key_lt b a = false.
Hypothesis key_le_trans :
  forall a b c, key_lt b a = false -> key_lt c b = false -> key_lt c a = false.

Lemma insert_sorted_perm (x : K * dict) l :
  Permutation (insert_sorted key_lt x l) (x :: l).
Proof.
  induction l as [|y r IH]; simpl; [reflexivity|].
  destruct (key_lt (fst y) (fst x)); [|reflexivity].
  rewrite IH. apply perm_swap.
Qed.

Lemma stable_sort_perm (l : list (K * dict)) :
  Permutation (stable_sort key_lt l) l.
Proof.
  induction l as [|x r IH]; simpl; [reflexivity|].
  rewrite insert_sorted_perm. now constructor.
Qed.

Lemma insert_sorted_sorted (x : K * dict) l :
  StronglySorted (key_le key_lt) l ->
  StronglySorted (key_le key_lt) (insert_sorted key_lt x l).
Proof.
  induction 1 as [|y r Hr IH Hy]; simpl.
  - constructor; constructor.
  - destruct (key_lt (fst y) (fst x)) eqn:E.
    + constructor; [exact IH|].
      eapply Permutation_Forall; [symmetry; apply insert_sorted_perm|].
      constructor; [|exact Hy]. unfold key_le. now apply key_lt_asym.
    + constructor; [now constructor|].
      constructor; [exact E|].
      eapply Forall_impl; [|exact Hy].
      intros z Hz. unfold key_le in *. now apply (key_le_trans _ (fst y)).
Qed.

Lemma stable_sort_sorted (l : list (K * dict)) :
  StronglySorted (key_le key_lt) (stable_sort key_lt l).
Proof.
  induction l as [|x r IH]; simpl; [constructor|].
  now apply insert_sorted_sorted.
Qed.

Lemma decorate_ok l :
  Forall (fun d => exists k, doc_date_key d = OK k) l ->
  exists keyed, decorate doc_date_key l = OK keyed /\
                map snd keyed = l /\
                Forall (fun kd => doc_date_key (snd kd) = OK (fst kd)) keyed.
Proof.
  unfold decorate.
  induction 1 as [|d r (k & Ek) _ (keyed & E & M & F)]; simpl.
  - exists []. repeat split; constructor.
  - rewrite Ek. simpl. rewrite E. simpl. exists ((k, d) :: keyed).
    repeat split; [simpl; now rewrite M|now constructor].
Qed.

Lemma StronglySorted_map_snd keyed :
  Forall (fun kd => doc_date_key (snd kd) = OK (fst kd)) keyed ->
  StronglySorted (key_le key_lt) keyed -> StronglySorted (ascending key_lt doc_date_key) (map snd keyed).
Proof.
  intros F S. induction S as [|x r Sr IH Hx]; simpl; [constructor|].
  inversion F as [|? ? Fx Fr]; subst.
  constructor; [now apply IH|].
  apply Forall_map. rewrite Forall_forall in Hx, Fr |- *.
  intros y Hy. exists (fst x), (fst y). repeat split; auto. now apply Hx.
Qed.

Lemma py_sorted_ascending l :
  Forall (fun d => exists k, doc_date_key d = OK k) l ->
  exists sorted, py_sorted key_lt doc_date_key l false = OK sorted /\
                 Permutation sorted l /\ StronglySorted (ascending key_lt doc_date_key) sorted.
Proof.
  intros H. destruct (decorate_ok l H) as (keyed & E & M & F).
  unfold py_sorted. rewrite E. simpl. eexists. split; [reflexivity|]. split.
  - rewrite <- M. apply Permutation_map, stable_sort_perm.
  - apply StronglySorted_map_snd; [|apply stable_sort_sorted].
    eapply Permutation_Forall; [symmetry; apply stable_sort_perm|exact F].
Qed.

End SortingFacts.

Lemma StronglySorted_snoc {A} (R : A -> A -> Prop) l x :
  StronglySorted R l -> Forall (fun y => R y x) l ->
  StronglySorted R (l ++ [x])%list.
Proof.
  induction 1 as [|y r Sr IH Hy]; simpl; intros F.
  - constructor; constructor.
  - inversion F as [|? ? Fy Fr]; subst.
    constructor; [now apply IH|].
    apply Forall_app. split; [exact Hy|now constructor].
Qed.

Lemma StronglySorted_rev {A} (R : A -> A -> Prop) l :
  StronglySorted R l -> StronglySorted (fun a b => R b a) (rev l).
Proof.
  induction 1 as [|x r Sr IH Hx]; simpl; [constructor|].
  apply StronglySorted_snoc; [exact IH|].
  apply Forall_rev. exact Hx.
Qed.

Section SortingReverse.

Context {K : Type} (key_lt : K -> K -> bool) (doc_date_key : dict -> result K).
Hypothesis key_lt_asym : forall a b, key_lt a b = true -> key_lt b a = false.
Hypothesis key_le_trans :
  forall a b c, key_lt b a = false -> key_lt c b = false -> key_lt c a = false.

Lemma py_sorted_descending l :
  Forall (fun d => exists k, doc_date_key d = OK k) l ->
  exists sorted, py_sorted key_lt doc_date_key l true = OK sorted /\
                 Permutation sorted l /\
                 StronglySorted (fun p q => ascending key_lt doc_date_key q p) sorted.
Proof.
  intros H. destruct (decorate_ok doc_date_key l H) as (keyed & E & M & F).
  unfold py_sorted. rewrite E. simpl. eexists. split; [reflexivity|].
  assert (P : Permutation (rev (stable_sort key_lt (rev keyed))) keyed).
  { rewrite <- Permutation_rev, stable_sort_perm. symmetry. apply Permutation_rev. }
  split.
  - rewrite <- M. now apply Permutation_map.
  - assert (F' : Forall (fun kd => doc_date_key (snd kd) = OK (fst kd))
                   (rev (stable_sort key_lt (rev keyed))))
      by (eapply Permutation_Forall; [symmetry; exact P|exact F]).
    pose proof (StronglySorted_rev _ _
                  (stable_sort_sorted key_lt key_lt_asym key_le_trans (rev keyed))) as S.
    revert F' S. generalize (rev (stable_sort key_lt (rev keyed))).
    intros l' F' S. induction S as [|x r Sr IH Hx]; simpl; [constructor|].
    inversion F' as [|? ? Fx Fr]; subst.
    constructor; [now apply IH|].
    apply Forall_map. rewrite Forall_forall in Hx, Fr |- *.
    intros y Hy. exists (fst y), (fst x). repeat split; auto. now apply Hx.
Qed.

End SortingReverse.

(** C2 (as amended): with no date window and bolding requested, for
    publications that carry an [author] list, [filter_publications] returns
    the publications whose author-or-editor set meets the target set, each
    target author of the [author] list wrapped in [\textbf{...}]; with the
    default [reverse=False] they come in ascending order of the sort key,
    and in descending order with [reverse=True]. *)
Theorem filter_publications_default
    (K : Type) (key_lt : K -> K -> bool) (doc_date_key : dict -> result K)
    (citations : list dict) (authors : list string) (reverse : bool) :
  (forall a b, key_lt a b = true -> key_lt b a = false) ->
  (forall a b c, key_lt b a = false -> key_lt c b = false -> key_lt c a = false) ->
  Forall publication_ok citations ->
  Forall (fun pub => exists k, doc_date_key (bolded authors pub) = OK k) citations ->
  exists pubs,
    filter_publications key_lt doc_date_key citations authors reverse true None None
    = OK pubs /\
    Permutation pubs (map (bolded authors) (filter (intersectsb authors) citations)) /\
    (forall pub, intersectsb authors pub = true <-> intersects authors pub) /\
    (forall s, In s authors ->
       bold_name authors (VStr s) = VStr ("\textbf{" ++ s ++ "}")) /\
    StronglySorted (if reverse
                    then fun p q => ascending key_lt doc_date_key q p
                    else ascending key_lt doc_date_key) pubs.
Proof.
  intros asym trans Hok Hkey. unfold filter_publications.
  rewrite (select_publications_default citations authors Hok). cbn [bind].
  assert (Hk : Forall (fun d => exists k, doc_date_key d = OK k)
                 (map (bolded authors) (filter (intersectsb authors) citations))).
  { apply Forall_map. apply Forall_forall. intros pub Hin.
    apply filter_In in Hin as [Hin _].
    rewrite Forall_forall in Hkey. now apply Hkey. }
  destruct reverse.
  - destruct (py_sorted_descending key_lt doc_date_key asym trans _ Hk)
      as (sorted & E & P & S).
    exists sorted. split; [exact E|]. split; [exact P|].
    split; [intros pub; apply intersectsb_iff|].
    split; [apply bold_name_target|exact S].
  - destruct (py_sorted_ascending key_lt doc_date_key asym trans _ Hk)
      as (sorted & E & P & S).
    exists sorted. split; [exact E|]. split; [exact P|].
    split; [intros pub; apply intersectsb_iff|].
    split; [apply bold_name_target|exact S].
Qed.

Lemma Zltb_asym a b : (a <? b) = true -> (b <? a) = false.
Proof. lia. Qed.

Lemma Zleb_trans a b c : (b <? a) = false -> (c <? b) = false -> (c <? a) = false.
Proof. lia. Qed.

Lemma filter_publications_default_witness :
  exists pubs,
    filter_publications Z.ltb year_month_key [pub_2020; pub_other; pub_2018]
      ["A. Author"] false true None None = OK pubs /\
    Permutation pubs
      (map (bolded ["A. Author"])
           (filter (intersectsb ["A. Author"]) [pub_2020; pub_other; pub_2018])) /\
    (forall pub, intersectsb ["A. Author"] pub = true <-> intersects ["A. Author"] pub) /\
    (forall s, In s ["A. Author"] ->
       bold_name ["A. Author"] (VStr s) = VStr ("\textbf{" ++ s ++ "}")) /\
    StronglySorted (ascending Z.ltb year_month_key) pubs.
Proof.
  apply (filter_publications_default Z Z.ltb year_month_key
           [pub_2020; pub_other; pub_2018] ["A. Author"] false
           Zltb_asym Zleb_trans).
  - repeat constructor; eexists; split; reflexivity.
  - repeat constructor; eexists; reflexivity.
Defined.

(** C2, as stated, fails: called with its default flags, the function
    returns the matching publications oldest first. *)
Lemma filter_publications_oldest_first :
  filter_publications Z.ltb year_month_key [pub_2020; pub_other; pub_2018]
    ["A. Author"] false true None None
  = OK [bolded ["A. Author"] pub_2018; bolded ["A. Author"] pub_2020] /\
  get (bolded ["A. Author"] pub_2018) "year" = Some (VInt 2018) /\
  get (bolded ["A. Author"] pub_2020) "year" = Some (VInt 2020) /\
  get (bolded ["A. Author"] pub_2018) "author"
  = Some (VList [VStr "\textbf{A. Author}"; VStr "B. Other"]).
Proof. repeat split; reflexivity. Qed.

(** A publication that only its editor list selects has no [author] field
    for the bolding loop to read. *)
Example filter_publications_editor_only :
  filter_publications Z.ltb year_month_key [pub_edited] ["A. Author"]
    false true None None
  = Raise KeyError.
Proof. reflexivity. Qed.

(** ** Loops that can raise *)

Lemma mapM_Forall2 {A B} (f : A -> result B) l r :
  mapM f l = OK r -> Forall2 (fun x y => f x = OK y) l r.
Proof.
  revert r. induction l as [|x l IH]; simpl; intros r H.
  - injection H as <-. constructor.
  - destruct (f x) as [y|] eqn:E; simpl in H; [|discriminate].
    destruct (mapM f l) as [ys|]; simpl in H; [|discriminate].
    injection H as <-. constructor; [exact E|now apply IH].
Qed.

Lemma mapM_total {A B} (f : A -> result B) l :
  Forall (fun x => exists y, f x = OK y) l -> exists r, mapM f l = OK r.
Proof.
  induction 1 as [|x l (y & E) _ (r & Er)]; simpl.
  - now exists [].
  - rewrite E, Er. simpl. now exists (y :: r).
Qed.

Lemma filterM_In {A} (f : A -> result bool) l r :
  filterM f l = OK r -> forall x, In x r <-> In x l /\ f x = OK true.
Proof.
  revert r. induction l as [|y l IH]; simpl; intros r H x.
  - injection H as <-. simpl. tauto.
  - destruct (f y) as [b|] eqn:E; simpl in H; [|discriminate].
    destruct (filterM f l) as [ys|]; simpl in H; [|discriminate].
    injection H as <-. specialize (IH ys eq_refl x).
    destruct b; simpl; rewrite IH; split.
    + intros [->|[H1 H2]]; auto.
    + intros [[->|H1] H2]; auto.
    + intros [H1 H2]; auto.
    + intros [[->|H1] H2]; [congruence|auto].
Qed.

Lemma filterM_total {A} (f : A -> result bool) l :
  Forall (fun x => exists b, f x = OK b) l -> exists r, filterM f l = OK r.
Proof.
  induction 1 as [|x l (b & E) _ (r & Er)]; simpl.
  - now exists [].
  - rewrite E, Er. simpl. eexists. reflexivity.
Qed.

Lemma filterM_incl {A} (f : A -> result bool) l r :
  filterM f l = OK r -> incl r l.
Proof. intros H x Hx. now apply (filterM_In f l r H x). Qed.

(** ** The relevance stage of [filter_presentations] *)

Lemma resolve_total coll value :
  exists r, resolve coll value = OK r /\
            (r = VNone \/ exists d, r = VDict d /\ In d coll).
Proof.
  unfold resolve.
  destruct (fuzzy_retrieval_insensitive coll ["aka"; "name"; "_id"] value)
    as (r & E & [(pre & d & post & -> & -> & _)|[-> _]]).
  - eexists. split; [exact E|]. right. exists d. split; [reflexivity|].
    apply in_or_app. right. now left.
  - eexists. split; [exact E|]. now left.
Qed.

Lemma py_eq_str v s : py_eq v (VStr s) = true <-> v = VStr s.
Proof.
  destruct v; simpl; try (split; discriminate).
  rewrite String.eqb_eq. split; [now intros ->|now intros [= ->]].
Qed.

Lemma author_ids_In people pauthors authors ids :
  Forall2 (fun x y => resolve people x = OK y) pauthors authors ->
  author_ids authors = OK ids ->
  forall i, In i ids <->
            exists author person, In author pauthors /\
              resolve people author = OK (VDict person) /\
              get person "_id" = Some i.
Proof.
  intros F. revert ids. induction F as [|x a pa au Hx F IH]; simpl; intros ids H i.
  - injection H as <-. simpl. split; [tauto|]. intros (? & ? & [] & _).
  - destruct (resolve_total people x) as (r & Er & Hr).
    rewrite Hx in Er. injection Er as ->.
    destruct Hr as [->|(d & -> & _)].
    + rewrite (IH ids H i). split.
      * intros (author & person & Hin & Hres & Hid). exists author, person. auto.
      * intros (author & person & [<-|Hin] & Hres & Hid).
        -- rewrite Hx in Hres. discriminate Hres.
        -- exists author, person. auto.
    + unfold py_getitem, item in H.
      destruct (get d "_id") as [j|] eqn:Ej; simpl in H; [|discriminate].
      destruct (author_ids au) as [js|]; simpl in H; [|discriminate].
      injection H as <-. simpl. rewrite (IH js eq_refl i). split.
      * intros [<-|(author & person & Hin & Hres & Hid)].
        -- exists x, d. auto.
        -- exists author, person. auto.
      * intros (author & person & [<-|Hin] & Hres & Hid).
        -- rewrite Hx in Hres. injection Hres as <-. left. congruence.
        -- right. exists author, person. auto.
Qed.

Lemma by_member_spec people pres b :
  by_member people pres = OK b ->
  (b = true <-> resolves_to_member people pres).
Proof.
  unfold by_member, resolves_to_member. intros H.
  destruct (pres_authors pres) as [pa|] eqn:Epa; simpl in H; [|discriminate].
  destruct (mapM (resolve people) pa) as [au|] eqn:Eau; simpl in H; [|discriminate].
  destruct (author_ids au) as [ids|] eqn:Eids; simpl in H; [|discriminate].
  injection H as <-.
  pose proof (author_ids_In people pa au ids (mapM_Forall2 _ _ _ Eau) Eids) as Hids.
  unfold in_list, member. rewrite existsb_exists. split.
  - intros (i & Hi & E). apply py_eq_str in E. subst i.
    apply Hids in Hi as (author & person & Hin & Hres & Hid).
    exists pa, author, person. auto.
  - intros (pa' & author & person & E & Hin & Hres & Hid).
    injection E as <-. exists (VStr "sbillinge"). split; [|reflexivity].
    apply Hids. exists author, person. auto.
Qed.

Lemma by_member_total people pres :
  Forall (fun p => has_key p "_id" = true) people ->
  (exists pa, pres_authors pres = OK pa) ->
  exists b, by_member people pres = OK b.
Proof.
  intros Hid (pa & Epa). unfold by_member. rewrite Epa. simpl.
  destruct (mapM_total (resolve people) pa) as (au & Eau).
  { apply Forall_forall. intros x _.
    destruct (resolve_total people x) as (r & E & _). now exists r. }
  rewrite Eau. simpl.
  assert (Hau : Forall (fun a => a = VNone \/ exists d, a = VDict d /\ In d people) au).
  { pose proof (mapM_Forall2 _ _ _ Eau) as F. clear Eau Epa.
    induction F as [|x a pa' au' Hx F IH]; constructor; [|exact IH].
    destruct (resolve_total people x) as (r & E & Hr).
    rewrite Hx in E. injection E as <-. exact Hr. }
  assert (exists ids, author_ids au = OK ids) as (ids & Eids).
  { clear Eau. induction Hau as [|a au' Ha _ (ids & IH)]; simpl.
    - now exists [].
    - destruct Ha as [->|(d & -> & Hd)]; [now exists ids|].
      rewrite Forall_forall in Hid. specialize (Hid d Hd).
      unfold py_getitem, item. unfold has_key in Hid.
      destruct (get d "_id") as [j|]; [|discriminate].
      simpl. rewrite IH. simpl. eexists. reflexivity. }
  rewrite Eids. simpl. eexists. reflexivity.
Qed.

Lemma select_presentations_incl first types since before statuses presclean :
  select_presentations first types since before statuses = OK presclean ->
  incl presclean first.
Proof.
  unfold select_presentations. intros H.
  destruct (filterM (allowed_or_all "status" statuses) first) as [l2|] eqn:E2;
    simpl in H; [|discriminate].
  destruct (filterM (allowed_or_all "type" types) l2) as [l3|] eqn:E3;
    simpl in H; [|discriminate].
  apply filterM_incl in E2, E3.
  assert (I3 : incl l3 first) by (eapply incl_tran; eassumption).
  destruct since as [s|]; simpl in H.
  - match type of H with context [filterM ?f l3] =>
      destruct (filterM f l3) as [l4|] eqn:E4 end; simpl in H; [|discriminate].
    apply filterM_incl in E4.
    assert (I4 : incl l4 first) by (eapply incl_tran; eassumption).
    destruct before as [b|].
    + apply filterM_incl in H. eapply incl_tran; eassumption.
    + now injection H as <-.
  - destruct before as [b|].
    + apply filterM_incl in H. eapply incl_tran; eassumption.
    + now injection H as <-.
Qed.

Lemma annotate_all_In people institutions l l' ws :
  annotate_all people institutions l = OK (l', ws) ->
  forall r, In r l' ->
            exists pres w, In pres l /\ annotate people institutions pres = OK (r, w).
Proof.
  revert l' ws. induction l as [|pres l IH]; simpl; intros l' ws H r Hr.
  - injection H as <- <-. destruct Hr.
  - destruct (annotate people institutions pres) as [[p w]|] eqn:E;
      simpl in H; [|discriminate].
    destruct (annotate_all people institutions l) as [[rest ws']|];
      simpl in H; [|discriminate].
    injection H as <- <-. destruct Hr as [<-|Hr].
    + exists pres, w. auto.
    + destruct (IH rest ws' eq_refl r Hr) as (q & w' & Hq & Eq).
      exists q, w'. auto.
Qed.

Lemma decorate_snd {K} (key : dict -> result K) l keyed :
  decorate key l = OK keyed -> map snd keyed = l.
Proof.
  unfold decorate. intros H. apply mapM_Forall2 in H.
  induction H as [|d kd l keyed Hd _ IH]; simpl; [reflexivity|].
  destruct (key d); simpl in Hd; [|discriminate].
  injection Hd as <-. simpl. now rewrite IH.
Qed.

Lemma py_sorted_perm {K} key_lt (key : dict -> result K) l reverse sorted :
  py_sorted key_lt key l reverse = OK sorted -> Permutation sorted l.
Proof.
  unfold py_sorted. intros H.
  destruct (decorate key l) as [keyed|] eqn:E; simpl in H; [|discriminate].
  injection H as <-. rewrite <- (decorate_snd key l keyed E).
  apply Permutation_map. destruct reverse.
  - rewrite <- Permutation_rev, stable_sort_perm. symmetry. apply Permutation_rev.
  - apply stable_sort_perm.
Qed.

(** C10: the relevance stage of [filter_presentations] keeps a presentation
    exactly when fuzzy-resolving one of its authors against the people
    collection yields a document whose [_id] is ["sbillinge"]; the stage
    returns as soon as the presentations have authors and the people have an
    [_id]; and whatever the types, dates and statuses asked for, every
    presentation returned is one that this stage kept. *)
Theorem firstclean_member (people presentations institutions : list dict) :
  (forall first,
      firstclean people presentations = OK first ->
      forall pres, In pres first <->
                   In pres presentations /\ resolves_to_member people pres) /\
  (Forall (fun p => has_key p "_id" = true) people ->
   Forall (fun pres => exists pa, pres_authors pres = OK pa) presentations ->
   exists first, firstclean people presentations = OK first) /\
  (forall types since before statuses res printed,
      filter_presentations people presentations institutions types since before
        statuses = OK (res, printed) ->
      exists first,
        firstclean people presentations = OK first /\
        forall r, In r res ->
                  exists pres w, In pres first /\
                                 annotate people institutions pres = OK (r, w)).
Proof.
  split; [|split].
  - intros first H pres. unfold firstclean in H.
    rewrite (filterM_In _ _ _ H pres). split.
    + intros [Hin E]. split; [exact Hin|]. now apply (by_member_spec people pres true E).
    + intros [Hin M]. split; [exact Hin|].
      assert (exists b, by_member people pres = OK b) as (b & Eb).
      { clear M. revert first H. induction presentations as [|q l IH]; [destruct Hin|].
        simpl. intros first H.
        destruct (by_member people q) as [bq|] eqn:Eq; simpl in H; [|discriminate].
        destruct (filterM (by_member people) l) as [ys|] eqn:El; simpl in H; [|discriminate].
        destruct Hin as [->|Hin]; [now exists bq|]. now apply (IH Hin ys). }
      rewrite Eb. f_equal. now apply (by_member_spec people pres b Eb).
  - intros Hid Hpa. unfold firstclean. apply filterM_total.
    eapply Forall_impl; [|exact Hpa]. intros pres Hp. now apply by_member_total.
  - intros types since before statuses res printed H. unfold filter_presentations in H.
    destruct (firstclean people presentations) as [first|]; simpl in H; [|discriminate].
    exists first. split; [reflexivity|]. intros r Hr.
    destruct (select_presentations first types since before statuses)
      as [presclean|] eqn:Es; simpl in H; [|discriminate].
    destruct (annotate_all people institutions presclean) as [[l' ws]|] eqn:Ea;
      simpl in H; [|discriminate].
    destruct (py_sorted date_ltb date_key l' true) as [sorted|] eqn:Eo;
      simpl in H; [|discriminate].
    injection H as <- <-.
    apply py_sorted_perm in Eo.
    apply (Permutation_in _ Eo) in Hr.
    destruct (annotate_all_In _ _ _ _ _ Ea r Hr) as (pres & w & Hp & E).
    exists pres, w. split; [|exact E].
    now apply (select_presentations_incl _ _ _ _ _ _ Es).
Qed.

Lemma firstclean_member_witness :
  exists first, firstclean group [talk_member; talk_other] = OK first.
Proof.
  apply (proj1 (proj2 (firstclean_member group [talk_member; talk_other] universities))).
  - repeat constructor.
  - repeat constructor; eexists; reflexivity.
Defined.

Example firstclean_group :
  firstclean group [talk_member; talk_other] = OK [talk_member].
Proof. reflexivity. Qed.

(** ** Institutions and departments in [filter_presentations] *)

Lemma get_set_same d k v : get (set d k v) k = Some v.
Proof.
  induction d as [|[k' v'] d IH]; simpl.
  - now rewrite String.eqb_refl.
  - destruct (String.eqb k k') eqn:E; simpl; rewrite E; [reflexivity|exact IH].
Qed.

Lemma get_set_other d k v k' : k <> k' -> get (set d k v) k' = get d k'.
Proof.
  intros N. induction d as [|[k0 v0] d IH]; simpl.
  - destruct (String.eqb k' k) eqn:E; [|reflexivity].
    apply String.eqb_eq in E. congruence.
  - destruct (String.eqb k k0) eqn:E; simpl.
    + apply String.eqb_eq in E. subst k0.
      destruct (String.eqb k' k) eqn:E'; [|reflexivity].
      apply String.eqb_eq in E'. congruence.
    + now rewrite IH.
Qed.

(** The first part of the loop leaves the other fields alone. *)
Lemma annotate_fields_get people pres pres' k :
  annotate_fields people pres = OK pres' ->
  k <> "authors" -> k <> "begin_month" -> k <> "date" ->
  k <> "begin_day_suffix" -> k <> "end_day_suffix" ->
  get pres' k = get pres k.
Proof.
  unfold annotate_fields. intros H N1 N2 N3 N4 N5.
  repeat match type of H with
         | bind ?c _ = OK _ => destruct c; simpl in H; [|discriminate]
         end.
  injection H as <-.
  rewrite !get_set_other by congruence. reflexivity.
Qed.

Lemma dereference_unresolved institutions pres reference :
  get pres "institution" = Some reference ->
  resolve institutions reference = OK VNone ->
  dereference institutions pres = Raise (SystemExit VNone).
Proof. intros G R. unfold dereference. now rewrite G, R. Qed.

Lemma annotate_unresolved people institutions pres reference :
  get pres "institution" = Some reference ->
  resolve institutions reference = OK VNone ->
  exists e, annotate people institutions pres = Raise e.
Proof.
  intros G R. unfold annotate.
  destruct (annotate_fields people pres) as [p1|e] eqn:E; simpl; [|now exists e].
  exists (SystemExit VNone). apply (dereference_unresolved _ _ reference); [|exact R].
  rewrite (annotate_fields_get people pres p1 "institution" E); [exact G|discriminate..].
Qed.

Lemma annotate_all_raise people institutions l pres e :
  In pres l -> annotate people institutions pres = Raise e ->
  exists e', annotate_all people institutions l = Raise e'.
Proof.
  induction l as [|q l IH]; simpl; [intros []|].
  intros [->|Hin] E.
  - rewrite E. simpl. now exists e.
  - destruct (annotate people institutions q) as [[q' w]|e0]; simpl; [|now exists e0].
    destruct (IH Hin E) as (e' & ->). simpl. now exists e'.
Qed.

Lemma annotate_all_total people institutions l :
  Forall (fun pres => exists r, annotate people institutions pres = OK r) l ->
  exists rs ws, annotate_all people institutions l = OK (rs, ws) /\
                List.length rs = List.length l.
Proof.
  induction 1 as [|pres l ([r w] & E) _ (rs & ws & Ea & L)]; simpl.
  - exists [], []. auto.
  - rewrite E, Ea. simpl. exists (r :: rs), (w ++ ws)%list. simpl. auto.
Qed.

Lemma dereference_placeholder institutions pres reference inst department :
  get pres "institution" = Some reference ->
  resolve institutions reference = OK (VDict inst) ->
  has_key inst "_id" = true ->
  get pres "department" = Some department ->
  (forall found, lookup_department (VDict inst) department <> OK found) ->
  exists pres' id,
    dereference institutions pres = OK (pres', [DepartmentNotFound department id]) /\
    get inst "_id" = Some id /\
    get pres' "department" = Some (VDict [("name", department)]) /\
    get pres' "institution" = Some (VDict inst).
Proof.
  intros G R Hid D N. unfold dereference. rewrite G, R.
  rewrite get_set_other by discriminate. rewrite D.
  destruct (lookup_department (VDict inst) department) as [found|e] eqn:E.
  - now destruct (N found).
  - unfold has_key in Hid. unfold py_getitem, item.
    destruct (get inst "_id") as [id|]; [|discriminate]. simpl.
    eexists _, id. split; [reflexivity|]. split; [reflexivity|].
    rewrite get_set_same. split; [reflexivity|].
    rewrite get_set_other by discriminate. apply get_set_same.
Qed.

(** C9: in [filter_presentations] an institution reference that the
    institutions collection does not resolve is fatal: the turn of the loop
    exits ([SystemExit]) and the whole call raises, returning nothing;
    whereas a department that the resolved institution (a document with an
    [_id]) does not list is replaced by the placeholder
    [{"name": department}], with a warning, and the loop goes on: the call of
    the loop returns one presentation for each one whose turn returns. *)
Theorem presentations_institution_department (people institutions : list dict) :
  (forall pres reference,
      get pres "institution" = Some reference ->
      resolve institutions reference = OK VNone ->
      dereference institutions pres = Raise (SystemExit VNone) /\
      forall presentations types since before statuses first presclean,
        firstclean people presentations = OK first ->
        select_presentations first types since before statuses = OK presclean ->
        In pres presclean ->
        exists e, filter_presentations people presentations institutions types
                    since before statuses = Raise e) /\
  (forall pres fields reference inst department,
      annotate_fields people pres = OK fields ->
      get pres "institution" = Some reference ->
      resolve institutions reference = OK (VDict inst) ->
      has_key inst "_id" = true ->
      get pres "department" = Some department ->
      (forall found, lookup_department (VDict inst) department <> OK found) ->
      exists pres' id,
        annotate people institutions pres
        = OK (pres', [DepartmentNotFound department id]) /\
        get pres' "department" = Some (VDict [("name", department)])) /\
  (forall l,
      Forall (fun pres => exists r, annotate people institutions pres = OK r) l ->
      exists rs ws, annotate_all people institutions l = OK (rs, ws) /\
                    List.length rs = List.length l).
Proof.
  split; [|split].
  - intros pres reference G R. split; [now apply (dereference_unresolved _ _ reference)|].
    intros presentations types since before statuses first presclean Ef Es Hin.
    unfold filter_presentations. rewrite Ef. cbn [bind]. rewrite Es. cbn [bind].
    destruct (annotate_unresolved people institutions pres reference G R) as (e & E).
    destruct (annotate_all_raise people institutions presclean pres e Hin E) as (e' & ->).
    now exists e'.
  - intros pres fields reference inst department Ef G R Hid D N.
    destruct (dereference_placeholder institutions fields reference inst department)
      as (pres' & id & E & _ & Hd & _); auto.
    + rewrite (annotate_fields_get people pres fields "institution" Ef);
        [exact G|discriminate..].
    + rewrite (annotate_fields_get people pres fields "department" Ef);
        [exact D|discriminate..].
    + exists pres', id. unfold annotate. rewrite Ef. cbn [bind]. auto.
  - apply annotate_all_total.
Qed.

Lemma presentations_institution_department_witness :
  dereference universities talk_elsewhere = Raise (SystemExit VNone) /\
  exists pres' id,
    annotate group universities talk_member
    = OK (pres', [DepartmentNotFound (VStr "astronomy") id]) /\
    get pres' "department" = Some (VDict [("name", VStr "astronomy")]).
Proof.
  pose proof (presentations_institution_department group universities)
    as (Fatal & Degraded & _).
  split.
  - apply (proj1 (Fatal talk_elsewhere (VStr "nowhereu") eq_refl eq_refl)).
  - eapply (Degraded talk_member).
    + reflexivity.
    + reflexivity.
    + reflexivity.
    + reflexivity.
    + reflexivity.
    + intros found H. discriminate H.
Defined.

(** A run with a department that the institution does not list, and a run
    with an unknown institution. *)
Example filter_presentations_department :
  exists talk,
    filter_presentations group [talk_member; talk_other] universities
      [VStr "all"] None None [VStr "accepted"]
    = OK ([talk], [DepartmentNotFound (VStr "astronomy") (VStr "columbiau")]) /\
    get talk "department" = Some (VDict [("name", VStr "astronomy")]) /\
    get talk "authors" = Some (VStr "Simon Billinge, Jane Doe") /\
    get talk "date" = Some (VDate 2018 5 22) /\
    get talk "begin_day_suffix" = Some (VStr "nd").
Proof. eexists. repeat split; reflexivity. Qed.

Example filter_presentations_unknown_institution :
  filter_presentations group [talk_member; talk_elsewhere] universities
    [VStr "all"] None None [VStr "accepted"]
  = Raise (SystemExit VNone).
Proof. reflexivity. Qed.

(** ** The filters that work in place *)

(** C1 fails on the code: [filter_service] copies the list of people, not
    the people, and [filter_patents] copies nothing.  After the call the
    caller's person has lost the service records that were filtered out and
    has a rewritten month; the caller's patent has a new [month] and has lost
    the event before the window. *)
Theorem filters_mutate_caller_documents :
  (exists h',
      filter_service [servant] [0%nat] (2015, 1, 1) (VStr "department") 2020
      = OK (h', [0%nat]) /\
      get (load h' 0%nat) "service"
      = Some (VList [VDict (set search_2019 "month" (VStr "Mar"))]) /\
      h' <> [servant]) /\
  (exists h',
      filter_patents [patent_doc] [0%nat] group (VStr "sbillinge")
        (Some (2015, 1, 1)) None 2020
      = OK (h', [0%nat]) /\
      get (load h' 0%nat) "month" = Some (VStr "Jun") /\
      get (load h' 0%nat) "events" = Some (VList [paid_2019]) /\
      h' <> [patent_doc]).
Proof.
  split; eexists; repeat split; try reflexivity; discriminate.
Qed.

Lemma load_store_set_same h a d :
  (a < List.length h)%nat -> load (store_set h a d) a = d.
Proof.
  unfold load. revert a. induction h as [|x h IH]; simpl; intros a H; [lia|].
  destruct a as [|a]; simpl; [reflexivity|]. apply IH. lia.
Qed.

Lemma load_store_set_other h a d b :
  a <> b -> load (store_set h a d) b = load h b.
Proof.
  unfold load. revert a b. induction h as [|x h IH]; simpl; intros a b N.
  - reflexivity.
  - destruct a as [|a], b as [|b]; simpl; try reflexivity; try congruence.
    apply IH. congruence.
Qed.

Lemma length_store_set h a d : List.length (store_set h a d) = List.length h.
Proof.
  revert a. induction h as [|x h IH]; simpl; intros a; [reflexivity|].
  destruct a; simpl; [reflexivity|]. now rewrite IH.
Qed.

Lemma rewrite_month_get i i' k :
  rewrite_month i = OK i' -> k <> "month" -> get i' k = get i k.
Proof.
  unfold rewrite_month. intros H N.
  destruct (month_to_int _) as [n|]; cbn [bind] in H; [|discriminate].
  destruct (py_getitem SHORT_MONTH_NAMES (VInt n)) as [name|]; cbn [bind] in H;
    [|discriminate].
  injection H as <-. apply get_set_other. congruence.
Qed.

Lemma events_after_ext i j s :
  get i "events" = get j "events" -> events_after i s = events_after j s.
Proof. intros E. unfold events_after, item. now rewrite E. Qed.

(** With a [since] date, a turn that keeps the license leaves in it the sum
    over all its events and the list of its events after the date. *)
Lemma license_turn_total people target s today_year i ev i' ev' :
  license_turn people target (Some s) today_year i ev = OK (Some i', ev') ->
  exists total kept,
    all_events_total i total /\
    get i' "total_amount" = Some (VInt total) /\
    events_after i s = OK kept /\
    get i' "events" = Some (VList kept).
Proof.
  unfold license_turn. intros H.
  destruct (status_and_kind i "license") as [ok|]; simpl in H; [|discriminate].
  destruct (if ok then by_inventor people target i else OK false) as [[|]|];
    simpl in H; try discriminate.
  destruct (ends_since i ["end_year"] today_year s) as [[|]|];
    simpl in H; try discriminate.
  destruct (rewrite_month i) as [i1|] eqn:Em; simpl in H; [|discriminate].
  unfold item in H.
  destruct (get i1 "events") as [events|] eqn:Ee; simpl in H; [|discriminate].
  destruct (py_iter events) as [all|] eqn:Ei; simpl in H; [|discriminate].
  destruct (sum_amounts all) as [total|] eqn:Et; simpl in H; [|discriminate].
  destruct (events_after (set i1 "total_amount" (VInt total)) s) as [kept|] eqn:Ek;
    simpl in H; [|discriminate].
  injection H as <- _.
  assert (Eo : get i "events" = Some events)
    by (rewrite <- (rewrite_month_get i i1 "events" Em); [exact Ee|discriminate]).
  exists total, kept. split; [|split; [|split]].
  - exists events, all. auto.
  - rewrite get_set_other by discriminate. apply get_set_same.
  - rewrite <- Ek. apply events_after_ext.
    rewrite get_set_other by discriminate. congruence.
  - apply get_set_same.
Qed.

(** The turns on the other licenses leave a license as it is. *)
Lemma filter_licenses_loop_frame people target since before today_year :
  forall coll h ev h' out a,
    ~ In a coll ->
    filter_licenses_loop h coll people target since before today_year ev
    = OK (h', out) ->
    load h' a = load h a.
Proof.
  induction coll as [|b rest IH]; simpl; intros h ev h' out a N H.
  - now injection H as <- _.
  - destruct (license_turn people target since today_year (load h b) ev)
      as [[kept ev1]|]; simpl in H; [|discriminate].
    match type of H with context [filter_licenses_loop ?h1 rest] =>
      destruct (filter_licenses_loop h1 rest people target since before
                  today_year ev1) as [[h2 out2]|] eqn:E end;
      simpl in H; [|discriminate].
    injection H as <- _.
    rewrite (IH _ _ _ _ a (fun I => N (or_intror I)) E).
    destruct kept; [|reflexivity].
    apply load_store_set_other. intros ->. apply N. now left.
Qed.

Lemma filter_licenses_loop_incl people target since before today_year :
  forall coll h ev h' out,
    filter_licenses_loop h coll people target since before today_year ev
    = OK (h', out) ->
    incl out coll.
Proof.
  induction coll as [|b rest IH]; simpl; intros h ev h' out H.
  - injection H as _ <-. apply incl_refl.
  - destruct (license_turn people target since today_year (load h b) ev)
      as [[kept ev1]|]; simpl in H; [|discriminate].
    match type of H with context [filter_licenses_loop ?h1 rest] =>
      destruct (filter_licenses_loop h1 rest people target since before
                  today_year ev1) as [[h2 out2]|] eqn:E end;
      simpl in H; [|discriminate].
    injection H as _ <-. apply IH in E.
    destruct kept.
    + intros x [->|Hx]; [now left|right; now apply E].
    + intros x Hx. right. now apply E.
Qed.

Lemma filter_licenses_loop_turn people target s before today_year :
  forall coll h ev h' out,
    NoDup coll -> Forall (fun a => (a < List.length h)%nat) coll ->
    filter_licenses_loop h coll people target (Some s) before today_year ev
    = OK (h', out) ->
    forall a, In a out ->
      exists ev1 ev2,
        license_turn people target (Some s) today_year (load h a) ev1
        = OK (Some (load h' a), ev2).
Proof.
  induction coll as [|b rest IH]; simpl; intros h ev h' out D L H a Ha.
  - injection H as _ <-. destruct Ha.
  - inversion D as [|? ? Nb D']; subst. inversion L as [|? ? Lb L']; subst.
    destruct (license_turn people target (Some s) today_year (load h b) ev)
      as [[kept ev1]|] eqn:Et; simpl in H; [|discriminate].
    match type of H with context [filter_licenses_loop ?h1 rest] =>
      remember h1 as h1' eqn:Eh1;
      destruct (filter_licenses_loop h1' rest people target (Some s) before
                  today_year ev1) as [[h2 out2]|] eqn:E end;
      simpl in H; [|discriminate].
    injection H as <- <-.
    assert (L1 : Forall (fun a => (a < List.length h1')%nat) rest).
    { subst h1'. destruct kept; [|exact L'].
      eapply Forall_impl; [|exact L']. intros x Hx. now rewrite length_store_set. }
    assert (Hrest : In a out2 ->
                    exists ev3 ev4,
                      license_turn people target (Some s) today_year (load h a) ev3
                      = OK (Some (load h2 a), ev4)).
    { intros Hin.
      destruct (IH h1' ev1 h2 out2 D' L1 E a Hin) as (ev3 & ev4 & Ht).
      exists ev3, ev4. rewrite <- Ht. f_equal. subst h1'.
      destruct kept; [|reflexivity].
      symmetry. apply load_store_set_other. intros ->.
      apply Nb. now apply (filter_licenses_loop_incl _ _ _ _ _ _ _ _ _ _ E). }
    destruct kept as [i'|]; [|now apply Hrest].
    destruct Ha as [<-|Ha]; [|now apply Hrest].
    exists ev, ev1. rewrite Et.
    rewrite (filter_licenses_loop_frame _ _ _ _ _ _ _ _ _ _ b Nb E). subst h1'.
    rewrite load_store_set_same by exact Lb. reflexivity.
Qed.

(** C8 (as amended): with a [since] date and a collection that lists each
    license once, every license that [filter_licenses] returns carries in
    [total_amount] the sum of the amounts of all the events it had on entry,
    and in [events] those of its events that are after the date. *)
Theorem filter_licenses_total
    (h : store) (patentscoll : list addr) (people : list dict) (target : val)
    (since : Z * Z * Z) (before : option (Z * Z * Z)) (today_year : Z)
    (h' : store) (licenses : list addr) :
  NoDup patentscoll ->
  Forall (fun a => (a < List.length h)%nat) patentscoll ->
  filter_licenses h patentscoll people target (Some since) before today_year
  = OK (h', licenses) ->
  forall a, In a licenses ->
    exists total kept,
      all_events_total (load h a) total /\
      get (load h' a) "total_amount" = Some (VInt total) /\
      events_after (load h a) since = OK kept /\
      get (load h' a) "events" = Some (VList kept).
Proof.
  intros D L H a Ha. unfold filter_licenses in H.
  destruct (filter_licenses_loop_turn people target since before today_year
              patentscoll h None h' licenses D L H a Ha) as (ev1 & ev2 & Ht).
  apply (license_turn_total _ _ _ _ _ _ _ _ Ht).
Qed.

Lemma filter_licenses_total_witness :
  exists h',
    filter_licenses [license_doc] [0%nat] group (VStr "sbillinge")
      (Some (2015, 1, 1)) None 2020 = OK (h', [0%nat]) /\
    exists total kept,
      all_events_total (load [license_doc] 0%nat) total /\
      get (load h' 0%nat) "total_amount" = Some (VInt total) /\
      events_after (load [license_doc] 0%nat) (2015, 1, 1) = OK kept /\
      get (load h' 0%nat) "events" = Some (VList kept).
Proof.
  eexists. split; [reflexivity|].
  eapply (filter_licenses_total [license_doc] [0%nat] group (VStr "sbillinge")
            (2015, 1, 1) None 2020).
  - repeat constructor. intros [].
  - repeat constructor.
  - reflexivity.
  - now left.
Defined.

(** C8, as stated, fails: the total is summed over all the events of the
    license, before the events are restricted to the window.  Here the event
    retained amounts to 50 and the total attached is 150. *)
Lemma filter_licenses_total_over_all_events :
  exists h',
    filter_licenses [license_doc] [0%nat] group (VStr "sbillinge")
      (Some (2015, 1, 1)) None 2020
    = OK (h', [0%nat]) /\
    get (load h' 0%nat) "events" = Some (VList [paid_2019]) /\
    sum_amounts [paid_2019] = OK 50 /\
    get (load h' 0%nat) "total_amount" = Some (VInt 150).
Proof. eexists. repeat split; reflexivity. Qed.

(** Without a [since] date the sum reads the local variable [events] before
    any turn of the loop has assigned it. *)
Example filter_licenses_unbound_events :
  filter_licenses [license_doc] [0%nat] group (VStr "sbillinge") None None 2020
  = Raise UnboundLocalError.
Proof. reflexivity. Qed.

(** ** [begin_end_date] *)

Lemma first_month_day_read m d :
  1 <= m <= 12 -> 1 <= d <= 31 ->
  first_month_day (month_heads (str_of_int m ++ str_of_int d))
  = Some (fst (month_day_read m d), snd (month_day_read m d), "").
Proof.
  intros Hm Hd.
  assert (H : forallb reads_pair (list_prod (Zrange 1 12) (Zrange 1 31)) = true)
    by (vm_compute; reflexivity).
  rewrite forallb_forall in H.
  assert (E : reads_pair (m, d) = true)
    by (apply H, in_prod; apply Zrange_In; lia).
  unfold reads_pair in E.
  destruct (first_month_day _) as [[[m' d'] [|]]|]; try discriminate E.
  destruct (month_day_read m d) as [m2 d2]. simpl.
  apply andb_prop in E as [E1 E2].
  apply Z.eqb_eq in E1, E2. now subst.
Qed.

(** The year, the month and the day written one after the other, as
    [strptime] reads them with [%Y%m%d]. *)
Lemma strptime_ymd_fields y m d :
  1000 <= y <= 9999 -> 1 <= m <= 12 -> 1 <= d <= 31 ->
  strptime_ymd (str_of_int y ++ str_of_int m ++ str_of_int d)
  = if date_ok y (fst (month_day_read m d)) (snd (month_day_read m d))
    then OK (y, fst (month_day_read m d), snd (month_day_read m d))
    else Raise ValueError.
Proof.
  intros Hy Hm Hd. rewrite (str_of_int_year y Hy).
  destruct (digit_char y) as (D0 & V0 & _).
  destruct (digit_char (y / 10)) as (D1 & V1 & _).
  destruct (digit_char (y / 10 / 10)) as (D2 & V2 & _).
  destruct (digit_char (y / 10 / 10 / 10)) as (D3 & V3 & _).
  cbn [append strptime_ymd]. rewrite D0, D1, D2, D3, V0, V1, V2, V3.
  cbn [andb]. rewrite (first_month_day_read m d Hm Hd).
  replace (1000 * ((y / 10 / 10 / 10) mod 10) + 100 * ((y / 10 / 10) mod 10)
           + 10 * ((y / 10) mod 10) + y mod 10) with y
    by (Z.div_mod_to_equations; lia).
  reflexivity.
Qed.

Lemma month_day_read_written m d :
  read_as_written m d -> month_day_read m d = (m, d).
Proof.
  unfold read_as_written, month_day_read. intros H.
  destruct (m =? 1) eqn:E1; [apply Z.eqb_eq in E1|reflexivity].
  destruct ((11 <=? d) && (d <=? 19)) eqn:E2; simpl.
  - apply andb_prop in E2 as [A B]. apply Z.leb_le in A, B. lia.
  - rewrite E2. simpl.
    destruct ((21 <=? d) && (d <=? 29)) eqn:E3; [|reflexivity].
    apply andb_prop in E3 as [A B]. apply Z.leb_le in A, B. lia.
Qed.

Lemma date_ok_day y m d : date_ok y m d = true -> 1 <= m <= 12 /\ 1 <= d <= 31.
Proof.
  intros H. destruct (date_ok_bounds _ _ _ H) as (_ & Hm & Hd).
  pose proof (days_in_month_bounds y m Hm). lia.
Qed.

Lemma strptime_ymd_written y m d :
  1000 <= y -> date_ok y m d = true -> read_as_written m d ->
  strptime_ymd (str_of_int y ++ str_of_int m ++ str_of_int d) = OK (y, m, d).
Proof.
  intros Hy Hok Hw. destruct (date_ok_day _ _ _ Hok) as [Hm Hd].
  destruct (date_ok_bounds _ _ _ Hok) as (Hy' & _ & _).
  rewrite strptime_ymd_fields by lia.
  rewrite (month_day_read_written m d Hw). simpl. now rewrite Hok.
Qed.

(** X1: for a document whose years are integers of four digits and whose
    months and days are read back as written (any month but January, or a
    day up to 10, the 20th, the 30th or the 31st), [begin_end_date] returns
    the begin date and the end date of the document; a missing [begin_day] is
    the first and a missing [end_day] the last day of the month. *)
Theorem begin_end_date_dates (doc : dict) (by_ bm bd ey em ed : Z) :
  get doc "begin_year" = Some (VInt by_) ->
  month_to_int (get_default doc "begin_month" VNone) = OK bm ->
  get_default doc "begin_day" (VInt 1) = VInt bd ->
  get doc "end_year" = Some (VInt ey) ->
  month_to_int (get_default doc "end_month" VNone) = OK em ->
  get_default doc "end_day" (VInt (days_in_month ey em)) = VInt ed ->
  1000 <= by_ -> date_ok by_ bm bd = true -> read_as_written bm bd ->
  1000 <= ey -> date_ok ey em ed = true -> read_as_written em ed ->
  begin_end_date doc = OK (VDate by_ bm bd, VDate ey em ed).
Proof.
  intros Gby Gbm Gbd Gey Gem Ged Hby Hb Wb Hey He We.
  destruct (date_ok_bounds _ _ _ He) as (_ & Hem & _).
  unfold begin_end_date, get_default. rewrite Gby, Gey.
  unfold get_default in Gbm, Gem, Gbd, Ged.
  rewrite Gbm, Gem. cbn [bind]. unfold monthrange.
  replace ((1 <=? em) && (em <=? 12)) with true
    by (symmetry; apply andb_true_intro; split; apply Z.leb_le; lia).
  cbn [as_int bind]. rewrite Gbd, Ged.
  change (py_format (VInt by_)) with (str_of_int by_).
  change (py_format (VInt bd)) with (str_of_int bd).
  change (py_format (VInt ey)) with (str_of_int ey).
  change (py_format (VInt ed)) with (str_of_int ed).
  rewrite (strptime_ymd_written by_ bm bd Hby Hb Wb). cbn [bind].
  rewrite (strptime_ymd_written ey em ed Hey He We). reflexivity.
Qed.

Lemma begin_end_date_dates_witness :
  begin_end_date appointment = OK (VDate 2019 10 1, VDate 2025 11 30).
Proof.
  apply (begin_end_date_dates appointment 2019 10 1 2025 11 30);
    try reflexivity; try lia; left; discriminate.
Defined.

(** X2: a begin day from the 11th to the 19th of January is returned as the
    day of November with the same last digit, and one from the 21st to the
    29th as that day of December: the year, the month and the day are
    written one after the other before they are parsed. *)
Theorem begin_end_date_january (doc : dict) (by_ bd ey em ed m' k : Z) :
  get doc "begin_year" = Some (VInt by_) ->
  month_to_int (get_default doc "begin_month" VNone) = OK 1 ->
  get_default doc "begin_day" (VInt 1) = VInt bd ->
  get doc "end_year" = Some (VInt ey) ->
  month_to_int (get_default doc "end_month" VNone) = OK em ->
  get_default doc "end_day" (VInt (days_in_month ey em)) = VInt ed ->
  1000 <= by_ <= 9999 -> 1 <= k <= 9 ->
  (bd = 10 + k /\ m' = 11) \/ (bd = 20 + k /\ m' = 12) ->
  1000 <= ey -> date_ok ey em ed = true -> read_as_written em ed ->
  begin_end_date doc = OK (VDate by_ m' k, VDate ey em ed).
Proof.
  intros Gby Gbm Gbd Gey Gem Ged Hby Hk Hbd Hey He We.
  destruct (date_ok_bounds _ _ _ He) as (_ & Hem & _).
  assert (E : month_day_read 1 bd = (m', k)).
  { unfold month_day_read. destruct Hbd as [[-> ->]|[-> ->]].
    - replace ((1 =? 1) && (11 <=? 10 + k) && (10 + k <=? 19)) with true
        by (symmetry; repeat (apply andb_true_intro; split);
            try reflexivity; apply Z.leb_le; lia).
      f_equal. lia.
    - replace ((1 =? 1) && (11 <=? 20 + k) && (20 + k <=? 19)) with false
        by (symmetry; apply andb_false_intro2; apply Z.leb_gt; lia).
      replace ((1 =? 1) && (21 <=? 20 + k) && (20 + k <=? 29)) with true
        by (symmetry; repeat (apply andb_true_intro; split);
            try reflexivity; apply Z.leb_le; lia).
      f_equal. lia. }
  unfold begin_end_date, get_default. rewrite Gby, Gey.
  unfold get_default in Gbm, Gem, Gbd, Ged.
  rewrite Gbm, Gem. cbn [bind]. unfold monthrange.
  replace ((1 <=? em) && (em <=? 12)) with true
    by (symmetry; apply andb_true_intro; split; apply Z.leb_le; lia).
  cbn [as_int bind]. rewrite Gbd, Ged.
  change (py_format (VInt by_)) with (str_of_int by_).
  change (py_format (VInt bd)) with (str_of_int bd).
  change (py_format (VInt ey)) with (str_of_int ey).
  change (py_format (VInt ed)) with (str_of_int ed).
  rewrite (strptime_ymd_fields by_ 1 bd Hby ltac:(lia) ltac:(lia)), E.
  cbn [fst snd].
  replace (date_ok by_ m' k) with true.
  2:{ symmetry. unfold date_ok, days_in_month.
      destruct Hbd as [[_ ->]|[_ ->]]; simpl;
        repeat (apply andb_true_intro; split); apply Z.leb_le; lia. }
  cbn [bind].
  rewrite (strptime_ymd_written ey em ed Hey He We). reflexivity.
Qed.

Lemma begin_end_date_january_witness :
  begin_end_date january_stay = OK (VDate 2019 11 2, VDate 2019 1 31).
Proof.
  apply (begin_end_date_january january_stay 2019 12 2019 1 31 11 2);
    try reflexivity; try lia. right. right. right. lia.
Defined.

(** X3: a document without [end_year] makes [begin_end_date] raise
    [TypeError] (the year is passed as it is to [calendar.monthrange]), and
    one without [begin_year] makes it raise [ValueError] (the string [None]
    is parsed as a year). *)
Theorem begin_end_date_missing_year (doc : dict) (bm em : Z) :
  month_to_int (get_default doc "begin_month" VNone) = OK bm ->
  month_to_int (get_default doc "end_month" VNone) = OK em ->
  1 <= em <= 12 ->
  (get doc "end_year" = None -> begin_end_date doc = Raise TypeError) /\
  (get doc "begin_year" = None ->
   (exists ey, get doc "end_year" = Some (VInt ey)) ->
   begin_end_date doc = Raise ValueError).
Proof.
  intros Gbm Gem Hem. unfold begin_end_date, get_default.
  unfold get_default in Gbm, Gem. rewrite Gbm, Gem. cbn [bind].
  unfold monthrange.
  replace ((1 <=? em) && (em <=? 12)) with true
    by (symmetry; apply andb_true_intro; split; apply Z.leb_le; lia).
  split.
  - intros ->. reflexivity.
  - intros -> (ey & ->). reflexivity.
Qed.

Lemma begin_end_date_missing_year_witness :
  (get [("begin_month", VInt 5); ("end_month", VInt 6)] "end_year" = None ->
   begin_end_date [("begin_month", VInt 5); ("end_month", VInt 6)]
   = Raise TypeError) /\
  (get [("begin_month", VInt 5); ("end_month", VInt 6)] "begin_year" = None ->
   (exists ey, get [("begin_month", VInt 5); ("end_month", VInt 6)] "end_year"
               = Some (VInt ey)) ->
   begin_end_date [("begin_month", VInt 5); ("end_month", VInt 6)]
   = Raise ValueError).
Proof.
  apply (begin_end_date_missing_year
           [("begin_month", VInt 5); ("end_month", VInt 6)] 5 6);
    try reflexivity. lia.
Defined.

(** ** [document_by_value] *)

Lemma document_by_value_differs pre address value rest :
  Forall (differs_at address value) pre ->
  document_by_value (pre ++ rest) address value
  = document_by_value rest address value.
Proof.
  induction 1 as [|d pre (w & Ew & Nw) _ IH]; simpl; [reflexivity|].
  rewrite Ew. cbn [bind]. now rewrite Nw.
Qed.

(** X4: when [document_by_value] returns, the result is the first
    document, in iteration order, whose value at the address equals the
    target, every document before it having at the address a value that
    differs; it is [None] when every document has a value that differs. *)
Theorem document_by_value_first (documents : list dict) (address value r : val) :
  document_by_value documents address value = OK r ->
  (exists pre doc post v,
      documents = (pre ++ doc :: post)%list /\ r = VDict doc /\
      addressed address doc = OK v /\ py_eq v value = true /\
      Forall (differs_at address value) pre) \/
  (r = VNone /\ Forall (differs_at address value) documents).
Proof.
  revert r. induction documents as [|d rest IH]; simpl; intros r H.
  - injection H as <-. right. split; [reflexivity|constructor].
  - destruct (addressed address d) as [w|] eqn:Ew; cbn [bind] in H; [|discriminate].
    destruct (py_eq w value) eqn:Ev.
    + injection H as <-. left. exists [], d, rest, w.
      repeat split; [exact Ew|exact Ev|constructor].
    + assert (Hd : differs_at address value d) by (exists w; now split).
      destruct (IH r H) as [(pre & doc & post & v & E & Er & Ea & Ep & F)|[Er F]].
      * left. exists (d :: pre), doc, post, v. subst rest.
        repeat split; [exact Er|exact Ea|exact Ep|now constructor].
      * right. split; [exact Er|now constructor].
Qed.

Lemma document_by_value_first_witness :
  (exists pre doc post v,
      proposals = (pre ++ doc :: post)%list /\ VDict (nth 1 proposals []) = VDict doc /\
      addressed (VStr "title") doc = OK v /\ py_eq v (VStr "Declined") = true /\
      Forall (differs_at (VStr "title") (VStr "Declined")) pre) \/
  (VDict (nth 1 proposals []) = VNone /\
   Forall (differs_at (VStr "title") (VStr "Declined")) proposals).
Proof.
  apply (document_by_value_first proposals (VStr "title") (VStr "Declined")).
  reflexivity.
Defined.

(** X5: a document that lacks the field of the address makes
    [document_by_value] raise [KeyError] when no document before it holds the
    target, whatever the documents after it hold. *)
Theorem document_by_value_missing_field
    (pre post : list dict) (doc : dict) (k : string) (value : val) :
  Forall (differs_at (VStr k) value) pre ->
  get doc k = None ->
  document_by_value (pre ++ doc :: post) (VStr k) value = Raise KeyError.
Proof.
  intros F G. rewrite (document_by_value_differs pre _ _ _ F). simpl.
  unfold addressed. cbn [address_path bind walk py_getitem]. unfold item.
  rewrite G. reflexivity.
Qed.

Lemma document_by_value_missing_field_witness :
  document_by_value ([nth 0 proposals []] ++ nth 0 grants [] :: [nth 1 proposals []])
    (VStr "title") (VStr "Declined")
  = Raise KeyError.
Proof.
  apply (document_by_value_missing_field [nth 0 proposals []] [nth 1 proposals []]
           (nth 0 grants []) "title" (VStr "Declined")).
  - constructor; [|constructor]. eexists. split; reflexivity.
  - reflexivity.
Defined.

(** X6: on documents that all hold a hashable value that is not a list
    under the field [k], looking a hashable target up with
    [document_by_value] at the address [k] and with a case-sensitive
    [fuzzy_retrieval] over the single source [k] give the same result. *)
Theorem document_by_value_fuzzy_retrieval
    (documents : list dict) (k : string) (value : val) :
  hashable value = true ->
  Forall (fun d => exists v, get d k = Some v /\ hashable v = true) documents ->
  document_by_value documents (VStr k) value
  = fuzzy_retrieval documents [k] value true.
Proof.
  intros Hv. induction 1 as [|d rest (v & G & Hh) _ IH]; simpl; [reflexivity|].
  unfold addressed. cbn [address_path bind walk py_getitem]. unfold item.
  rewrite G. cbn [bind].
  unfold doc_matches, gather. cbn [flat_map]. unfold get_default. rewrite G.
  destruct v; try discriminate Hh;
    cbn [app forallb hashable andb]; rewrite Hv; cbn [bind];
    unfold in_list; cbn [existsb]; rewrite orb_false_r;
    (match goal with |- context [py_eq ?a value] => destruct (py_eq a value) end;
     [reflexivity|exact IH]).
Qed.

Lemma document_by_value_fuzzy_retrieval_witness :
  document_by_value group (VStr "name") (VStr "Jane Doe")
  = fuzzy_retrieval group ["name"] (VStr "Jane Doe") true.
Proof.
  apply (document_by_value_fuzzy_retrieval group "name" (VStr "Jane Doe")).
  - reflexivity.
  - repeat constructor; eexists; split; reflexivity.
Defined.

(** ** [get_dates] *)

Lemma set_fresh d k v : get d k = None -> set d k v = (d ++ [(k, v)])%list.
Proof.
  induction d as [|[k' v'] d IH]; simpl; [reflexivity|].
  destruct (String.eqb k k'); [discriminate|]. intros G. now rewrite IH.
Qed.

Lemma get_app d1 d2 k :
  get (d1 ++ d2)%list k = match get d1 k with Some v => Some v | None => get d2 k end.
Proof.
  induction d1 as [|[k' v'] d1 IH]; simpl; [reflexivity|].
  destruct (String.eqb k k'); [reflexivity|exact IH].
Qed.

Lemma get_picked keys thing k :
  get (picked keys thing) k
  = if existsb (String.eqb k) keys
    then (if truthy (get_default thing k VNone)
          then Some (get_default thing k VNone) else None)
    else None.
Proof.
  induction keys as [|k0 keys IH]; [reflexivity|].
  unfold picked in *. cbn [flat_map existsb]. rewrite get_app, IH. clear IH.
  destruct (String.eqb k k0) eqn:E.
  - apply String.eqb_eq in E. subst k0.
    destruct (truthy (get_default thing k VNone)) eqn:T; simpl.
    + now rewrite String.eqb_refl.
    + destruct (existsb (String.eqb k) keys); reflexivity.
  - destruct (truthy (get_default thing k0 VNone)); simpl; [now rewrite E|reflexivity].
Qed.

Lemma existsb_eqb_In k keys : existsb (String.eqb k) keys = true <-> In k keys.
Proof.
  rewrite existsb_exists. split.
  - intros (x & Hx & E). apply String.eqb_eq in E. now subst.
  - intros H. exists k. split; [exact H|apply String.eqb_refl].
Qed.

Lemma fold_picked thing keys acc :
  NoDup keys -> (forall k, In k keys -> get acc k = None) ->
  fold_left (fun out '(item, date) =>
               if truthy date then set out item date else out)
            (combine keys (map (fun item => get_default thing item VNone) keys)) acc
  = (acc ++ picked keys thing)%list.
Proof.
  revert acc. induction keys as [|k keys IH]; simpl; intros acc D F.
  - now rewrite app_nil_r.
  - inversion D as [|? ? Nk D']; subst.
    unfold picked. simpl. fold (picked keys thing).
    destruct (truthy (get_default thing k VNone)) eqn:T.
    + rewrite IH; [|exact D'|].
      * rewrite set_fresh by (apply F; now left). now rewrite <- app_assoc.
      * intros k' Hk'. rewrite set_fresh by (apply F; now left).
        rewrite get_app, (F k') by now right. simpl.
        destruct (String.eqb k' k) eqn:E; [|reflexivity].
        apply String.eqb_eq in E. congruence.
    + simpl. apply IH; [exact D'|]. intros k' Hk'. apply F. now right.
Qed.

Lemma flat_map_agree {A B} (f g : A -> list B) l :
  (forall x, In x l -> f x = g x) -> flat_map f l = flat_map g l.
Proof.
  induction l as [|x l IH]; simpl; intros H; [reflexivity|].
  rewrite (H x) by now left. f_equal. apply IH. intros y Hy. apply H. now right.
Qed.

Lemma dateitems_NoDup : NoDup dateitems.
Proof.
  unfold dateitems.
  repeat (constructor; [simpl; intros H;
                        repeat (destruct H as [H|H]; [discriminate H|]); exact H|]).
  constructor.
Qed.

Lemma get_dates_picked thing : fst (get_dates thing) = picked dateitems thing.
Proof.
  unfold get_dates. cbn [fst].
  apply (fold_picked thing dateitems [] dateitems_NoDup). reflexivity.
Qed.

(** X7: the dict returned by [get_dates] holds, under a key, the value
    that the argument holds under it when the key is one of the nine date
    items and the value is true; it holds nothing else: a zero, an empty
    string or [None] is left out. *)
Theorem get_dates_lookup (thing : dict) (k : string) (v : val) :
  get (fst (get_dates thing)) k = Some v <->
  In k dateitems /\ get thing k = Some v /\ truthy v = true.
Proof.
  rewrite get_dates_picked, get_picked, <- existsb_eqb_In. unfold get_default.
  destruct (existsb (String.eqb k) dateitems).
  - destruct (get thing k) as [w|] eqn:G.
    + destruct (truthy w) eqn:T.
      * split; [intros E; injection E as <-; auto|].
        intros (_ & E & _). exact E.
      * split; [discriminate|]. intros (_ & E & T'). injection E as <-. congruence.
    + simpl. split; [discriminate|]. intros (_ & E & _). discriminate E.
  - split; [discriminate|]. intros (I & _). discriminate I.
Qed.

(** X8: [get_dates] leaves the dict that it returns as it is: applied to
    its own result it returns the same dict. *)
Theorem get_dates_idempotent (thing : dict) :
  fst (get_dates (fst (get_dates thing))) = fst (get_dates thing).
Proof.
  rewrite !get_dates_picked. unfold picked at 1 3.
  apply flat_map_agree. intros k Hk.
  unfold get_default at 1 2. rewrite get_picked.
  apply existsb_eqb_In in Hk. rewrite Hk.
  destruct (truthy (get_default thing k VNone)) eqn:T.
  - now rewrite T.
  - reflexivity.
Qed.
(** ** [filter_projects] *)

Lemma set_of_gets seq key default vs :
  set_of (gets seq key default) = OK vs ->
  Forall2 (fun x v => val_get x key default = OK v) seq vs.
Proof.
  revert vs. induction seq as [|x seq IH]; simpl; intros vs H.
  - injection H as <-. constructor.
  - destruct (val_get x key default) as [v|] eqn:E; cbn [bind] in H; [|discriminate].
    destruct (hashable v); [|discriminate].
    destruct (set_of (gets seq key default)) as [ws|]; cbn [bind] in H; [|discriminate].
    injection H as <-. constructor; [exact E|now apply IH].
Qed.

Lemma keep_some_In {A} (l : list (option A)) x :
  In x (keep_some l) <-> In (Some x) l.
Proof.
  induction l as [|[y|] l IH]; simpl.
  - tauto.
  - rewrite IH. split; intros [H|H]; auto; left; congruence.
  - rewrite IH. split; [auto|]. intros [H|H]; [discriminate|exact H].
Qed.

Lemma mapM_In {A B} (f : A -> result B) l r y :
  mapM f l = OK r -> In y r -> exists x, In x l /\ f x = OK y.
Proof.
  intros H. apply mapM_Forall2 in H.
  induction H as [|x y' l r Hx _ IH]; simpl; [intros []|].
  intros [<-|Hy].
  - exists x. auto.
  - destruct (IH Hy) as (x' & Hx' & E). exists x'. auto.
Qed.

Lemma on_team_named authors x :
  on_team authors x = OK true <-> named_in authors x.
Proof.
  unfold on_team, named_in. split.
  - intros H.
    destruct x as [| | | | | |d]; try (cbn in H; discriminate H).
    cbn [py_getitem] in H. unfold item in H.
    destruct (get d "name") as [n|] eqn:G; cbn [bind] in H; [|discriminate].
    destruct (hashable n); [|discriminate].
    destruct n as [| | |s| | |]; try discriminate H.
    injection H as H. exists d, s. repeat split; [exact G|].
    apply existsb_exists in H as (t & Ht & E).
    apply String.eqb_eq in E. now subst.
  - intros (d & s & -> & G & Hs). cbn [py_getitem]. unfold item. rewrite G.
    cbn [bind hashable str_in]. f_equal.
    apply existsb_exists. exists s. split; [exact Hs|apply String.eqb_refl].
Qed.

(** A comprehension whose condition does not raise is a [filter]. *)
Lemma filterM_filter {A} (f : A -> result bool) (g : A -> bool) l r :
  filterM f l = OK r -> (forall x b, f x = OK b -> b = g x) -> r = filter g l.
Proof.
  intros H Hg. revert r H. induction l as [|x l IH]; simpl; intros r H.
  - now injection H as <-.
  - destruct (f x) as [b|] eqn:E; cbn [bind] in H; [|discriminate].
    destruct (filterM f l) as [ys|]; cbn [bind] in H; [|discriminate].
    injection H as <-. rewrite <- (Hg x b E), (IH ys eq_refl). reflexivity.
Qed.

Lemma on_team_bears_name authors x b :
  on_team authors x = OK b -> b = bears_name authors x.
Proof.
  unfold on_team, bears_name. intros H.
  destruct x as [| | | | | |d]; try (cbn in H; discriminate H).
  cbn [py_getitem] in H. unfold item in H.
  destruct (get d "name") as [n|]; cbn [bind] in H; [|discriminate].
  destruct n; cbn [hashable str_in] in H; try discriminate H;
    now injection H as <-.
Qed.

Lemma bears_name_named authors x :
  bears_name authors x = true <-> named_in authors x.
Proof.
  unfold bears_name, named_in. split.
  - destruct x as [| | | | | |d]; try discriminate.
    destruct (get d "name") as [[| | |s| | |]|] eqn:G; try discriminate.
    intros H. apply existsb_exists in H as (t & Ht & E).
    apply String.eqb_eq in E. subst t. now exists d, s.
  - intros (d & s & -> & -> & Hs).
    apply existsb_exists. exists s. split; [exact Hs|apply String.eqb_refl].
Qed.

Lemma project_turn_team authors proj p :
  project_turn authors proj = OK (Some p) ->
  exists team members mine,
    get proj "team" = Some team /\ py_iter team = OK members /\
    p = set proj "team" (VList mine) /\
    mine = filter (bears_name authors) members /\ mine <> [] /\
    forall x, In x mine <-> In x members /\ named_in authors x.
Proof.
  unfold project_turn, item. intros H.
  destruct (get proj "team") as [team|] eqn:G; cbn [bind] in H; [|discriminate].
  destruct (py_iter team) as [members|] eqn:Ei; cbn [bind] in H; [|discriminate].
  destruct (set_of (gets members "name" VNone)) as [names|] eqn:En;
    cbn [bind] in H; [|discriminate].
  destruct (existsb (str_in authors) names) eqn:Ex; [|discriminate].
  destruct (filterM (on_team authors) members) as [mine|] eqn:Em;
    cbn [bind] in H; [|discriminate].
  injection H as <-.
  assert (Hin : forall x, In x mine <-> In x members /\ named_in authors x).
  { intros x. rewrite (filterM_In _ _ _ Em x). now rewrite on_team_named. }
  exists team, members, mine.
  split; [reflexivity|]. split; [exact Ei|]. split; [reflexivity|].
  split; [exact (filterM_filter _ _ _ _ Em (on_team_bears_name authors))|].
  split; [|exact Hin].
  apply existsb_exists in Ex as (n & Hn & Es).
  apply set_of_gets in En.
  assert (exists x, In x members /\ val_get x "name" VNone = OK n) as (x & Hx & Ev).
  { clear -En Hn. induction En as [|x v l vs Hx _ IH]; [destruct Hn|].
    destruct Hn as [<-|Hn].
    - exists x. split; [now left|exact Hx].
    - destruct (IH Hn) as (x' & Hx' & E). exists x'. split; [now right|exact E]. }
  intros ->. apply (Hin x). split; [exact Hx|].
  destruct n as [| | |s| | |]; try discriminate Es.
  destruct x as [| | | | | |d]; try discriminate Ev.
  injection Ev as Ev. unfold get_default in Ev.
  destruct (get d "name") as [w|] eqn:Gn; [|discriminate]. subst w.
  exists d, s. repeat split; [exact Gn|].
  cbn [str_in] in Es. apply existsb_exists in Es as (t & Ht & E).
  apply String.eqb_eq in E. now subst.
Qed.

(** X9: every project that [filter_projects] returns is a project of the
    input whose team has been replaced by the list of its members who bear a
    name of the author set, in the order and with the repetitions they have
    in the team ([mine] is the team filtered); this list is never empty. *)
Theorem filter_projects_team {K : Type} (key_lt : K -> K -> bool)
    (id_key : dict -> result K) (projects : list dict) (authors : list string)
    (reverse : bool) (projs : list dict) :
  filter_projects key_lt id_key projects authors reverse = OK projs ->
  forall p, In p projs ->
    exists proj team members mine,
      In proj projects /\ get proj "team" = Some team /\
      py_iter team = OK members /\
      p = set proj "team" (VList mine) /\
      mine = filter (bears_name authors) members /\ mine <> [] /\
      forall x, In x mine <-> In x members /\ named_in authors x.
Proof.
  unfold filter_projects. intros H p Hp.
  destruct (mapM (project_turn authors) projects) as [turns|] eqn:Et;
    cbn [bind] in H; [|discriminate].
  apply py_sorted_perm in H. apply (Permutation_in _ H) in Hp.
  apply keep_some_In in Hp.
  destruct (mapM_In _ _ _ _ Et Hp) as (proj & Hproj & E).
  destruct (project_turn_team authors proj p E) as (team & members & mine & R).
  exists proj, team, members, mine. split; [exact Hproj|exact R].
Qed.

Lemma filter_projects_team_witness :
  exists proj team members mine,
    In proj [project_pdf] /\ get proj "team" = Some team /\
    py_iter team = OK members /\
    set project_pdf "team"
      (VList [VDict [("name", VStr "A. Author"); ("position", VStr "PI")]])
    = set proj "team" (VList mine) /\
    mine = filter (bears_name ["A. Author"]) members /\ mine <> [] /\
    forall x, In x mine <-> In x members /\ named_in ["A. Author"] x.
Proof.
  apply (filter_projects_team String.ltb id_string [project_pdf] ["A. Author"] false
           [set project_pdf "team"
              (VList [VDict [("name", VStr "A. Author"); ("position", VStr "PI")]])]).
  - reflexivity.
  - now left.
Defined.

(** ** [month_and_year] *)

Lemma py_getitem_short_month i :
  py_getitem SHORT_MONTH_NAMES (VInt i)
  = if (-13 <=? i) && (i <=? 12)
    then OK (nth (Z.to_nat (i mod 13)) [VNone; VStr "Jan"; VStr "Feb"; VStr "Mar";
               VStr "Apr"; VStr "May"; VStr "Jun"; VStr "Jul"; VStr "Aug";
               VStr "Sept"; VStr "Oct"; VStr "Nov"; VStr "Dec"] VNone)
    else Raise IndexError.
Proof.
  destruct ((-13 <=? i) && (i <=? 12)) eqn:R.
  - apply andb_prop in R as [A B]. apply Z.leb_le in A, B.
    assert (Hc : i = -13 \/ i = -12 \/ i = -11 \/ i = -10 \/ i = -9 \/ i = -8 \/
                 i = -7 \/ i = -6 \/ i = -5 \/ i = -4 \/ i = -3 \/ i = -2 \/
                 i = -1 \/ i = 0 \/ i = 1 \/ i = 2 \/ i = 3 \/ i = 4 \/ i = 5 \/
                 i = 6 \/ i = 7 \/ i = 8 \/ i = 9 \/ i = 10 \/ i = 11 \/ i = 12)
      by lia.
    repeat (destruct Hc as [Hc|Hc]; [subst i; reflexivity|]).
    subst i. reflexivity.
  - unfold py_getitem, SHORT_MONTH_NAMES.
    change (Z.of_nat (Datatypes.length _)) with 13.
    destruct (i <? 0) eqn:N.
    + apply Z.ltb_lt in N.
      replace ((0 <=? i + 13) && (i + 13 <? 13)) with false; [reflexivity|].
      symmetry. apply andb_false_iff. left. apply Z.leb_gt.
      apply andb_false_iff in R as [R|R];
        [apply Z.leb_gt in R|apply Z.leb_gt in R]; lia.
    + apply Z.ltb_ge in N.
      replace ((0 <=? i) && (i <? 13)) with false; [reflexivity|].
      symmetry. apply andb_false_iff. right. apply Z.ltb_ge.
      apply andb_false_iff in R as [R|R];
        [apply Z.leb_gt in R|apply Z.leb_gt in R]; lia.
Qed.

(** X10: with a month and a year, [month_and_year] renders the entry of
    [SHORT_MONTH_NAMES] at the month number and the year.  The month number
    is used as an index as it is: 0 gives the entry [None], a number from
    -13 to -1 counts from the end (-1 is December), and a number beyond 12 or
    below -13 raises [IndexError]. *)
Theorem month_and_year_index (m y : val) (n : Z) :
  y <> VNone -> m <> VNone -> month_to_int m = OK n ->
  month_and_year m y
  = if (-13 <=? n) && (n <=? 12)
    then OK (short_month_name (n mod 13) ++ " " ++ py_format y)
    else Raise IndexError.
Proof.
  intros Hy Hm E.
  assert (M : month_and_year m y
              = (name <- py_getitem SHORT_MONTH_NAMES (VInt n) ;;
                 OK (py_format name ++ " " ++ py_format y))).
  { unfold month_and_year. rewrite E.
    destruct y; try reflexivity; try contradiction;
      destruct m; try reflexivity; contradiction. }
  rewrite M, py_getitem_short_month.
  destruct ((-13 <=? n) && (n <=? 12)) eqn:R; [|reflexivity].
  apply andb_prop in R as [A B]. apply Z.leb_le in A, B.
  cbn [bind]. do 2 f_equal.
  assert (Hc : n mod 13 = 0 \/ n mod 13 = 1 \/ n mod 13 = 2 \/ n mod 13 = 3 \/
               n mod 13 = 4 \/ n mod 13 = 5 \/ n mod 13 = 6 \/ n mod 13 = 7 \/
               n mod 13 = 8 \/ n mod 13 = 9 \/ n mod 13 = 10 \/ n mod 13 = 11 \/
               n mod 13 = 12)
    by (pose proof (Z.mod_pos_bound n 13 ltac:(lia)); lia).
  repeat (destruct Hc as [Hc|Hc]; [rewrite Hc; reflexivity|]).
  rewrite Hc. reflexivity.
Qed.

Lemma month_and_year_index_witness :
  month_and_year (VStr "september") (VInt 2019)
  = if (-13 <=? 9) && (9 <=? 12)
    then OK (short_month_name (9 mod 13) ++ " " ++ py_format (VInt 2019))
    else Raise IndexError.
Proof.
  apply (month_and_year_index (VStr "september") (VInt 2019) 9);
    [discriminate|discriminate|reflexivity].
Defined.

(** ** [dereference_institution] *)

(** X11: when the record names an institution that is found, and has a
    department, the call writes the name of the institution under
    [institution] and [organization] and a location, and looks the department
    up in the mapping of departments as if the mapping were one document: with
    departments filed under their ids (a mapping without the keys [name] and
    [aka]) nothing is found, and the department of the record becomes
    [None]. *)
Theorem dereference_institution_department
    (record : dict) (institutions : list dict) (db ds : dict)
    (name city department : val) :
  fuzzy_retrieval institutions ["name"; "_id"; "aka"]
    (if truthy (get_default record "institution" VNone)
     then get_default record "institution" VNone
     else get_default record "organization" VNone) true = OK (VDict db) ->
  get db "name" = Some name -> get db "city" = Some city ->
  get record "department" = Some department -> hashable department = true ->
  get db "departments" = Some (VDict ds) ->
  get ds "name" = None -> get ds "aka" = None ->
  exists r location,
    dereference_institution record institutions = OK r /\
    get r "institution" = Some name /\ get r "organization" = Some name /\
    get r "location" = Some (VStr location) /\
    get r "department" = Some VNone.
Proof.
  intros F Gn Gc Gd Hd Gds N1 N2. unfold dereference_institution.
  cbv zeta. rewrite F. cbn [bind].
  assert (T : truthy (VDict db) = true)
    by (destruct db; [discriminate Gn|reflexivity]).
  rewrite T. cbn [py_getitem val_get]. unfold item. rewrite Gn, Gc, Gds.
  cbn [bind].
  set (sc := if py_eq (get_default db "country" VNone) (VStr "USA")
             then OK (get_default db "state" VNone)
             else OK (get_default db "country" VNone)).
  assert (exists v, sc = OK v) as (v & ->)
    by (unfold sc; destruct (py_eq _ _); eexists; reflexivity).
  cbn [bind]. unfold has_key.
  rewrite !get_set_other by discriminate. rewrite Gd. cbn [bind].
  cbn [fuzzy_retrieval]. unfold doc_matches, gather, get_default.
  cbn [flat_map]. rewrite N1, N2. cbn [app forallb]. rewrite Hd. cbn [bind in_list existsb].
  eexists _, _. split; [reflexivity|].
  repeat split.
  - rewrite !get_set_other by discriminate. apply get_set_same.
  - rewrite !get_set_other by discriminate. apply get_set_same.
  - rewrite get_set_other by discriminate. apply get_set_same.
  - apply get_set_same.
Qed.

Lemma dereference_institution_department_witness :
  exists r location,
    dereference_institution appointment_record [columbia] = OK r /\
    get r "institution" = Some (VStr "Columbia University") /\
    get r "organization" = Some (VStr "Columbia University") /\
    get r "location" = Some (VStr location) /\
    get r "department" = Some VNone.
Proof.
  apply (dereference_institution_department appointment_record [columbia] columbia
           [("apam", VDict [("name", VStr "Applied Physics")])]
           (VStr "Columbia University") (VStr "New York") (VStr "apam"));
    reflexivity.
Defined.
(** ** Sorting lists of any elements *)

Section SortingAny.

Context {K A : Type} (key_lt : K -> K -> bool) (sort_key : A -> result K).
Hypothesis key_lt_asym : forall a b, key_lt a b = true -> key_lt b a = false.
Hypothesis key_le_trans :
  forall a b c, key_lt b a = false -> key_lt c b = false -> key_lt c a = false.

Lemma insert_any_perm (x : K * A) l :
  Permutation (insert_sorted key_lt x l) (x :: l).
Proof.
  induction l as [|y r IH]; simpl; [reflexivity|].
  destruct (key_lt (fst y) (fst x)); [|reflexivity].
  rewrite IH. apply perm_swap.
Qed.

Lemma sort_any_perm (l : list (K * A)) : Permutation (stable_sort key_lt l) l.
Proof.
  induction l as [|x r IH]; simpl; [reflexivity|].
  rewrite insert_any_perm. now constructor.
Qed.

Lemma insert_any_sorted (x : K * A) l :
  StronglySorted (key_le key_lt) l ->
  StronglySorted (key_le key_lt) (insert_sorted key_lt x l).
Proof.
  induction 1 as [|y r Hr IH Hy]; simpl.
  - constructor; constructor.
  - destruct (key_lt (fst y) (fst x)) eqn:E.
    + constructor; [exact IH|].
      eapply Permutation_Forall; [symmetry; apply insert_any_perm|].
      constructor; [|exact Hy]. unfold key_le. now apply key_lt_asym.
    + constructor; [now constructor|].
      constructor; [exact E|].
      eapply Forall_impl; [|exact Hy].
      intros z Hz. unfold key_le in *. now apply (key_le_trans _ (fst y)).
Qed.

Lemma sort_any_sorted (l : list (K * A)) :
  StronglySorted (key_le key_lt) (stable_sort key_lt l).
Proof.
  induction l as [|x r IH]; simpl; [constructor|].
  now apply insert_any_sorted.
Qed.

Lemma decorate_any l keyed :
  decorate sort_key l = OK keyed ->
  map snd keyed = l /\ Forall (fun kd => sort_key (snd kd) = OK (fst kd)) keyed.
Proof.
  unfold decorate. intros H. apply mapM_Forall2 in H.
  induction H as [|d kd l keyed Hd _ [IH1 IH2]]; simpl; [split; constructor|].
  destruct (sort_key d) as [k|] eqn:E; cbn [bind] in Hd; [|discriminate].
  injection Hd as <-. simpl. split; [now rewrite IH1|now constructor].
Qed.

Lemma sorted_any_keys keyed :
  Forall (fun kd => sort_key (snd kd) = OK (fst kd)) keyed ->
  StronglySorted (key_le key_lt) keyed ->
  StronglySorted (ascending key_lt sort_key) (map snd keyed).
Proof.
  intros F S. induction S as [|x r Sr IH Hx]; simpl; [constructor|].
  inversion F as [|? ? Fx Fr]; subst.
  constructor; [now apply IH|].
  apply Forall_map. rewrite Forall_forall in Hx, Fr |- *.
  intros y Hy. exists (fst x), (fst y). repeat split; auto. now apply Hx.
Qed.

(** What a sort that returns has done. *)
Lemma py_sorted_any l reverse sorted :
  py_sorted key_lt sort_key l reverse = OK sorted ->
  Permutation sorted l /\
  StronglySorted (if reverse then fun p q => ascending key_lt sort_key q p
                  else ascending key_lt sort_key) sorted.
Proof.
  unfold py_sorted. intros H.
  destruct (decorate sort_key l) as [keyed|] eqn:E; cbn [bind] in H; [|discriminate].
  injection H as <-. destruct (decorate_any l keyed E) as [M F].
  destruct reverse.
  - assert (P : Permutation (rev (stable_sort key_lt (rev keyed))) keyed).
    { rewrite <- Permutation_rev, sort_any_perm. symmetry. apply Permutation_rev. }
    split; [rewrite <- M; now apply Permutation_map|].
    assert (F' : Forall (fun kd => sort_key (snd kd) = OK (fst kd))
                   (rev (stable_sort key_lt (rev keyed))))
      by (eapply Permutation_Forall; [symmetry; exact P|exact F]).
    pose proof (StronglySorted_rev _ _ (sort_any_sorted (rev keyed))) as S.
    revert F' S. generalize (rev (stable_sort key_lt (rev keyed))).
    intros l' F' S. induction S as [|x r Sr IH Hx]; simpl; [constructor|].
    inversion F' as [|? ? Fx Fr]; subst.
    constructor; [now apply IH|].
    apply Forall_map. rewrite Forall_forall in Hx, Fr |- *.
    intros y Hy. exists (fst y), (fst x). repeat split; auto. now apply Hx.
  - split.
    + rewrite <- M. apply Permutation_map, sort_any_perm.
    + apply sorted_any_keys; [|apply sort_any_sorted].
      eapply Permutation_Forall; [symmetry; apply sort_any_perm|exact F].
Qed.

End SortingAny.

Lemma date_ltb_asym a b : date_ltb a b = true -> date_ltb b a = false.
Proof.
  destruct a as [[y1 m1] d1], b as [[y2 m2] d2]. unfold date_ltb, date_compare.
  destruct (Z.compare_spec y1 y2), (Z.compare_spec y2 y1); try lia;
    try discriminate; try reflexivity.
  destruct (Z.compare_spec m1 m2), (Z.compare_spec m2 m1); try lia;
    try discriminate; try reflexivity.
  destruct (Z.compare_spec d1 d2), (Z.compare_spec d2 d1); try lia;
    try discriminate; reflexivity.
Qed.

Lemma date_ltb_spec a b :
  date_ltb a b = true <->
  (let '(y1, m1, d1) := a in let '(y2, m2, d2) := b in
   y1 < y2 \/ (y1 = y2 /\ (m1 < m2 \/ (m1 = m2 /\ d1 < d2)))).
Proof.
  destruct a as [[y1 m1] d1], b as [[y2 m2] d2]. unfold date_ltb, date_compare.
  destruct (Z.compare_spec y1 y2).
  - destruct (Z.compare_spec m1 m2).
    + destruct (Z.compare_spec d1 d2); split; try discriminate; try lia; reflexivity.
    + split; [lia|reflexivity].
    + split; [discriminate|lia].
  - split; [lia|reflexivity].
  - split; [discriminate|lia].
Qed.

Lemma date_le_trans a b c :
  date_ltb b a = false -> date_ltb c b = false -> date_ltb c a = false.
Proof.
  intros H1 H2.
  destruct (date_ltb c a) eqn:E; [|reflexivity]. exfalso.
  apply date_ltb_spec in E.
  assert (N1 : ~ date_ltb b a = true) by congruence.
  assert (N2 : ~ date_ltb c b = true) by congruence.
  rewrite date_ltb_spec in N1, N2.
  destruct a as [[y1 m1] d1], b as [[y2 m2] d2], c as [[y3 m3] d3]. lia.
Qed.
(** ** [filter_employment_for_advisees] *)

Lemma advisee_turn_marked today begin_period status p i i' p' appended :
  advisee_turn today begin_period status p i = OK (i', p', appended) ->
  if appended then marked_advisee status p' else p' = p.
Proof.
  unfold advisee_turn. intros H.
  destruct (val_get i "status" VNone) as [s|]; cbn [bind] in H; [|discriminate].
  destruct (py_eq s status); [|now injection H as _ <- <-].
  destruct i as [| | | | | |d]; try discriminate H.
  destruct (truthy (get_default d "end_year" VNone)) eqn:T.
  - destruct (py_date _ _ _) as [date|] eqn:Ed; cbn [bind] in H; [|discriminate].
    destruct date as [| | | |y m dd| |]; try discriminate H. cbn [bind] in H.
    destruct (date_leb begin_period (y, m, dd)); injection H as _ <- <-;
      [|reflexivity].
    split; [rewrite get_set_other by discriminate; apply get_set_same|].
    unfold py_date in Ed.
    destruct (as_int (get_default d "end_year" VNone)) as [z|] eqn:Ez;
      cbn [bind] in Ed; [|discriminate].
    unfold get_default in *.
    destruct (get d "end_year") as [v|]; [|discriminate T].
    exists v, z. split; [apply get_set_same|exact Ez].
  - cbn [bind] in H.
    destruct (date_leb begin_period today); injection H as _ <- <-;
      [|reflexivity].
    split; [rewrite get_set_other by discriminate; apply get_set_same|].
    eexists _, _. split; [apply get_set_same|].
    unfold get_default. rewrite get_set_same. reflexivity.
Qed.

Lemma advisee_items_marked today begin_period status items :
  forall p p' items' n,
    advisee_items today begin_period status p items = OK (p', items', n) ->
    match n with O => p' = p | S _ => marked_advisee status p' end.
Proof.
  induction items as [|i rest IH]; simpl; intros p p' items' n H.
  - now injection H as <- _ <-.
  - destruct (advisee_turn today begin_period status p i) as [[[i1 p1] b]|] eqn:Et;
      cbn [bind] in H; [|discriminate].
    destruct (advisee_items today begin_period status p1 rest)
      as [[[p2 rest2] n2]|] eqn:Er; cbn [bind] in H; [|discriminate].
    injection H as <- _ <-.
    pose proof (IH _ _ _ _ Er) as Hr.
    pose proof (advisee_turn_marked _ _ _ _ _ _ _ _ Et) as Ht.
    destruct b, n2; subst; auto.
Qed.

Lemma advisee_person_marked today begin_period status p doc n :
  advisee_person today begin_period status p = OK (doc, n) ->
  (0 < n)%nat -> marked_advisee status doc.
Proof.
  unfold advisee_person. intros H Hn.
  destruct (get p "employment") as [v|]; [|injection H as _ <-; lia].
  destruct v as [| | | | |items|];
    try (destruct (py_iter _) as [l|]; cbn [bind] in H; [|discriminate];
         destruct (mapM _ l); cbn [bind] in H; [|discriminate];
         injection H as _ <-; lia).
  destruct (advisee_items today begin_period status p items)
    as [[[p1 items1] n1]|] eqn:E; cbn [bind] in H; [|discriminate].
  injection H as <- <-.
  pose proof (advisee_items_marked _ _ _ _ _ _ _ _ E) as M.
  destruct n1; [lia|]. destruct M as (S1 & v & z & G & Z1).
  split; [rewrite get_set_other by discriminate; exact S1|].
  exists v, z. split; [|exact Z1]. rewrite get_set_other by discriminate. exact G.
Qed.

Lemma advisees_frame begin_period status today :
  forall people h h' out a,
    ~ In a people ->
    filter_employment_for_advisees h people begin_period status today
    = OK (h', out) ->
    load h' a = load h a.
Proof.
  induction people as [|b rest IH]; simpl; intros h h' out a N H.
  - now injection H as <- _.
  - destruct (advisee_person today begin_period status (load h b))
      as [[doc n]|]; cbn [bind] in H; [|discriminate].
    destruct (filter_employment_for_advisees (store_set h b doc) rest
                begin_period status today) as [[h2 out2]|] eqn:E;
      cbn [bind] in H; [|discriminate].
    injection H as <- _.
    rewrite (IH _ _ _ a (fun I => N (or_intror I)) E).
    apply load_store_set_other. intros ->. apply N. now left.
Qed.

Lemma advisees_incl begin_period status today :
  forall people h h' out,
    filter_employment_for_advisees h people begin_period status today
    = OK (h', out) ->
    incl out people.
Proof.
  induction people as [|b rest IH]; simpl; intros h h' out H.
  - injection H as _ <-. apply incl_refl.
  - destruct (advisee_person today begin_period status (load h b))
      as [[doc n]|]; cbn [bind] in H; [|discriminate].
    destruct (filter_employment_for_advisees (store_set h b doc) rest
                begin_period status today) as [[h2 out2]|] eqn:E;
      cbn [bind] in H; [|discriminate].
    injection H as _ <-. apply IH in E. intros x Hx.
    apply in_app_or in Hx as [Hx|Hx].
    + apply repeat_spec in Hx. subst. now left.
    + right. now apply E.
Qed.

(** X12: with each person listed once, every person that
    [filter_employment_for_advisees] returns is a person of the input, on
    which the call has written the status asked for and, under [end_year], an
    integer: the end year of the record, or the current year written into a
    record without one; the default ["n/a"] is never what is written. *)
Theorem advisees_status_end_year
    (h : store) (people : list addr) (begin_period : Z * Z * Z) (status : val)
    (today : Z * Z * Z) (h' : store) (advisees : list addr) :
  NoDup people -> Forall (fun a => (a < List.length h)%nat) people ->
  filter_employment_for_advisees h people begin_period status today
  = OK (h', advisees) ->
  forall a, In a advisees ->
    In a people /\ marked_advisee status (load h' a) /\
    get (load h' a) "end_year" <> Some (VStr "n/a").
Proof.
  intros D L H a Ha.
  assert (M : In a people /\ marked_advisee status (load h' a)).
  { split; [now apply (advisees_incl _ _ _ _ _ _ _ H)|].
    revert h h' advisees D L H Ha.
    induction people as [|b rest IH]; simpl; intros h h' advisees D L H Ha.
    - injection H as _ <-. destruct Ha.
    - inversion D as [|? ? Nb D']; subst. inversion L as [|? ? Lb L']; subst.
      destruct (advisee_person today begin_period status (load h b))
        as [[doc n]|] eqn:Ep; cbn [bind] in H; [|discriminate].
      destruct (filter_employment_for_advisees (store_set h b doc) rest
                  begin_period status today) as [[h2 out2]|] eqn:E;
        cbn [bind] in H; [|discriminate].
      injection H as <- <-.
      apply in_app_or in Ha as [Ha|Ha].
      + assert (Hn : (0 < n)%nat) by (destruct n; [destruct Ha|lia]).
        apply repeat_spec in Ha. subst a.
        rewrite (advisees_frame _ _ _ _ _ _ _ b Nb E).
        rewrite load_store_set_same by exact Lb.
        now apply (advisee_person_marked _ _ _ _ _ _ Ep).
      + apply (IH (store_set h b doc) h2 out2 D'); [|exact E|exact Ha].
        eapply Forall_impl; [|exact L']. intros x Hx.
        now rewrite length_store_set. }
  destruct M as [I M]. repeat split; try apply M; [exact I|].
  destruct M as (_ & v & z & G & Z1). rewrite G. intros [= ->]. discriminate Z1.
Qed.

Lemma advisees_status_end_year_witness :
  exists h',
    filter_employment_for_advisees [postdoc] [0%nat] (2017, 1, 1) (VStr "postdoc")
      (2020, 6, 1) = OK (h', [0%nat; 0%nat]) /\
    forall a, In a [0%nat; 0%nat] ->
      In a [0%nat] /\ marked_advisee (VStr "postdoc") (load h' a) /\
      get (load h' a) "end_year" <> Some (VStr "n/a").
Proof.
  eexists. split; [reflexivity|].
  apply (advisees_status_end_year [postdoc] [0%nat] (2017, 1, 1) (VStr "postdoc")
           (2020, 6, 1)).
  - repeat constructor. intros [].
  - repeat constructor.
  - reflexivity.
Defined.

(** ** [filter_service], [filter_facilities] and [filter_activities] *)

Lemma short_month_entry n name :
  py_getitem SHORT_MONTH_NAMES (VInt n) = OK name ->
  In name [VNone; VStr "Jan"; VStr "Feb"; VStr "Mar"; VStr "Apr"; VStr "May";
           VStr "Jun"; VStr "Jul"; VStr "Aug"; VStr "Sept"; VStr "Oct";
           VStr "Nov"; VStr "Dec"].
Proof.
  rewrite py_getitem_short_month.
  destruct ((-13 <=? n) && (n <=? 12)); [|discriminate].
  intros E.
  pose proof (Z.mod_pos_bound n 13 ltac:(lia)) as B.
  assert (E' : name = nth (Z.to_nat (n mod 13))
                        [VNone; VStr "Jan"; VStr "Feb"; VStr "Mar"; VStr "Apr";
                         VStr "May"; VStr "Jun"; VStr "Jul"; VStr "Aug";
                         VStr "Sept"; VStr "Oct"; VStr "Nov"; VStr "Dec"] VNone)
    by congruence.
  rewrite E'. apply nth_In. cbn [List.length]. lia.
Qed.

Lemma service_item_kept today_year begin_period type i i' :
  service_item today_year begin_period type i = OK (Some i') ->
  kept_record type i'.
Proof.
  unfold service_item. intros H.
  destruct (val_get i "type" VNone) as [t|] eqn:Et; cbn [bind] in H; [|discriminate].
  destruct (py_eq t type) eqn:Ety; [|discriminate].
  destruct i as [| | | | | |d]; try discriminate H.
  destruct (ends_since d ["year"; "end_year"] today_year begin_period)
    as [[|]|]; cbn [bind] in H; try discriminate.
  destruct (rewrite_month d) as [d'|] eqn:Em; cbn [bind] in H; [|discriminate].
  injection H as <-. injection Et as <-.
  pose proof (rewrite_month_get d d' "type" Em ltac:(discriminate)) as Gt.
  unfold rewrite_month in Em.
  destruct (month_to_int _) as [n|]; cbn [bind] in Em; [|discriminate].
  destruct (py_getitem SHORT_MONTH_NAMES (VInt n)) as [name|] eqn:En;
    cbn [bind] in Em; [|discriminate].
  injection Em as <-.
  exists (set d "month" name), name. split; [reflexivity|]. split.
  - unfold get_default in *. now rewrite Gt.
  - split; [apply get_set_same|]. now apply (short_month_entry n).
Qed.

Lemma records_loop_frame field begin_period type today_year :
  forall people h h' found lists a,
    ~ In a people ->
    filter_records_loop field h people begin_period type today_year
    = OK (h', found, lists) ->
    load h' a = load h a.
Proof.
  induction people as [|b rest IH]; simpl; intros h h' found lists a N H.
  - now injection H as <- _ _.
  - destruct (py_iter _) as [svc|]; cbn [bind] in H; [|discriminate].
    destruct (mapM _ svc) as [kept|]; cbn [bind] in H; [|discriminate].
    match type of H with context [filter_records_loop field ?h1 rest] =>
      destruct (filter_records_loop field h1 rest begin_period type today_year)
        as [[[h2 found2] lists2]|] eqn:E end; cbn [bind] in H; [|discriminate].
    injection H as <- _ _.
    rewrite (IH _ _ _ _ a (fun I => N (or_intror I)) E).
    apply load_store_set_other. intros ->. apply N. now left.
Qed.

Lemma records_loop_incl field begin_period type today_year :
  forall people h h' found lists,
    filter_records_loop field h people begin_period type today_year
    = OK (h', found, lists) ->
    incl found people.
Proof.
  induction people as [|b rest IH]; simpl; intros h h' found lists H.
  - injection H as _ <- _. apply incl_refl.
  - destruct (py_iter _) as [svc|]; cbn [bind] in H; [|discriminate].
    destruct (mapM _ svc) as [kept|]; cbn [bind] in H; [|discriminate].
    match type of H with context [filter_records_loop field ?h1 rest] =>
      destruct (filter_records_loop field h1 rest begin_period type today_year)
        as [[[h2 found2] lists2]|] eqn:E end; cbn [bind] in H; [|discriminate].
    injection H as _ <- _. apply IH in E.
    destruct (keep_some kept).
    + intros x Hx. right. now apply E.
    + intros x [->|Hx]; [now left|right; now apply E].
Qed.

Lemma records_loop_filtered field begin_period type today_year :
  forall people h h' found lists,
    NoDup people -> Forall (fun a => (a < List.length h)%nat) people ->
    filter_records_loop field h people begin_period type today_year
    = OK (h', found, lists) ->
    records_filtered field type h' people found.
Proof.
  induction people as [|b rest IH]; simpl; intros h h' found lists D L H.
  - intros p [].
  - inversion D as [|? ? Nb D']; subst. inversion L as [|? ? Lb L']; subst.
    destruct (py_iter _) as [svc|]; cbn [bind] in H; [|discriminate].
    destruct (mapM _ svc) as [kept|] eqn:Ek; cbn [bind] in H; [|discriminate].
    match type of H with context [filter_records_loop field ?h1 rest] =>
      remember h1 as h1' eqn:Eh1;
      destruct (filter_records_loop field h1' rest begin_period type today_year)
        as [[[h2 found2] lists2]|] eqn:E end; cbn [bind] in H; [|discriminate].
    injection H as <- <- _.
    assert (L1 : Forall (fun a => (a < List.length h1')%nat) rest).
    { subst h1'. eapply Forall_impl; [|exact L']. intros x Hx.
      now rewrite length_store_set. }
    pose proof (IH _ _ _ _ D' L1 E) as R.
    pose proof (records_loop_incl _ _ _ _ _ _ _ _ _ E) as I2.
    intros p [<-|Hp].
    + exists (keep_some kept). split; [|split].
      * rewrite (records_loop_frame _ _ _ _ _ _ _ _ _ b Nb E). subst h1'.
        rewrite load_store_set_same by exact Lb. apply get_set_same.
      * apply Forall_forall. intros x Hx. apply keep_some_In in Hx.
        destruct (mapM_In _ _ _ _ Ek Hx) as (i & _ & Ei).
        now apply (service_item_kept _ _ _ _ _ Ei).
      * destruct (keep_some kept) as [|x l].
        -- split; [|congruence]. intros Hb. exfalso. now apply Nb, I2.
        -- split; [discriminate|]. intros _. now left.
    + destruct (R p Hp) as (mine & G & F & Iff).
      exists mine. split; [exact G|]. split; [exact F|].
      rewrite <- Iff.
      assert (Np : b <> p) by (intros ->; contradiction).
      destruct (keep_some kept); [reflexivity|].
      split; [intros [Hb|Hf]; [contradiction|exact Hf]|now right].
Qed.

Lemma filter_service_records begin_period type today_year :
  forall people h,
    filter_service_loop h people begin_period type today_year
    = ('(h', found, _) <-
         filter_records_loop "service" h people begin_period type today_year ;;
       OK (h', found)).
Proof.
  induction people as [|b rest IH]; simpl; intros h; [reflexivity|].
  destruct (py_iter _) as [svc|]; cbn [bind]; [|reflexivity].
  destruct (mapM _ svc) as [kept|]; cbn [bind]; [|reflexivity].
  rewrite IH.
  match goal with |- context [filter_records_loop "service" ?h1 rest] =>
    destruct (filter_records_loop "service" h1 rest begin_period type today_year)
      as [[[h2 found2] lists2]|] end; reflexivity.
Qed.

(** X13: with each person listed once, [filter_facilities],
    [filter_activities] and [filter_service] leave every person of the input
    holding, under the field they filter, the list of the records kept: each
    of the type asked for, with a [month] that is an entry of
    [SHORT_MONTH_NAMES].  The result lists exactly the people for whom this
    list is not empty; the others are left with the empty list, also those
    who had no such field. *)
Theorem filter_records_post_state
    (h : store) (people : list addr) (begin_period : Z * Z * Z) (type : val)
    (verbose : bool) (today_year : Z) :
  NoDup people -> Forall (fun a => (a < List.length h)%nat) people ->
  (forall h' found printed,
      filter_facilities h people begin_period type verbose today_year
      = OK (h', found, printed) ->
      records_filtered "facilities" type h' people found) /\
  (forall h' found,
      filter_activities h people begin_period type today_year = OK (h', found) ->
      records_filtered "activities" type h' people found) /\
  (forall h' found,
      filter_service h people begin_period type today_year = OK (h', found) ->
      records_filtered "service" type h' people found).
Proof.
  intros D L. split; [|split].
  - intros h' found printed H. unfold filter_facilities in H.
    destruct (filter_records_loop "facilities" h people begin_period type today_year)
      as [[[h2 found2] lists2]|] eqn:E; cbn [bind] in H; [|discriminate].
    injection H as <- <- _.
    apply (records_loop_filtered _ _ _ _ _ _ _ _ _ D L E).
  - intros h' found H. unfold filter_activities in H.
    destruct (filter_records_loop "activities" h people begin_period type today_year)
      as [[[h2 found2] lists2]|] eqn:E; cbn [bind] in H; [|discriminate].
    injection H as <- <-.
    apply (records_loop_filtered _ _ _ _ _ _ _ _ _ D L E).
  - intros h' found H. unfold filter_service in H.
    rewrite filter_service_records in H.
    destruct (filter_records_loop "service" h people begin_period type today_year)
      as [[[h2 found2] lists2]|] eqn:E; cbn [bind] in H; [|discriminate].
    injection H as <- <-.
    apply (records_loop_filtered _ _ _ _ _ _ _ _ _ D L E).
Qed.

Lemma filter_records_post_state_witness :
  exists h',
    filter_facilities [facility_user; bystander] [0%nat; 1%nat] (2017, 1, 1)
      (VStr "research") false 2020 = OK (h', [0%nat], []) /\
    records_filtered "facilities" (VStr "research") h' [0%nat; 1%nat] [0%nat].
Proof.
  eexists. split; [reflexivity|].
  assert (D : NoDup [0%nat; 1%nat])
    by (repeat constructor; simpl; intuition discriminate).
  assert (L : Forall (fun a => (a < List.length [facility_user; bystander])%nat)
                [0%nat; 1%nat]) by (repeat constructor).
  apply (proj1 (filter_records_post_state [facility_user; bystander]
                  [0%nat; 1%nat] (2017, 1, 1) (VStr "research") false 2020 D L)
           _ _ []).
  reflexivity.
Defined.
(** ** The events of [filter_patents] *)

Lemma events_after_since i s kept :
  events_after i s = OK kept ->
  exists events all,
    get i "events" = Some events /\ py_iter events = OK all /\
    events_since s all kept.
Proof.
  unfold events_after, item. intros H.
  destruct (get i "events") as [events|]; cbn [bind] in H; [|discriminate].
  destruct (py_iter events) as [all|] eqn:Ei; cbn [bind] in H; [|discriminate].
  match type of H with context [filterM ?f all] =>
    destruct (filterM f all) as [l|] eqn:Ef end; cbn [bind] in H; [|discriminate].
  destruct (py_sorted_any date_ltb (event_date None) date_ltb_asym date_le_trans
              l false kept H) as [P S].
  exists events, all. split; [reflexivity|]. split; [exact Ei|].
  split; [|exact S]. intros e. split.
  - intros He. apply (Permutation_in _ P) in He.
    apply (filterM_In _ _ _ Ef e) in He as [Hin He]. split; [exact Hin|].
    destruct (event_date None e) as [d|]; cbn [bind] in He; [|discriminate].
    exists d. split; [reflexivity|congruence].
  - intros (Hin & d & Ed & Hd).
    apply (Permutation_in _ (Permutation_sym P)).
    apply (filterM_In _ _ _ Ef e). split; [exact Hin|].
    rewrite Ed. cbn [bind]. now rewrite Hd.
Qed.

Lemma patent_turn_events people target s today_year i i' :
  patent_turn people target (Some s) today_year i = OK (Some i') ->
  exists events all kept,
    get i "events" = Some events /\ py_iter events = OK all /\
    get i' "events" = Some (VList kept) /\ events_since s all kept.
Proof.
  unfold patent_turn. intros H.
  destruct (status_and_kind i "patent") as [ok|]; cbn [bind] in H; [|discriminate].
  destruct (if ok then by_inventor people target i else OK false) as [[|]|];
    cbn [bind] in H; try discriminate.
  destruct (ends_since i ["end_year"] today_year s) as [[|]|];
    cbn [bind] in H; try discriminate.
  destruct (rewrite_month i) as [i1|] eqn:Em; cbn [bind] in H; [|discriminate].
  destruct (events_after i1 s) as [kept|] eqn:Ek; cbn [bind] in H; [|discriminate].
  injection H as <-.
  destruct (events_after_since i1 s kept Ek) as (events & all & G & Ei & Es).
  exists events, all, kept. split; [|split; [exact Ei|split; [apply get_set_same|exact Es]]].
  rewrite <- (rewrite_month_get i i1 "events" Em); [exact G|discriminate].
Qed.

Lemma filter_patents_frame people target since before today_year :
  forall coll h h' out a,
    ~ In a coll ->
    filter_patents h coll people target since before today_year = OK (h', out) ->
    load h' a = load h a.
Proof.
  induction coll as [|b rest IH]; simpl; intros h h' out a N H.
  - now injection H as <- _.
  - destruct (patent_turn people target since today_year (load h b))
      as [kept|]; cbn [bind] in H; [|discriminate].
    match type of H with context [filter_patents ?h1 rest] =>
      destruct (filter_patents h1 rest people target since before today_year)
        as [[h2 out2]|] eqn:E end; cbn [bind] in H; [|discriminate].
    injection H as <- _.
    rewrite (IH _ _ _ a (fun I => N (or_intror I)) E).
    destruct kept; [|reflexivity].
    apply load_store_set_other. intros ->. apply N. now left.
Qed.

Lemma filter_patents_incl people target since before today_year :
  forall coll h h' out,
    filter_patents h coll people target since before today_year = OK (h', out) ->
    incl out coll.
Proof.
  induction coll as [|b rest IH]; simpl; intros h h' out H.
  - injection H as _ <-. apply incl_refl.
  - destruct (patent_turn people target since today_year (load h b))
      as [kept|]; cbn [bind] in H; [|discriminate].
    match type of H with context [filter_patents ?h1 rest] =>
      destruct (filter_patents h1 rest people target since before today_year)
        as [[h2 out2]|] eqn:E end; cbn [bind] in H; [|discriminate].
    injection H as _ <-. apply IH in E.
    destruct kept.
    + intros x [->|Hx]; [now left|right; now apply E].
    + intros x Hx. right. now apply E.
Qed.

Lemma filter_patents_turn people target since before today_year :
  forall coll h h' out,
    NoDup coll -> Forall (fun a => (a < List.length h)%nat) coll ->
    filter_patents h coll people target since before today_year = OK (h', out) ->
    forall a, In a out ->
      patent_turn people target since today_year (load h a) = OK (Some (load h' a)).
Proof.
  induction coll as [|b rest IH]; simpl; intros h h' out D L H a Ha.
  - injection H as _ <-. destruct Ha.
  - inversion D as [|? ? Nb D']; subst. inversion L as [|? ? Lb L']; subst.
    destruct (patent_turn people target since today_year (load h b))
      as [kept|] eqn:Et; cbn [bind] in H; [|discriminate].
    match type of H with context [filter_patents ?h1 rest] =>
      remember h1 as h1' eqn:Eh1;
      destruct (filter_patents h1' rest people target since before today_year)
        as [[h2 out2]|] eqn:E end; cbn [bind] in H; [|discriminate].
    injection H as <- <-.
    assert (L1 : Forall (fun a => (a < List.length h1')%nat) rest).
    { subst h1'. destruct kept; [|exact L'].
      eapply Forall_impl; [|exact L']. intros x Hx. now rewrite length_store_set. }
    assert (Hrest : In a out2 ->
              patent_turn people target since today_year (load h a)
              = OK (Some (load h2 a))).
    { intros Hin. rewrite <- (IH h1' h2 out2 D' L1 E a Hin). f_equal. subst h1'.
      destruct kept; [|reflexivity].
      symmetry. apply load_store_set_other. intros ->.
      apply Nb. now apply (filter_patents_incl _ _ _ _ _ _ _ _ _ E). }
    destruct kept as [i'|]; [|now apply Hrest].
    destruct Ha as [<-|Ha]; [|now apply Hrest].
    rewrite Et.
    rewrite (filter_patents_frame _ _ _ _ _ _ _ _ _ b Nb E). subst h1'.
    rewrite load_store_set_same by exact Lb. reflexivity.
Qed.

(** X14: with a [since] date and a collection that lists each patent once,
    every patent that [filter_patents] returns holds under [events] exactly
    those of the events it had on entry whose date is after the date
    (strictly), in the order of their dates. *)
Theorem filter_patents_events
    (h : store) (patentscoll : list addr) (people : list dict) (target : val)
    (since : Z * Z * Z) (before : option (Z * Z * Z)) (today_year : Z)
    (h' : store) (patents : list addr) :
  NoDup patentscoll ->
  Forall (fun a => (a < List.length h)%nat) patentscoll ->
  filter_patents h patentscoll people target (Some since) before today_year
  = OK (h', patents) ->
  forall a, In a patents ->
    exists events all kept,
      get (load h a) "events" = Some events /\ py_iter events = OK all /\
      get (load h' a) "events" = Some (VList kept) /\
      events_since since all kept.
Proof.
  intros D L H a Ha.
  apply (patent_turn_events people target since today_year).
  apply (filter_patents_turn _ _ _ _ _ _ _ _ _ D L H a Ha).
Qed.

Lemma filter_patents_events_witness :
  exists h',
    filter_patents [patent_doc] [0%nat] group (VStr "sbillinge")
      (Some (2015, 1, 1)) None 2020 = OK (h', [0%nat]) /\
    exists events all kept,
      get (load [patent_doc] 0%nat) "events" = Some events /\
      py_iter events = OK all /\
      get (load h' 0%nat) "events" = Some (VList kept) /\
      events_since (2015, 1, 1) all kept.
Proof.
  eexists. split; [reflexivity|].
  eapply (filter_patents_events [patent_doc] [0%nat] group (VStr "sbillinge")
            (2015, 1, 1) None 2020).
  - repeat constructor. intros [].
  - repeat constructor.
  - reflexivity.
  - now left.
Defined.

(** X15: [filter_patents] and [filter_licenses] do not read their argument
    [before]: whatever it is, the call does the same. *)
Theorem filter_patents_before_unused
    (h : store) (patentscoll : list addr) (people : list dict) (target : val)
    (since before before' : option (Z * Z * Z)) (today_year : Z) :
  filter_patents h patentscoll people target since before today_year
  = filter_patents h patentscoll people target since before' today_year /\
  filter_licenses h patentscoll people target since before today_year
  = filter_licenses h patentscoll people target since before' today_year.
Proof.
  split.
  - revert h. induction patentscoll as [|a rest IH]; simpl; intros h; [reflexivity|].
    destruct (patent_turn people target since today_year (load h a));
      cbn [bind]; [|reflexivity].
    now rewrite IH.
  - unfold filter_licenses. generalize (@None (list val)). revert h.
    induction patentscoll as [|a rest IH]; simpl; intros h ev; [reflexivity|].
    destruct (license_turn people target since today_year (load h a) ev)
      as [[kept ev1]|]; cbn [bind]; [|reflexivity].
    now rewrite IH.
Qed.

(** ** The window of [filter_publications] *)

Lemma select_publications_window authors bold s before :
  forall citations pubs,
    select_publications citations authors bold (Some s) before = OK pubs ->
    Forall (published_within s before) pubs.
Proof.
  induction citations as [|pub rest IH]; cbn [select_publications]; intros pubs H.
  - injection H as <-. constructor.
  - destruct (relevant authors pub) as [[|]|]; cbn [bind] in H; try discriminate.
    + destruct (if bold then bold_pub authors pub else OK pub) as [pub'|];
        cbn [bind] in H; [|discriminate].
      destruct (in_window pub' (Some s) before) as [keep|] eqn:Ew;
        cbn [bind] in H; [|discriminate].
      destruct (select_publications rest authors bold (Some s) before)
        as [l|]; cbn [bind] in H; [|discriminate].
      injection H as <-. specialize (IH l eq_refl).
      destruct keep; [|exact IH]. constructor; [|exact IH].
      unfold in_window in Ew. unfold published_within.
      destruct (py_int (get_default pub' "year" VNone)) as [y|];
        cbn [bind] in Ew; [|discriminate].
      destruct (month_to_int (get_default pub' "month" (VInt 12))) as [m|];
        cbn [bind] in Ew; [|discriminate].
      destruct (py_int (get_default pub' "day" (VInt 28))) as [d|];
        cbn [bind] in Ew; [|discriminate].
      destruct (date_ok y m d); [|discriminate].
      destruct (date_ltb s (y, m, d)) eqn:Es; [|discriminate].
      exists y, m, d.
      split; [reflexivity|]. split; [reflexivity|]. split; [reflexivity|].
      split; [exact Es|].
      intros b Eb. rewrite Eb in Ew. congruence.
    + now apply IH.
Qed.

(** X16: with a [since] date, every publication that [filter_publications]
    returns has a date (its year, its month or December, its day or the
    28th) strictly after the date, and strictly before the [before] date if
    there is one. *)
Theorem filter_publications_window {K : Type} (key_lt : K -> K -> bool)
    (doc_date_key : dict -> result K) (citations : list dict)
    (authors : list string) (reverse bold : bool) (since : Z * Z * Z)
    (before : option (Z * Z * Z)) (pubs : list dict) :
  filter_publications key_lt doc_date_key citations authors reverse bold
    (Some since) before = OK pubs ->
  forall pub, In pub pubs -> published_within since before pub.
Proof.
  unfold filter_publications. intros H pub Hp.
  destruct (select_publications citations authors bold (Some since) before)
    as [l|] eqn:E; cbn [bind] in H; [|discriminate].
  apply py_sorted_perm in H. apply (Permutation_in _ H) in Hp.
  pose proof (select_publications_window _ _ _ _ _ _ E) as F.
  rewrite Forall_forall in F. now apply F.
Qed.

Lemma filter_publications_window_witness :
  published_within (2019, 1, 1) (Some (2021, 1, 1)) pub_2020.
Proof.
  apply (filter_publications_window Z.ltb year_month_key [pub_2018; pub_2020]
           ["A. Author"] false false (2019, 1, 1) (Some (2021, 1, 1)) [pub_2020]).
  - reflexivity.
  - now left.
Defined.

(** X17: without a [since] date, [filter_publications] does not read
    [before]: the upper bound of the window is tested only for a publication
    that has passed the lower bound. *)
Theorem filter_publications_before_alone {K : Type} (key_lt : K -> K -> bool)
    (doc_date_key : dict -> result K) (citations : list dict)
    (authors : list string) (reverse bold : bool) (before : option (Z * Z * Z)) :
  filter_publications key_lt doc_date_key citations authors reverse bold
    None before
  = filter_publications key_lt doc_date_key citations authors reverse bold
      None None.
Proof.
  unfold filter_publications. f_equal.
  induction citations as [|pub rest IH]; simpl; [reflexivity|].
  now rewrite IH.
Qed.
(** ** The selection and the order of [filter_presentations] *)

(** X18: the presentations that [filter_presentations] returns are in
    descending order of their [date]: none is followed by a presentation of a
    later date. *)
Theorem filter_presentations_descending
    (people presentations institutions : list dict) (types : list val)
    (since before : option (Z * Z * Z)) (statuses : list val)
    (res : list dict) (printed : list warning) :
  filter_presentations people presentations institutions types since before
    statuses = OK (res, printed) ->
  StronglySorted (fun p q => ascending date_ltb date_key q p) res.
Proof.
  unfold filter_presentations. intros H.
  destruct (firstclean people presentations) as [first|]; cbn [bind] in H;
    [|discriminate].
  destruct (select_presentations first types since before statuses)
    as [presclean|]; cbn [bind] in H; [|discriminate].
  destruct (annotate_all people institutions presclean) as [[l' ws]|];
    cbn [bind] in H; [|discriminate].
  destruct (py_sorted date_ltb date_key l' true) as [sorted|] eqn:Eo;
    cbn [bind] in H; [|discriminate].
  injection H as <- _.
  apply (py_sorted_any date_ltb date_key date_ltb_asym date_le_trans l' true
           sorted Eo).
Qed.

Lemma filter_presentations_descending_witness :
  exists res printed,
    filter_presentations group
      [talk_elsewhere; set talk_other "authors" (VStr "billinge")]
      [[("_id", VStr "nowhereu")]] [VStr "all"] None None [VStr "accepted"]
    = OK (res, printed) /\
    StronglySorted (fun p q => ascending date_ltb date_key q p) res.
Proof.
  eexists _, _. split; [reflexivity|].
  eapply (filter_presentations_descending group
            [talk_elsewhere; set talk_other "authors" (VStr "billinge")]
            [[("_id", VStr "nowhereu")]] [VStr "all"] None None [VStr "accepted"]).
  reflexivity.
Defined.

Lemma select_presentations_tests first types since before statuses presclean :
  select_presentations first types since before statuses = OK presclean ->
  forall pres, In pres presclean ->
    allowed_or_all "status" statuses pres = OK true /\
    allowed_or_all "type" types pres = OK true /\
    (forall s, since = Some s ->
               exists d, presdate pres = OK d /\ date_ltb s d = true) /\
    (forall b, before = Some b ->
               exists d, presdate pres = OK d /\ date_ltb d b = true).
Proof.
  unfold select_presentations. intros H pres Hp.
  destruct (filterM (allowed_or_all "status" statuses) first) as [l2|] eqn:E2;
    cbn [bind] in H; [|discriminate].
  destruct (filterM (allowed_or_all "type" types) l2) as [l3|] eqn:E3;
    cbn [bind] in H; [|discriminate].
  assert (T : forall (f : Z * Z * Z -> bool) l l',
             filterM (fun pres => d <- presdate pres ;; OK (f d)) l = OK l' ->
             forall q, In q l' ->
                       In q l /\ exists d, presdate q = OK d /\ f d = true).
  { intros f l l' Ef q Hq. apply (filterM_In _ _ _ Ef q) in Hq as [Hin Hq].
    split; [exact Hin|].
    destruct (presdate q) as [d|]; cbn [bind] in Hq; [|discriminate].
    exists d. split; [reflexivity|congruence]. }
  assert (Hl3 : In pres l3 ->
                allowed_or_all "status" statuses pres = OK true /\
                allowed_or_all "type" types pres = OK true).
  { intros H3. apply (filterM_In _ _ _ E3 pres) in H3 as [H2 Ht].
    apply (filterM_In _ _ _ E2 pres) in H2 as [_ Hs]. now split. }
  destruct since as [s|]; cbn [bind] in H.
  - match type of H with context [filterM ?f l3] =>
      destruct (filterM f l3) as [l4|] eqn:E4 end; cbn [bind] in H; [|discriminate].
    destruct before as [b|].
    + destruct (T (fun d => date_ltb d b) l4 presclean H pres Hp) as [H4 Hb].
      destruct (T (date_ltb s) l3 l4 E4 pres H4) as [H3 Hs].
      destruct (Hl3 H3) as [A B]. repeat split; try assumption.
      * intros s' [= <-]. exact Hs.
      * intros b' [= <-]. exact Hb.
    + injection H as <-.
      destruct (T (date_ltb s) l3 l4 E4 pres Hp) as [H3 Hs].
      destruct (Hl3 H3) as [A B]. repeat split; try assumption.
      * intros s' [= <-]. exact Hs.
      * intros b' Eb. discriminate Eb.
  - destruct before as [b|].
    + destruct (T (fun d => date_ltb d b) l3 presclean H pres Hp) as [H3 Hb].
      destruct (Hl3 H3) as [A B]. repeat split; try assumption.
      * intros s' Es. discriminate Es.
      * intros b' [= <-]. exact Hb.
    + injection H as <-. destruct (Hl3 Hp) as [A B].
      repeat split; try assumption; intros x Ex; discriminate Ex.
Qed.

Lemma month_to_int_int v m : py_int v = OK m -> month_to_int v = OK m.
Proof. unfold month_to_int. now intros ->. Qed.

Lemma as_int_py_int v z : as_int v = OK z -> py_int v = OK z.
Proof. destruct v; try discriminate; now intros [= <-]. Qed.

(** The date that the last loop attaches is the date that the window has
    tested. *)
Lemma annotate_fields_date people pres p1 :
  annotate_fields people pres = OK p1 ->
  exists y m d,
    get p1 "begin_month" = Some (VInt m) /\ get p1 "date" = Some (VDate y m d) /\
    as_int (get_default p1 "begin_year" VNone) = OK y /\
    as_int (get_default p1 "begin_day" VNone) = OK d /\
    presdate pres = OK (y, m, d).
Proof.
  unfold annotate_fields. intros H.
  destruct (pres_authors pres) as [pa|]; cbn [bind] in H; [|discriminate].
  destruct (mapM (show_author people) pa) as [names|]; cbn [bind] in H; [|discriminate].
  destruct (join ", " names) as [authorlist|]; cbn [bind] in H; [|discriminate].
  unfold item in H. rewrite get_set_other in H by discriminate.
  destruct (get pres "begin_month") as [m0|] eqn:Gm; cbn [bind] in H; [|discriminate].
  destruct (py_int m0) as [m|] eqn:Em; cbn [bind] in H; [|discriminate].
  rewrite !get_set_other in H by discriminate.
  destruct (get pres "begin_year") as [y0|] eqn:Gy; cbn [bind] in H; [|discriminate].
  destruct (get pres "begin_day") as [d0|] eqn:Gd; cbn [bind] in H; [|discriminate].
  destruct (py_date y0 (VInt m) d0) as [date|] eqn:Edate; cbn [bind] in H;
    [|discriminate].
  unfold py_date in Edate.
  destruct (as_int y0) as [y|] eqn:Ey; cbn [bind] in Edate; [|discriminate].
  change (as_int (VInt m)) with (OK m) in Edate. cbn [bind] in Edate.
  destruct (as_int d0) as [d|] eqn:Ed; cbn [bind] in Edate; [|discriminate].
  destruct (date_ok y m d) eqn:Ok; [|discriminate].
  injection Edate as <-. injection H as <-.
  exists y, m, d. unfold get_default.
  repeat split.
  - rewrite (get_set_other _ "end_day_suffix" _ "begin_month") by discriminate.
    rewrite (get_set_other _ "begin_day_suffix" _ "begin_month") by discriminate.
    rewrite (get_set_other _ "date" _ "begin_month") by discriminate.
    apply get_set_same.
  - rewrite (get_set_other _ "end_day_suffix" _ "date") by discriminate.
    rewrite (get_set_other _ "begin_day_suffix" _ "date") by discriminate.
    apply get_set_same.
  - rewrite (get_set_other _ "end_day_suffix" _ "begin_year") by discriminate.
    rewrite (get_set_other _ "begin_day_suffix" _ "begin_year") by discriminate.
    rewrite (get_set_other _ "date" _ "begin_year") by discriminate.
    rewrite (get_set_other _ "begin_month" _ "begin_year") by discriminate.
    rewrite (get_set_other _ "authors" _ "begin_year") by discriminate.
    rewrite Gy. exact Ey.
  - rewrite (get_set_other _ "end_day_suffix" _ "begin_day") by discriminate.
    rewrite (get_set_other _ "begin_day_suffix" _ "begin_day") by discriminate.
    rewrite (get_set_other _ "date" _ "begin_day") by discriminate.
    rewrite (get_set_other _ "begin_month" _ "begin_day") by discriminate.
    rewrite (get_set_other _ "authors" _ "begin_day") by discriminate.
    rewrite Gd. exact Ed.
  - unfold presdate, item. rewrite Gy, Gm, Gd. cbn [bind].
    rewrite (month_to_int_int _ _ Em), (as_int_py_int _ _ Ed), Ey. cbn [bind].
    now rewrite Ok.
Qed.

Lemma dereference_get institutions pres pres' w k :
  dereference institutions pres = OK (pres', w) ->
  k <> "institution" -> k <> "department" -> get pres' k = get pres k.
Proof.
  unfold dereference. intros H N1 N2.
  destruct (get pres "institution") as [reference|]; [|now injection H as <- _].
  destruct (resolve institutions reference) as [inst|]; [|discriminate].
  assert (R : forall i,
             match get (set pres "institution" i) "department" with
             | Some department =>
                 match lookup_department i department with
                 | OK found => OK (set (set pres "institution" i) "department" found, [])
                 | Raise _ =>
                     id <- py_getitem i (VStr "_id") ;;
                     OK (set (set pres "institution" i) "department"
                             (VDict [("name", department)]),
                         [DepartmentNotFound department id])
                 end
             | None => OK (set pres "institution" i, [])
             end = OK (pres', w) -> get pres' k = get pres k).
  { intros i Hi.
    destruct (get (set pres "institution" i) "department") as [department|].
    - destruct (lookup_department i department) as [found|].
      + injection Hi as <- _. now rewrite !get_set_other by congruence.
      + destruct (py_getitem i (VStr "_id")); cbn [bind] in Hi; [|discriminate].
        injection Hi as <- _. now rewrite !get_set_other by congruence.
    - injection Hi as <- _. now rewrite get_set_other by congruence. }
  destruct inst; try discriminate H; now apply (R _ H).
Qed.

(** X19: every presentation that [filter_presentations] returns has a
    status and a type among those asked for (or ["all"] is asked for), an
    integer [begin_month], and a [date] that is the date of its begin fields,
    strictly after the [since] date and strictly before the [before] date
    when they are given. *)
Theorem filter_presentations_selected
    (people presentations institutions : list dict) (types : list val)
    (since before : option (Z * Z * Z)) (statuses : list val)
    (res : list dict) (printed : list warning) :
  filter_presentations people presentations institutions types since before
    statuses = OK (res, printed) ->
  forall r, In r res -> presentation_selected types statuses since before r.
Proof.
  unfold filter_presentations. intros H r Hr.
  destruct (firstclean people presentations) as [first|]; cbn [bind] in H;
    [|discriminate].
  destruct (select_presentations first types since before statuses)
    as [presclean|] eqn:Es; cbn [bind] in H; [|discriminate].
  destruct (annotate_all people institutions presclean) as [[l' ws]|] eqn:Ea;
    cbn [bind] in H; [|discriminate].
  destruct (py_sorted date_ltb date_key l' true) as [sorted|] eqn:Eo;
    cbn [bind] in H; [|discriminate].
  injection H as <- _.
  apply py_sorted_perm in Eo. apply (Permutation_in _ Eo) in Hr.
  destruct (annotate_all_In _ _ _ _ _ Ea r Hr) as (pres & w & Hp & E).
  destruct (select_presentations_tests _ _ _ _ _ _ Es pres Hp)
    as (Hs & Ht & Hsince & Hbefore).
  unfold annotate in E.
  destruct (annotate_fields people pres) as [p1|] eqn:Ef; cbn [bind] in E;
    [|discriminate].
  destruct (annotate_fields_date people pres p1 Ef)
    as (y & m & d & Gm & Gdate & Gy & Gd & Epd).
  assert (G1 : forall k, k <> "institution" -> k <> "department" ->
                         get r k = get p1 k)
    by (intros k N1 N2; now apply (dereference_get institutions p1 r w k E)).
  assert (G0 : forall k, k <> "authors" -> k <> "begin_month" -> k <> "date" ->
                         k <> "begin_day_suffix" -> k <> "end_day_suffix" ->
                         k <> "institution" -> k <> "department" ->
                         get r k = get pres k).
  { intros k N1 N2 N3 N4 N5 N6 N7. rewrite (G1 k N6 N7).
    now apply (annotate_fields_get people pres p1 k Ef). }
  unfold presentation_selected. split; [|split].
  - unfold allowed_or_all, item in Hs. rewrite G0 by discriminate.
    destruct (get pres "status") as [s|]; cbn [bind] in Hs; [|discriminate].
    exists s. split; [reflexivity|congruence].
  - unfold allowed_or_all, item in Ht. rewrite G0 by discriminate.
    destruct (get pres "type") as [t|]; cbn [bind] in Ht; [|discriminate].
    exists t. split; [reflexivity|congruence].
  - exists y, m, d. unfold get_default in *.
    rewrite !G1 by discriminate.
    split; [exact Gm|]. split; [exact Gdate|]. split; [exact Gy|].
    split; [exact Gd|]. split.
    + intros s Ss. destruct (Hsince s Ss) as (dd & Edd & Hd).
      rewrite Epd in Edd. now injection Edd as <-.
    + intros b Sb. destruct (Hbefore b Sb) as (dd & Edd & Hd).
      rewrite Epd in Edd. now injection Edd as <-.
Qed.

Lemma filter_presentations_selected_witness :
  exists res printed,
    filter_presentations group [talk_other; talk_elsewhere]
      [[("_id", VStr "nowhereu")]] [VStr "plenary"] (Some (2017, 1, 1)) None
      [VStr "accepted"] = OK (res, printed) /\
    forall r, In r res ->
              presentation_selected [VStr "plenary"] [VStr "accepted"]
                (Some (2017, 1, 1)) None r.
Proof.
  eexists _, _. split; [reflexivity|].
  eapply (filter_presentations_selected group [talk_other; talk_elsewhere]
            [[("_id", VStr "nowhereu")]] [VStr "plenary"] (Some (2017, 1, 1)) None
            [VStr "accepted"]).
  reflexivity.
Defined.
(** ** [number_suffix] *)

(** X20: for a day of the month, [number_suffix] is the suffix of the
    English ordinal: "st" for 1, 21 and 31, "nd" for 2 and 22, "rd" for 3 and
    23, "th" for the others.  Beyond 20 only the last digit is read, so that
    111, 112 and 113, and the same in any later hundred, are given "st",
    "nd" and "rd". *)
Theorem number_suffix_days (n k : Z) :
  1 <= n <= 31 -> 1 <= k ->
  (In n [1; 21; 31] -> number_suffix (VInt n) = "st") /\
  (In n [2; 22] -> number_suffix (VInt n) = "nd") /\
  (In n [3; 23] -> number_suffix (VInt n) = "rd") /\
  (~ In n [1; 21; 31; 2; 22; 3; 23] -> number_suffix (VInt n) = "th") /\
  number_suffix (VInt (100 * k + 11)) = "st" /\
  number_suffix (VInt (100 * k + 12)) = "nd" /\
  number_suffix (VInt (100 * k + 13)) = "rd".
Proof.
  intros Hn Hk.
  assert (T : forall j, 11 <= j <= 13 ->
             number_suffix (VInt (100 * k + j))
             = match j with 11 => "st" | 12 => "nd" | _ => "rd" end).
  { intros j Hj. unfold number_suffix.
    replace ((10 <? 100 * k + j) && (100 * k + j <? 20)) with false
      by (symmetry; apply andb_false_iff; right; apply Z.ltb_ge; lia).
    replace ((100 * k + j) mod 10) with (j - 10)
      by (Z.div_mod_to_equations; lia).
    assert (Hc : j = 11 \/ j = 12 \/ j = 13) by lia.
    destruct Hc as [->|[->| ->]]; reflexivity. }
  assert (E : forall l s, (forall x, In x l -> number_suffix (VInt x) = s) ->
                          In n l -> number_suffix (VInt n) = s)
    by (intros l s H I; now apply H).
  split; [|split; [|split; [|split; [|split; [|split]]]]].
  - apply E. intros x H. simpl in H.
    repeat (destruct H as [<-|H]; [reflexivity|]). destruct H.
  - apply E. intros x H. simpl in H.
    repeat (destruct H as [<-|H]; [reflexivity|]). destruct H.
  - apply E. intros x H. simpl in H.
    repeat (destruct H as [<-|H]; [reflexivity|]). destruct H.
  - intros N.
    assert (Hc : n = 4 \/ n = 5 \/ n = 6 \/ n = 7 \/ n = 8 \/ n = 9 \/ n = 10 \/
                 n = 11 \/ n = 12 \/ n = 13 \/ n = 14 \/ n = 15 \/ n = 16 \/
                 n = 17 \/ n = 18 \/ n = 19 \/ n = 20 \/ n = 24 \/ n = 25 \/
                 n = 26 \/ n = 27 \/ n = 28 \/ n = 29 \/ n = 30)
      by (simpl in N; lia).
    repeat (destruct Hc as [Hc|Hc]; [subst n; reflexivity|]).
    subst n. reflexivity.
  - apply (T 11). lia.
  - apply (T 12). lia.
  - apply (T 13). lia.
Qed.

Lemma number_suffix_days_witness :
  (In 22 [1; 21; 31] -> number_suffix (VInt 22) = "st") /\
  (In 22 [2; 22] -> number_suffix (VInt 22) = "nd") /\
  (In 22 [3; 23] -> number_suffix (VInt 22) = "rd") /\
  (~ In 22 [1; 21; 31; 2; 22; 3; 23] -> number_suffix (VInt 22) = "th") /\
  number_suffix (VInt (100 * 1 + 11)) = "st" /\
  number_suffix (VInt (100 * 1 + 12)) = "nd" /\
  number_suffix (VInt (100 * 1 + 13)) = "rd".
Proof. apply (number_suffix_days 22 1); lia. Defined.

(** ** The failures of [month_to_int] *)

Lemma months_get_range k n : months_get MONTHS k = Some n -> 1 <= n <= 12.
Proof.
  unfold MONTHS. cbn [months_get].
  repeat (match goal with
          | |- context [String.eqb k ?s] => destruct (String.eqb k s)
          end; [intros [= <-]; lia|]).
  discriminate.
Qed.

(** X21: [month_to_int] never raises [ValueError]: the one that [int]
    raises on a string is caught.  On a string that is not an integer
    literal it returns a number from 1 to 12, the month named, or raises
    [KeyError]; on a value that is neither a string nor an integer it raises
    [TypeError]. *)
Theorem month_to_int_failures (m : val) :
  month_to_int m <> Raise ValueError /\
  (forall s, m = VStr s -> int_of_string s = None ->
             (exists n, month_to_int m = OK n /\ 1 <= n <= 12) \/
             month_to_int m = Raise KeyError) /\
  (py_int m = Raise TypeError -> month_to_int m = Raise TypeError).
Proof.
  split; [|split].
  - unfold month_to_int.
    destruct m; cbn [py_int]; try discriminate.
    destruct (int_of_string s); [discriminate|].
    destruct (months_get MONTHS (lower s)); discriminate.
  - intros s -> E. unfold month_to_int, py_int. rewrite E.
    destruct (months_get MONTHS (lower s)) as [n|] eqn:G; [|now right].
    left. exists n. split; [reflexivity|]. now apply (months_get_range _ _ G).
  - intros E. unfold month_to_int. now rewrite E.
Qed.

Lemma month_to_int_failures_witness :
  (exists n, month_to_int (VStr "Sept.") = OK n /\ 1 <= n <= 12) \/
  month_to_int (VStr "Sept.") = Raise KeyError.
Proof.
  apply (proj1 (proj2 (month_to_int_failures (VStr "Sept."))) "Sept.");
    reflexivity.
Defined.
(** ** The date predicates and the order of dates *)

Lemma utc_mktime_day_number y m d :
  1 <= m <= 12 -> utc_mktime (y, m, d) = 86400 * (day_number (y, m, d) - 719468).
Proof.
  intros Hm. unfold utc_mktime, day_number, days_before_march.
  assert (S : (153 * ((m + 9) mod 12) + 2) / 5 = days_before_month m).
  { assert (Hc : m = 1 \/ m = 2 \/ m = 3 \/ m = 4 \/ m = 5 \/ m = 6 \/ m = 7 \/
                 m = 8 \/ m = 9 \/ m = 10 \/ m = 11 \/ m = 12) by lia.
    repeat (destruct Hc as [Hc|Hc]; [subst m; reflexivity|]).
    subst m. reflexivity. }
  rewrite S. generalize (days_before_month m). intros s.
  generalize (if m <=? 2 then y - 1 else y). intros y'.
  assert (A4 : (y' - y' / 400 * 400) / 4 = y' / 4 - 100 * (y' / 400))
    by (Z.div_mod_to_equations; lia).
  assert (A100 : (y' - y' / 400 * 400) / 100 = y' / 100 - 4 * (y' / 400))
    by (Z.div_mod_to_equations; lia).
  rewrite A4, A100. lia.
Qed.

Lemma days_before_march_step y :
  days_before_march y + 365 + (if isleap (y + 1) then 1 else 0)
  = days_before_march (y + 1).
Proof.
  unfold days_before_march, isleap.
  destruct ((y + 1) mod 4 =? 0) eqn:E4;
    [apply Z.eqb_eq in E4|apply Z.eqb_neq in E4];
    (destruct ((y + 1) mod 100 =? 0) eqn:E100;
     [apply Z.eqb_eq in E100|apply Z.eqb_neq in E100]);
    (destruct ((y + 1) mod 400 =? 0) eqn:E400;
     [apply Z.eqb_eq in E400|apply Z.eqb_neq in E400]);
    cbn [negb andb orb]; Z.div_mod_to_equations; lia.
Qed.

Lemma days_before_march_mono y n :
  0 <= n -> days_before_march y + 365 * n <= days_before_march (y + n).
Proof.
  intros Hn. revert y. pattern n. apply natlike_ind; [| |exact Hn].
  - intros y. replace (y + 0) with y by lia. lia.
  - intros k Hk IH y. specialize (IH (y + 1)).
    pose proof (days_before_march_step y) as S.
    replace (y + Z.succ k) with (y + 1 + k) by lia.
    destruct (isleap (y + 1)); lia.
Qed.

Lemma month_length y m d :
  1 <= d <= days_in_month y m ->
  1 <= d <= mdays m + (if m =? 2 then (if isleap y then 1 else 0) else 0).
Proof.
  unfold days_in_month. destruct (m =? 2); cbn [andb]; [|lia].
  destruct (isleap y); lia.
Qed.

Ltac month_cases m :=
  let Hc := fresh "Hc" in
  assert (Hc : m = 1 \/ m = 2 \/ m = 3 \/ m = 4 \/ m = 5 \/ m = 6 \/ m = 7 \/
               m = 8 \/ m = 9 \/ m = 10 \/ m = 11 \/ m = 12) by lia;
  repeat (destruct Hc as [Hc|Hc]; [subst m|]); [..|subst m].

Ltac month_table :=
  cbv [days_before_month mdays Z.eqb Pos.eqb Z.leb Z.compare Pos.compare
       Pos.compare_cont] in *.

(** The place of a date in the year that starts in March. *)
Lemma month_offset_bounds y m d :
  1 <= m <= 12 -> 1 <= d <= days_in_month y m ->
  0 <= days_before_month m + d - 1 /\
  (3 <= m -> days_before_month m + d - 1 <= 305) /\
  (m <= 2 -> 306 <= days_before_month m + d - 1
             <= 364 + (if isleap y then 1 else 0)).
Proof.
  intros Hm Hd. apply month_length in Hd.
  month_cases m; month_table; destruct (isleap y); lia.
Qed.

Lemma month_offset_order y m1 d1 m2 d2 :
  1 <= m1 <= 12 -> 1 <= m2 <= 12 ->
  1 <= d1 <= days_in_month y m1 -> 1 <= d2 ->
  (m1 <= 2 <-> m2 <= 2) -> m1 < m2 ->
  days_before_month m1 + d1 < days_before_month m2 + d2.
Proof.
  intros H1 H2 Hd1 Hd2 Side L. apply month_length in Hd1.
  month_cases m1; month_cases m2; try lia; month_table;
    destruct (isleap y); lia.
Qed.

Lemma day_number_increasing y1 m1 d1 y2 m2 d2 :
  date_ok y1 m1 d1 = true -> date_ok y2 m2 d2 = true ->
  date_ltb (y1, m1, d1) (y2, m2, d2) = true ->
  day_number (y1, m1, d1) < day_number (y2, m2, d2).
Proof.
  intros H1 H2 L. apply date_ltb_spec in L.
  destruct (date_ok_bounds _ _ _ H1) as (_ & Hm1 & Hd1).
  destruct (date_ok_bounds _ _ _ H2) as (_ & Hm2 & Hd2).
  pose proof (month_offset_bounds y1 m1 d1 Hm1 Hd1) as (A1 & B1 & C1).
  pose proof (month_offset_bounds y2 m2 d2 Hm2 Hd2) as (A2 & B2 & C2).
  unfold day_number.
  destruct (m1 <=? 2) eqn:E1, (m2 <=? 2) eqn:E2;
    try apply Z.leb_le in E1; try apply Z.leb_le in E2;
    try apply Z.leb_gt in E1; try apply Z.leb_gt in E2.
  - (* both in January or February *)
    assert (Cy : y1 < y2 \/ y1 = y2) by lia. destruct Cy as [Cy|Cy].
    + pose proof (days_before_march_step (y1 - 1)) as S.
      replace (y1 - 1 + 1) with y1 in S by lia.
      pose proof (days_before_march_mono y1 (y2 - 1 - y1) ltac:(lia)) as M.
      replace (y1 + (y2 - 1 - y1)) with (y2 - 1) in M by lia.
      destruct (isleap y1); lia.
    + subst y2.
      assert (Cm : m1 < m2 \/ (m1 = m2 /\ d1 < d2)) by lia.
      destruct Cm as [Cm|[-> Cd]]; [|lia].
      pose proof (month_offset_order y1 m1 d1 m2 d2 Hm1 Hm2 Hd1 ltac:(lia)
                    ltac:(lia) Cm). lia.
  - (* January or February, then March to December *)
    assert (Cy : y1 <= y2) by lia.
    pose proof (days_before_march_step (y1 - 1)) as S.
    replace (y1 - 1 + 1) with y1 in S by lia.
    pose proof (days_before_march_mono y1 (y2 - y1) ltac:(lia)) as M.
    replace (y1 + (y2 - y1)) with y2 in M by lia.
    destruct (isleap y1); lia.
  - (* March to December, then January or February *)
    assert (Cy : y1 < y2) by lia.
    pose proof (days_before_march_mono y1 (y2 - 1 - y1) ltac:(lia)) as M.
    replace (y1 + (y2 - 1 - y1)) with (y2 - 1) in M by lia.
    lia.
  - (* both from March to December *)
    assert (Cy : y1 < y2 \/ y1 = y2) by lia. destruct Cy as [Cy|Cy].
    + pose proof (days_before_march_step y1) as S.
      pose proof (days_before_march_mono (y1 + 1) (y2 - y1 - 1) ltac:(lia)) as M.
      replace (y1 + 1 + (y2 - y1 - 1)) with y2 in M by lia.
      destruct (isleap (y1 + 1)); lia.
    + subst y2.
      assert (Cm : m1 < m2 \/ (m1 = m2 /\ d1 < d2)) by lia.
      destruct Cm as [Cm|[-> Cd]]; [|lia].
      pose proof (month_offset_order y1 m1 d1 m2 d2 Hm1 Hm2 Hd1 ltac:(lia)
                    ltac:(lia) Cm). lia.
Qed.

Lemma date_leb_ltb a b : date_leb a b = negb (date_ltb b a).
Proof.
  destruct a as [[y1 m1] d1], b as [[y2 m2] d2].
  unfold date_leb, date_ltb, date_compare.
  destruct (Z.compare_spec y1 y2), (Z.compare_spec y2 y1); try lia; try reflexivity.
  destruct (Z.compare_spec m1 m2), (Z.compare_spec m2 m1); try lia; try reflexivity.
  destruct (Z.compare_spec d1 d2), (Z.compare_spec d2 d1); try lia; reflexivity.
Qed.

(** The clock of a machine set to UTC grows with the date. *)
Lemma utc_mktime_increasing : increasing utc_mktime.
Proof.
  intros y1 m1 d1 y2 m2 d2 H1 H2.
  destruct (date_ok_bounds _ _ _ H1) as (_ & Hm1 & _).
  destruct (date_ok_bounds _ _ _ H2) as (_ & Hm2 & _).
  rewrite !utc_mktime_day_number by assumption.
  rewrite date_leb_ltb.
  destruct (date_ltb (y2, m2, d2) (y1, m1, d1)) eqn:L; cbn [negb].
  - apply Z.leb_gt.
    pose proof (day_number_increasing _ _ _ _ _ _ H2 H1 L). lia.
  - apply Z.leb_le.
    destruct (date_ltb (y1, m1, d1) (y2, m2, d2)) eqn:L'.
    + pose proof (day_number_increasing _ _ _ _ _ _ H1 H2 L'). lia.
    + assert (N1 : ~ date_ltb (y2, m2, d2) (y1, m1, d1) = true) by congruence.
      assert (N2 : ~ date_ltb (y1, m1, d1) (y2, m2, d2) = true) by congruence.
      rewrite date_ltb_spec in N1, N2.
      assert (y1 = y2 /\ m1 = m2 /\ d1 = d2) as (-> & -> & ->) by lia. lia.
Qed.

(** X22: with a clock that grows with the date, and years of four digits,
    [is_since] tells whether the date given is on or after the since date,
    [is_before] whether it is on or before the before date, and [is_between]
    whether it is both. *)
Theorem date_predicates_order (mktime : Z * Z * Z -> Z)
    (y k d sy sk sd by_ bk bd : Z) (m sm bm : val) :
  increasing mktime ->
  month_to_int m = OK k -> month_to_int sm = OK sk -> month_to_int bm = OK bk ->
  1000 <= y -> 1000 <= sy -> 1000 <= by_ ->
  date_ok y k d = true -> date_ok sy sk sd = true -> date_ok by_ bk bd = true ->
  is_since mktime (VInt y) (VInt sy) m (VInt d) sm (VInt sd)
  = OK (date_leb (sy, sk, sd) (y, k, d)) /\
  is_before mktime (VInt y) (VInt by_) m (VInt d) bm (VInt bd)
  = OK (date_leb (y, k, d) (by_, bk, bd)) /\
  is_between mktime (VInt y) (VInt sy) (VInt by_) m (VInt d) sm (VInt sd)
    bm (VInt bd)
  = OK (date_leb (sy, sk, sd) (y, k, d) && date_leb (y, k, d) (by_, bk, bd)).
Proof.
  intros I Hm Hsm Hbm Hy Hsy Hby Hd Hsd Hbd.
  assert (T : forall z yy kk, date_ok yy kk z = true -> truthy (VInt z) = true).
  { intros z yy kk Hz. destruct (date_ok_bounds _ _ _ Hz) as (_ & _ & B).
    simpl. destruct (z =? 0) eqn:Z0; [lia|reflexivity]. }
  assert (S : is_since mktime (VInt y) (VInt sy) m (VInt d) sm (VInt sd)
              = OK (date_leb (sy, sk, sd) (y, k, d))).
  { unfold is_since. rewrite Hm, Hsm. cbn [bind].
    rewrite (timestamp_date mktime sy sk sd Hsy Hsd). cbn [bind].
    rewrite (timestamp_date mktime y k d Hy Hd). cbn [bind].
    f_equal. now apply I. }
  assert (B : is_before mktime (VInt y) (VInt by_) m (VInt d) bm (VInt bd)
              = OK (date_leb (y, k, d) (by_, bk, bd))).
  { unfold is_before, default_last_day.
    rewrite (T d y k Hd), (T bd by_ bk Hbd), Hm, Hbm. cbn [bind].
    rewrite (timestamp_date mktime by_ bk bd Hby Hbd). cbn [bind].
    rewrite (timestamp_date mktime y k d Hy Hd). cbn [bind].
    f_equal. rewrite Z.geb_leb. now apply I. }
  split; [exact S|]. split; [exact B|].
  unfold is_between, default_last_day. rewrite (T bd by_ bk Hbd). cbn [bind].
  rewrite S. cbn [bind]. rewrite B.
  destruct (date_leb (sy, sk, sd) (y, k, d)); reflexivity.
Qed.

Lemma date_predicates_order_witness :
  is_since utc_mktime (VInt 2020) (VInt 2019) (VStr "Mar") (VInt 1)
    (VStr "dec") (VInt 31)
  = OK (date_leb (2019, 12, 31) (2020, 3, 1)) /\
  is_before utc_mktime (VInt 2020) (VInt 2020) (VStr "Mar") (VInt 1)
    (VInt 2) (VInt 29)
  = OK (date_leb (2020, 3, 1) (2020, 2, 29)) /\
  is_between utc_mktime (VInt 2020) (VInt 2019) (VInt 2020) (VStr "Mar") (VInt 1)
    (VStr "dec") (VInt 31) (VInt 2) (VInt 29)
  = OK (date_leb (2019, 12, 31) (2020, 3, 1) && date_leb (2020, 3, 1) (2020, 2, 29)).
Proof.
  apply (date_predicates_order utc_mktime 2020 3 1 2019 12 31 2020 2 29
           (VStr "Mar") (VStr "dec") (VInt 2) utc_mktime_increasing);
    try reflexivity; lia.
Defined.

(** ** The short month names *)

(** X23: the names that the filters write are read back as the month they
    name: for a month number from 1 to 12, [month_to_int] of the entry of
    [SHORT_MONTH_NAMES] at that number is the number; hence [month_and_year]
    renders a month given by its short name with the same name. *)
Theorem short_month_names_read_back (k : Z) (y : val) :
  1 <= k <= 12 ->
  exists name,
    py_getitem SHORT_MONTH_NAMES (VInt k) = OK (VStr name) /\
    month_to_int (VStr name) = OK k /\
    (y <> VNone ->
     month_and_year (VStr name) y = OK (name ++ " " ++ py_format y)).
Proof.
  intros Hk.
  assert (Hc : k = 1 \/ k = 2 \/ k = 3 \/ k = 4 \/ k = 5 \/ k = 6 \/ k = 7 \/
               k = 8 \/ k = 9 \/ k = 10 \/ k = 11 \/ k = 12) by lia.
  repeat (destruct Hc as [Hc|Hc];
          [subst k; eexists; split; [reflexivity|]; split; [reflexivity|];
           intros Hy; destruct y; try contradiction; reflexivity|]).
  subst k; eexists; split; [reflexivity|]; split; [reflexivity|].
  intros Hy; destruct y; try contradiction; reflexivity.
Qed.

Lemma short_month_names_read_back_witness :
  exists name,
    py_getitem SHORT_MONTH_NAMES (VInt 9) = OK (VStr name) /\
    month_to_int (VStr name) = OK 9 /\
    (VInt 2019 <> VNone ->
     month_and_year (VStr name) (VInt 2019)
     = OK (name ++ " " ++ py_format (VInt 2019))).
Proof. apply (short_month_names_read_back 9 (VInt 2019)). lia. Defined.
(** ** The completeness of [merge_collections] *)

Section Presence.

Context {A : Type}.
Implicit Types d : list (val * A).

Lemma vset_key_kept d k v k' v' :
  In (k', v') d -> exists v'', In (k', v'') (vset d k v).
Proof.
  induction d as [|[k1 v1] d IH]; simpl; [intros []|].
  intros [H|H].
  - injection H as -> ->. destruct (py_eq k' k); eexists; now left.
  - destruct (py_eq k1 k).
    + exists v'. now right.
    + destruct (IH H) as (v'' & Hin). exists v''. now right.
Qed.

Lemma vset_present_other d k v k1 : present d k1 -> present (vset d k v) k1.
Proof.
  intros (k' & v' & Hin & E).
  destruct (vset_key_kept d k v k' v' Hin) as (v'' & Hin').
  now exists k', v''.
Qed.

Lemma vset_present_same d k v : hashable k = true -> present (vset d k v) k.
Proof.
  intros Hk. induction d as [|[k1 v1] d IH]; simpl.
  - exists k, v. split; [now left|now apply py_eq_refl].
  - destruct (py_eq k1 k) eqn:E.
    + exists k1, v. split; [now left|exact E].
    + destruct IH as (k' & v' & Hin & E'). exists k', v'. split; [now right|exact E'].
Qed.

Lemma vset_fresh d k v :
  Forall (fun kv => py_eq (fst kv) k = false) d -> vset d k v = (d ++ [(k, v)])%list.
Proof.
  induction 1 as [|[k1 v1] d E _ IH]; simpl; [reflexivity|].
  simpl in E. now rewrite E, IH.
Qed.

End Presence.

Lemma index_by_id_present coll :
  forall acc idx,
    index_by_id coll acc = OK idx ->
    (forall k, present acc k -> present idx k) /\
    (forall x, In x coll -> present idx (doc_id x)).
Proof.
  induction coll as [|d coll IH]; simpl; intros acc idx H.
  - injection H as <-. split; [auto|intros x []].
  - fold (doc_id d) in H. destruct (hashable (doc_id d)) eqn:Hd; [|discriminate].
    destruct (IH _ _ H) as [P1 P2]. split.
    + intros k Hk. now apply P1, vset_present_other.
    + intros x [<-|Hx]; [|now apply P2].
      now apply P1, vset_present_same.
Qed.

Lemma index_by_id_distinct coll :
  forall acc,
    distinct_ids coll ->
    Forall (fun d => hashable (doc_id d) = true) coll ->
    Forall (fun kv => Forall (fun y => py_eq (fst kv) (doc_id y) = false) coll) acc ->
    index_by_id coll acc = OK (acc ++ map (fun y => (doc_id y, y)) coll)%list.
Proof.
  induction coll as [|d coll IH]; simpl; intros acc D Hh Hacc.
  - now rewrite app_nil_r.
  - inversion D as [|? ? Fd D']; subst. inversion Hh as [|? ? Hd Hh']; subst.
    fold (doc_id d). rewrite Hd.
    rewrite vset_fresh.
    + rewrite IH; [now rewrite <- app_assoc|exact D'|exact Hh'|].
      apply Forall_app. split.
      * eapply Forall_impl; [|exact Hacc]. intros kv F. now inversion F.
      * constructor; [exact Fd|constructor].
    + eapply Forall_impl; [|exact Hacc]. intros kv F. now inversion F.
Qed.

Lemma link_all_present target_id k :
  forall bitems acc,
    (forall k1, present acc k1 -> present (link_all bitems target_id k acc) k1) /\
    (hashable k = true ->
     forall kk v, In (kk, v) bitems ->
                  py_eq (foreign_key target_id v) k = true ->
                  present (link_all bitems target_id k acc) k).
Proof.
  induction bitems as [|[kk0 v0] r IH]; simpl; intros acc.
  - split; [auto|intros _ kk v []].
  - fold (foreign_key target_id v0).
    destruct (IH (if py_eq (foreign_key target_id v0) k
                  then vset acc k kk0 else acc)) as [P1 P2].
    split.
    + intros k1 Hk1. apply P1.
      destruct (py_eq (foreign_key target_id v0) k); [|exact Hk1].
      now apply vset_present_other.
    + intros Hk kk v [H|H] E.
      * injection H as -> ->. apply P1. rewrite E. now apply vset_present_same.
      * now apply (P2 Hk kk v).
Qed.

Lemma link_keys_present bdict target_id :
  forall keys acc,
    (forall k1, present acc k1 ->
                present (link_keys keys bdict target_id acc) k1) /\
    (forall k kk v, In k keys -> hashable k = true -> In (kk, v) bdict ->
                    py_eq (foreign_key target_id v) k = true ->
                    present (link_keys keys bdict target_id acc) k).
Proof.
  induction keys as [|k0 r IH]; simpl; intros acc.
  - split; [auto|intros k kk v []].
  - destruct (IH (link_all bdict target_id k0 acc)) as [P1 P2].
    destruct (link_all_present target_id k0 bdict acc) as [Q1 Q2].
    split.
    + intros k1 Hk1. now apply P1, Q1.
    + intros k kk v [<-|Hk] Hh Hin E.
      * apply P1. now apply (Q2 Hh kk v).
      * now apply (P2 k kk v).
Qed.

Lemma chain_all_filed a adict bdict :
  indexed a adict ->
  forall items chained res,
    Forall (fun kv => hashable (fst kv) = true) items ->
    Forall filed chained ->
    chain_all adict bdict items chained = OK res ->
    Forall filed res /\
    (forall k, present chained k -> present res k) /\
    (forall k kk, In (k, kk) items -> present res k).
Proof.
  intros (Da & Ka & Pa).
  induction items as [|[k kk] r IH]; simpl; intros chained res Hk Hc H.
  - injection H as <-. split; [exact Hc|]. split; [auto|intros k kk []].
  - inversion Hk as [|? ? Hk0 Hk']; subst. simpl in Hk0.
    unfold vitem in H.
    destruct (vget adict k) as [x|] eqn:Gx; cbn [bind] in H; [|discriminate].
    destruct (vget bdict kk) as [y|]; cbn [bind] in H; [|discriminate].
    destruct (vget_In _ _ _ Gx) as (k' & Hin & E).
    rewrite Forall_forall in Pa, Ka.
    destruct (Pa _ Hin) as (_ & Hx & Ex). pose proof (Ka _ Hin) as Hk'0.
    simpl in Hx, Ex, Hk'0.
    assert (Ekx : py_eq k (doc_id x) = true).
    { apply (py_eq_trans _ k'); auto. rewrite py_eq_sym; auto. }
    assert (Hc1 : Forall filed (vset chained k {| inferior := x; superior := y |})).
    { apply Forall_forall. intros [k1 c] Hin1.
      rewrite Forall_forall in Hc.
      destruct (vset_In _ _ _ _ _ Hin1) as [Hold|(-> & [->|(E1 & c' & Hold)])].
      - now apply Hc.
      - repeat split; assumption.
      - destruct (Hc _ Hold) as (Hk1 & _ & _). simpl in Hk1.
        repeat split; simpl; [exact Hk1|exact Hx|].
        apply (py_eq_trans _ k); auto. }
    destruct (IH _ _ Hk' Hc1 H) as (F & P1 & P2).
    split; [exact F|]. split.
    + intros k1 Hk1. now apply P1, vset_present_other.
    + intros k1 kk1 [H1|H1].
      * injection H1 as <- <-. now apply P1, vset_present_same.
      * now apply (P2 k1 kk1).
Qed.

(** X24: [merge_collections] loses no link: when the documents of the
    superior collection have pairwise different [_id]s, every document of the
    inferior collection that a superior document refers to is represented
    in the result, by a merged document whose inferior layer has its
    [_id]. *)
Theorem merge_collections_complete
    (a b : list dict) (target_id : string) (merged : list ChainDB) (x y : dict) :
  merge_collections a b target_id = OK merged ->
  distinct_ids b -> In x a -> In y b ->
  py_eq (foreign_key target_id y) (doc_id x) = true ->
  exists c, In c merged /\ py_eq (doc_id (inferior c)) (doc_id x) = true.
Proof.
  unfold merge_collections. intros H D Hx Hy E.
  destruct (index_by_id a []) as [adict|] eqn:Ea; cbn [bind] in H; [|discriminate].
  destruct (index_by_id b []) as [bdict|] eqn:Eb; cbn [bind] in H; [|discriminate].
  destruct (chain_all adict bdict _ []) as [res|] eqn:Ec; cbn [bind] in H;
    [|discriminate].
  injection H as <-.
  pose proof (index_by_id_hashable _ _ _ Ea) as Ha.
  pose proof (index_by_id_hashable _ _ _ Eb) as Hb.
  destruct (index_by_id_indexed a a [] Ha (incl_refl _) (indexed_nil _))
    as (adict' & Ea' & Ia). rewrite Ea in Ea'. injection Ea' as <-.
  destruct (index_by_id_indexed b b [] Hb (incl_refl _) (indexed_nil _))
    as (bdict' & Eb' & Ib). rewrite Eb in Eb'. injection Eb' as <-.
  rewrite (index_by_id_distinct b [] D Hb ltac:(constructor)) in Eb.
  injection Eb as Eb. simpl in Eb.
  assert (Hyb : In (doc_id y, y) bdict)
    by (rewrite <- Eb; apply in_map_iff; now exists y).
  destruct (proj2 (index_by_id_present a [] adict Ea) x Hx) as (ka & xa & Hka & Eka).
  pose proof Ia as (_ & Ka & _).
  rewrite Forall_forall in Ha, Ka.
  pose proof (Ka _ Hka) as Hhka. simpl in Hhka.
  pose proof (Ha _ Hx) as Hhx.
  assert (Ef : py_eq (foreign_key target_id y) ka = true).
  { apply (py_eq_trans _ (doc_id x)); auto. rewrite py_eq_sym; auto. }
  assert (Hkeys : Forall (fun k => hashable k = true) (map fst adict))
    by (apply Forall_map, Forall_forall; intros kv Hkv; now apply Ka).
  destruct (proj2 (link_keys_present bdict target_id (map fst adict) [])
              ka (doc_id y) y) as (k1 & kk & Hk1 & Ek1); auto.
  { apply in_map_iff. now exists (ka, xa). }
  pose proof (link_keys_linked (map fst adict) bdict target_id Hkeys
                (map fst adict) [] (incl_refl _) ltac:(constructor)) as L.
  assert (Hitems : Forall (fun kv : val * val => hashable (fst kv) = true)
                     (link_keys (map fst adict) bdict target_id [])).
  { eapply Forall_impl; [|exact L]. intros kv (Hin & _).
    rewrite Forall_forall in Hkeys. now apply Hkeys. }
  destruct (chain_all_filed a adict bdict Ia _ [] res Hitems ltac:(constructor) Ec)
    as (F & _ & P).
  destruct (P k1 kk Hk1) as (k2 & c & Hc & Ek2).
  exists c. split; [apply in_map_iff; now exists (k2, c)|].
  rewrite Forall_forall in F, Hitems.
  destruct (F _ Hc) as (Hh2 & Hhc & E2). simpl in Hh2, Hhc, E2.
  pose proof (Hitems _ Hk1) as Hh1. simpl in Hh1.
  rewrite py_eq_sym in E2 by assumption.
  apply (py_eq_trans _ k2); auto.
  apply (py_eq_trans _ k1); auto.
  apply (py_eq_trans _ ka); auto.
Qed.

Lemma merge_collections_complete_witness :
  exists c,
    In c [ {| inferior := nth 0 proposals []; superior := nth 0 grants [] |} ] /\
    py_eq (doc_id (inferior c)) (doc_id (nth 0 proposals [])) = true.
Proof.
  apply (merge_collections_complete proposals grants "proposal_id" _
           (nth 0 proposals []) (nth 0 grants [])).
  - reflexivity.
  - repeat constructor.
  - now left.
  - now left.
  - reflexivity.
Defined.
